(** * Orbital-Guardian: [src/orbit_propagation.py]

    A shallow embedding of the TLE parser ([parse_tle_data]), of the
    catalog assembler ([to_space_object]) and of the cache of element sets
    with its update ([fetch_celestrak_tle], [save_tle_data], [needs_update],
    [load_tle_data], [update_all_tle_data]), together with the part of the
    Python runtime they call: [str] methods, [int()] and [float()] on text,
    binary64 arithmetic, [**], [round], [timedelta] and [datetime].

    Conventions.
    - A Python [str] is a [string]; a character is its code point, so the
      model covers text whose code points are below 256.
    - A Python [float] is a [spec_float] at precision 53 and maximal exponent
      1024 (IEEE 754 binary64, round to nearest even).
    - A Python exception is a value of [exn]; code that may raise returns a
      [result].  Only the class of an exception is kept, not its message.
    - The C library's [pow], which CPython calls for the general case of
      [**], is a parameter of the definitions that reach it.
    - Code that acts on files, on the network, on the clock or on the
      standard output is a function from a state to an outcome, with an
      environment for what it reads from outside. *)

From Stdlib Require Import ZArith List String Ascii Bool Lia.
From Stdlib Require Import SpecFloat.
Import ListNotations.

Local Open Scope string_scope.
Local Open Scope Z_scope.

(** ** Exceptions and results *)

Inductive exn : Type :=
| ValueError
| ZeroDivisionError
| OverflowError
| TypeError.

Inductive result (A : Type) : Type :=
| Ok (a : A)
| Raise (e : exn).

Arguments Ok {A} a.
Arguments Raise {A} e.

Definition bind {A B : Type} (c : result A) (k : A -> result B) : result B :=
  match c with
  | Ok a => k a
  | Raise e => Raise e
  end.

Notation "x <- c ;; k" := (bind c (fun x => k))
  (at level 61, c at next level, right associativity).

Definition is_ok {A : Type} (c : result A) : bool :=
  match c with Ok _ => true | Raise _ => false end.

(** ** Text *)

Module Str.

Definition code (c : ascii) : nat := nat_of_ascii c.

Definition between (lo hi : nat) (c : ascii) : bool :=
  (Nat.leb lo (code c) && Nat.leb (code c) hi)%bool.

(** [str.isspace] on one character: the whitespace of [str.strip()]. *)
Definition isspace (c : ascii) : bool :=
  (between 9 13 c || between 28 32 c
   || Nat.eqb (code c) 133 || Nat.eqb (code c) 160)%bool.

Section StripBy.
Variable drop_it : ascii -> bool.

Fixpoint lstrip_by (s : string) : string :=
  match s with
  | String c r => if drop_it c then lstrip_by r else s
  | EmptyString => EmptyString
  end.

Fixpoint rstrip_by (s : string) : string :=
  match s with
  | String c r =>
      match rstrip_by r with
      | EmptyString => if drop_it c then EmptyString else String c EmptyString
      | r' => String c r'
      end
  | EmptyString => EmptyString
  end.
End StripBy.

(** [s.strip()] *)
Definition strip (s : string) : string :=
  rstrip_by isspace (lstrip_by isspace s).

(** [s.split(sep)] for a separator of one character: never empty. *)
Fixpoint split (sep : ascii) (s : string) : list string :=
  match s with
  | EmptyString => [EmptyString]
  | String c r =>
      if Ascii.eqb c sep then EmptyString :: split sep r
      else match split sep r with
           | h :: t => String c h :: t
           | [] => [String c EmptyString]
           end
  end.

Fixpoint drop (n : nat) (s : string) : string :=
  match n, s with
  | O, _ => s
  | S n', String _ r => drop n' r
  | S _, EmptyString => EmptyString
  end.

Fixpoint take (n : nat) (s : string) : string :=
  match n, s with
  | S n', String c r => String c (take n' r)
  | _, _ => EmptyString
  end.

(** [s[a:b]] for constants [0 <= a <= b]: out-of-range bounds are clamped. *)
Definition slice (a b : nat) (s : string) : string := take (b - a) (drop a s).

Definition lower_char (c : ascii) : ascii :=
  if (between 65 90 c
      || (between 192 222 c && negb (Nat.eqb (code c) 215)))%bool
  then ascii_of_nat (code c + 32) else c.

(** [s.lower()] *)
Fixpoint lower (s : string) : string :=
  match s with
  | String c r => String (lower_char c) (lower r)
  | EmptyString => EmptyString
  end.

(** [sub in s] *)
Fixpoint contains (sub s : string) : bool :=
  if prefix sub s then true
  else match s with
       | String _ r => contains sub r
       | EmptyString => false
       end.

Definition is_digit (c : ascii) : bool := between 48 57 c.

Definition digit_val (c : ascii) : Z := Z.of_nat (code c - 48).

End Str.

(** ** Numbers *)

Module Flt.

Definition prec : Z := 53.
Definition emax : Z := 1024.

(** A Python [float]. *)
Definition float : Type := spec_float.

Definition fadd : float -> float -> float := SFadd prec emax.
Definition fsub : float -> float -> float := SFsub prec emax.
Definition fmul : float -> float -> float := SFmul prec emax.
Definition fltb : float -> float -> bool := SFltb.
Definition fleb : float -> float -> bool := SFleb.
Definition feqb : float -> float -> bool := SFeqb.

Definition is_nan (x : float) : bool :=
  match x with S754_nan => true | _ => false end.
Definition is_inf (x : float) : bool :=
  match x with S754_infinity _ => true | _ => false end.
Definition is_zero (x : float) : bool :=
  match x with S754_zero _ => true | _ => false end.

(** [a / b] on floats: a zero divisor raises, whatever the dividend. *)
Definition fdiv (a b : float) : result float :=
  if is_zero b then Raise ZeroDivisionError else Ok (SFdiv prec emax a b).

(** The float nearest to [(-1)^neg * m * 10^e], for [0 <= m]. *)
Definition of_decimal (neg : bool) (m e : Z) : float :=
  match m with
  | Zpos p =>
      match e with
      | Z0 => binary_round prec emax neg p 0
      | Zpos k => binary_round prec emax neg (p * Pos.pow 10 k) 0
      | Zneg k =>
          SFdiv prec emax (S754_finite neg p 0)
                          (S754_finite false (Pos.pow 10 k) 0)
      end
  | _ => S754_zero neg
  end.

(** The float of a Python [int] operand (exact below 2^53). *)
Definition of_int (z : Z) : float := binary_normalize prec emax z 0 false.

(** *** Reading numbers from text *)

(** Whitespace as [int()] and [float()] skip it: the C locale's, and the
    two non-ASCII spaces below 256, which CPython rewrites to a blank. *)
Definition is_ws (c : ascii) : bool :=
  (Str.between 9 13 c || Nat.eqb (Str.code c) 32
   || Nat.eqb (Str.code c) 133 || Nat.eqb (Str.code c) 160)%bool.

Definition sign_of (s : string) : bool * string :=
  match s with
  | String "-" r => (true, r)
  | String "+" r => (false, r)
  | _ => (false, s)
  end.

(** A run of decimal digits, continuing the value [acc]: the value, the
    number of digits read, and the rest of the text. *)
Fixpoint digits (acc n : Z) (s : string) : Z * Z * string :=
  match s with
  | String c r =>
      if Str.is_digit c then digits (10 * acc + Str.digit_val c) (n + 1) r
      else (acc, n, s)
  | EmptyString => (acc, n, s)
  end.

(** The digits of [int()]: single underscores are allowed between digits. *)
Fixpoint digits_us (acc n : Z) (s : string) : Z * Z * string :=
  match s with
  | String c r =>
      if Str.is_digit c then digits_us (10 * acc + Str.digit_val c) (n + 1) r
      else if Ascii.eqb c "_" then
        match r with
        | String d r' =>
            if Str.is_digit d
            then digits_us (10 * acc + Str.digit_val d) (n + 1) r'
            else (acc, n, s)
        | EmptyString => (acc, n, s)
        end
      else (acc, n, s)
  | EmptyString => (acc, n, s)
  end.

(** [int(s)] *)
Definition int_of_str (s : string) : result Z :=
  let '(neg, s1) := sign_of (Str.lstrip_by is_ws s) in
  match s1 with
  | String c _ =>
      if Str.is_digit c then
        let '(v, _, rest) := digits_us 0 0 s1 in
        match Str.lstrip_by is_ws rest with
        | EmptyString => Ok (if neg then - v else v)
        | _ => Raise ValueError
        end
      else Raise ValueError
  | EmptyString => Raise ValueError
  end.

(** [float()] first checks the underscores of the whole text (each must
    stand between two digits) and removes them. *)
Fixpoint drop_underscores (prev : ascii) (s : string) : option string :=
  match s with
  | EmptyString => if Ascii.eqb prev "_" then None else Some EmptyString
  | String c r =>
      if Ascii.eqb c "_" then
        if Str.is_digit prev then drop_underscores c r else None
      else if (Ascii.eqb prev "_" && negb (Str.is_digit c))%bool then None
      else option_map (String c) (drop_underscores c r)
  end.

Definition exponent (s : string) : Z * string :=
  match s with
  | String c r =>
      if (Ascii.eqb c "e" || Ascii.eqb c "E")%bool then
        let '(eneg, r1) := sign_of r in
        let '(v, n, r2) := digits 0 0 r1 in
        if n =? 0 then (0, s) else (if eneg then - v else v, r2)
      else (0, s)
  | EmptyString => (0, s)
  end.

(** A decimal number with an optional fraction and exponent; at least one
    digit is required. The result is correctly rounded. *)
Definition parse_number (s : string) : option (float * string) :=
  let '(neg, s1) := sign_of s in
  let '(ip, n1, s2) := digits 0 0 s1 in
  let '(m, n2, s3) :=
    match s2 with
    | String "." r => digits ip 0 r
    | _ => (ip, 0, s2)
    end in
  if n1 + n2 =? 0 then None
  else let '(ex, s4) := exponent s3 in
       Some (of_decimal neg m (ex - n2), s4).

Definition ascii_lower (c : ascii) : ascii :=
  if Str.between 65 90 c then ascii_of_nat (Str.code c + 32) else c.

(** Does [s] start with the lower-case word [w], whatever the case? *)
Fixpoint starts_with_nocase (w s : string) : option string :=
  match w, s with
  | EmptyString, _ => Some s
  | String a w', String c r =>
      if Ascii.eqb (ascii_lower c) a then starts_with_nocase w' r else None
  | String _ _, EmptyString => None
  end.

Definition parse_inf_nan (s : string) : option (float * string) :=
  let '(neg, s1) := sign_of s in
  match starts_with_nocase "inf" s1 with
  | Some r =>
      match starts_with_nocase "inity" r with
      | Some r' => Some (S754_infinity neg, r')
      | None => Some (S754_infinity neg, r)
      end
  | None =>
      match starts_with_nocase "nan" s1 with
      | Some r => Some (S754_nan, r)
      | None => None
      end
  end.

(** [float(s)] *)
Definition float_of_str (s : string) : result float :=
  match Str.rstrip_by is_ws (Str.lstrip_by is_ws s) with
  | EmptyString => Raise ValueError
  | s1 =>
      match drop_underscores Ascii.zero s1 with
      | None => Raise ValueError
      | Some s2 =>
          let parsed :=
            match parse_number s2 with
            | Some r => Some r
            | None => parse_inf_nan s2
            end in
          match parsed with
          | Some (f, EmptyString) => Ok f
          | _ => Raise ValueError
          end
      end
  end.

(** A float literal of the source text. *)
Definition literal (s : string) : float :=
  match float_of_str s with
  | Ok f => f
  | Raise _ => S754_nan
  end.

(** *** Python numbers

    The values the source handles: an [int], a [float], or a [complex]
    (which only [**] can produce here; its components are not modelled). *)
Inductive num : Type :=
| VInt (z : Z)
| VFloat (f : float)
| VComplex.

Definition zero : float := S754_zero false.
Definition one : float := of_int 1.

(** Is the finite float [x] a whole number ([x == floor(x)])? *)
Definition is_integer (x : float) : bool :=
  match x with
  | S754_zero _ => true
  | S754_finite _ m e =>
      if 0 <=? e then true else Zpos m mod 2 ^ (- e) =? 0
  | _ => false
  end.

(** CPython's [DOUBLE_IS_ODD_INTEGER]. *)
Definition is_odd_integer (x : float) : bool :=
  match x with
  | S754_finite _ m e =>
      if 0 <? e then false
      else ((Zpos m mod 2 ^ (- e) =? 0) && Z.odd (Zpos m / 2 ^ (- e)))%bool
  | _ => false
  end.

Definition sign_bit (x : float) : bool :=
  match x with
  | S754_zero s | S754_infinity s | S754_finite s _ _ => s
  | S754_nan => false
  end.

(** *** The power operator

    [float_pow] is CPython's function of that name: it settles the special
    cases itself and hands the rest to the C library's [pow], whose result
    comes with the value it leaves in [errno]. *)
Inductive errno : Type := E0 | ERANGE | EDOM.

Definition adjust_erange (x : float) (en : errno) : errno :=
  match en with
  | E0 => if is_inf x then ERANGE else E0
  | ERANGE => if is_zero x then E0 else ERANGE
  | EDOM => EDOM
  end.

Section Pow.
Variable libm_pow : float -> float -> float * errno.

Definition float_pow (iv iw : float) : result num :=
  if is_zero iw then Ok (VFloat one)
  else if is_nan iv then Ok (VFloat iv)
  else if is_nan iw then Ok (VFloat (if feqb iv one then one else iw))
  else if is_inf iw then
    let a := SFabs iv in
    if feqb a one then Ok (VFloat one)
    else if Bool.eqb (fltb zero iw) (fltb one a)
         then Ok (VFloat (SFabs iw))
         else Ok (VFloat zero)
  else if is_inf iv then
    let odd := is_odd_integer iw in
    if fltb zero iw then Ok (VFloat (if odd then iv else SFabs iv))
    else Ok (VFloat (if odd then S754_zero (sign_bit iv) else zero))
  else if is_zero iv then
    if fltb iw zero then Raise ZeroDivisionError
    else Ok (VFloat (if is_odd_integer iw then iv else zero))
  else if (fltb iv zero && negb (is_integer iw))%bool then Ok VComplex
  else
    let negate_result := (fltb iv zero && is_odd_integer iw)%bool in
    let a := SFabs iv in
    if feqb a one
    then Ok (VFloat (if negate_result then SFopp one else one))
    else
      let '(ix, en) := libm_pow a iw in
      match adjust_erange ix en with
      | E0 => Ok (VFloat (if negate_result then SFopp ix else ix))
      | ERANGE => Raise OverflowError
      | EDOM => Raise ValueError
      end.

(** [v ** w] where [v] is any number the source may have there and [w]
    a float. A complex base gives a complex result. *)
Definition pow (v : num) (w : float) : result num :=
  match v with
  | VFloat f => float_pow f w
  | VInt z => float_pow (of_int z) w
  | VComplex => Ok VComplex
  end.
End Pow.

(** [a / v] for a float [a]. *)
Definition div_by (a : float) (v : num) : result num :=
  match v with
  | VFloat f => f' <- fdiv a f ;; Ok (VFloat f')
  | VInt z => f' <- fdiv a (of_int z) ;; Ok (VFloat f')
  | VComplex => Ok VComplex
  end.

(** [v / b] and [v - b] for a float [b] that is not zero. *)
Definition div_float (v : num) (b : float) : result num :=
  match v with
  | VFloat f => f' <- fdiv f b ;; Ok (VFloat f')
  | VInt z => f' <- fdiv (of_int z) b ;; Ok (VFloat f')
  | VComplex => if is_zero b then Raise ZeroDivisionError else Ok VComplex
  end.

Definition sub_float (v : num) (b : float) : num :=
  match v with
  | VFloat f => VFloat (fsub f b)
  | VInt z => VFloat (fsub (of_int z) b)
  | VComplex => VComplex
  end.

(** [v < n] for an [int] constant [n]: a complex number has no order. *)
Definition lt_int (v : num) (n : Z) : result bool :=
  match v with
  | VFloat f => Ok (fltb f (of_int n))
  | VInt z => Ok (z <? n)
  | VComplex => Raise TypeError
  end.

(** *** [round(x, 1)]

    The decimal the exact value of [x] rounds to with one digit after the
    point (a tie goes to the even digit), read back as a float. *)
Definition round_half_even (n d : Z) : Z :=
  let q := n / d in
  match Z.compare (2 * (n mod d)) d with
  | Lt => q
  | Gt => q + 1
  | Eq => if Z.even q then q else q + 1
  end.

Definition round1_float (x : float) : float :=
  match x with
  | S754_finite s m e =>
      let tenths :=
        if 0 <=? e then Zpos m * 2 ^ e * 10
        else round_half_even (Zpos m * 10) (2 ^ (- e)) in
      of_decimal s tenths (-1)
  | _ => x
  end.

Definition round1 (v : num) : result num :=
  match v with
  | VFloat f => Ok (VFloat (round1_float f))
  | VInt z => Ok (VInt z)
  | VComplex => Raise TypeError
  end.

(** *** Floats to integers, as [timedelta] does it *)

(** The integral part of [x] as an [int] ([modf], then the conversion). *)
Definition to_int (x : float) : result Z :=
  match x with
  | S754_nan => Raise ValueError
  | S754_infinity _ => Raise OverflowError
  | S754_zero _ => Ok 0
  | S754_finite s m e =>
      Ok (cond_Zopp s (if 0 <=? e then Zpos m * 2 ^ e
                       else Zpos m / 2 ^ (- e)))
  end.

(** The fractional part of [x], carrying the sign of [x] ([modf]). *)
Definition frac_part (x : float) : float :=
  match x with
  | S754_finite s m e =>
      if 0 <=? e then S754_zero s
      else binary_normalize prec emax
             (cond_Zopp s (Zpos m mod 2 ^ (- e))) e s
  | S754_infinity s => S754_zero s
  | _ => x
  end.

End Flt.

(** ** Dates: [datetime] and [timedelta] *)

Module Time.
Import Flt.

Record timedelta : Type := MkDelta
  { td_days : Z; td_seconds : Z; td_microseconds : Z }.

Record datetime : Type := MkDatetime
  { year : Z; month : Z; day : Z;
    hour : Z; minute : Z; second : Z; microsecond : Z }.

Definition us_per_day : Z := 86400000000.
Definition max_delta_days : Z := 999999999.
Definition max_ordinal : Z := 3652059.

(** The whole microseconds that a left-over fraction [l] (of magnitude
    below one) adds to the count [x]: to nearest, a tie making [x] even. *)
Definition round_leftover (l : float) (x_is_odd : bool) : Z :=
  let away := if sign_bit l then -1 else 1 in
  match SFcompare (SFabs l) (of_decimal false 5 (-1)) with
  | Some Lt => 0
  | Some Gt => away
  | Some Eq => if x_is_odd then away else 0
  | None => 0
  end.

Definition microseconds_to_delta (x : Z) : result timedelta :=
  let s := x / 1000000 in
  let d := s / 86400 in
  if (- max_delta_days <=? d) && (d <=? max_delta_days)
  then Ok (MkDelta d (s mod 86400) (x mod 1000000))
  else Raise OverflowError.

(** [timedelta(days=d)] for a float [d]. *)
Definition timedelta_of_days (d : float) : result timedelta :=
  ip <- to_int d ;;
  let sum := ip * us_per_day in
  let fp := frac_part d in
  xl <- (if is_zero fp then Ok (sum, zero)
         else let dnum := fmul (of_int us_per_day) fp in
              ip2 <- to_int dnum ;;
              Ok (sum + ip2, fadd zero (frac_part dnum))) ;;
  let '(x, leftover) := xl in
  microseconds_to_delta
    (if is_zero leftover then x
     else x + round_leftover leftover (Z.odd x)).

Definition is_leap (y : Z) : bool :=
  ((y mod 4 =? 0) && (negb (y mod 100 =? 0) || (y mod 400 =? 0)))%bool.

Definition days_before_year (y : Z) : Z :=
  let p := y - 1 in p * 365 + p / 4 - p / 100 + p / 400.

(** Days of the year before the first of month [m], in a common year. *)
Definition month_starts : list Z :=
  [0; 31; 59; 90; 120; 151; 181; 212; 243; 273; 304; 334].

Definition days_before_month (y m : Z) : Z :=
  nth (Z.to_nat (m - 1)) month_starts 0
  + (if ((2 <? m) && is_leap y)%bool then 1 else 0).

Definition ymd_to_ord (y m d : Z) : Z :=
  days_before_year y + days_before_month y m + d.

(** The last month of year [y] that starts at or before day [n] (from 0),
    searched downwards from month [m]. *)
Fixpoint month_at (y : Z) (n : Z) (m : nat) : Z :=
  match m with
  | O => 1
  | S m' =>
      if days_before_month y (Z.of_nat m) <=? n then Z.of_nat m
      else month_at y n m'
  end.

Definition ord_to_ymd (ordinal : Z) : Z * Z * Z :=
  let o := ordinal - 1 in
  let n400 := o / 146097 in
  let n := o mod 146097 in
  let n100 := n / 36524 in
  let n := n mod 36524 in
  let n4 := n / 1461 in
  let n := n mod 1461 in
  let n1 := n / 365 in
  let n := n mod 365 in
  let y := n400 * 400 + 1 + n100 * 100 + n4 * 4 + n1 in
  if ((n1 =? 4) || (n100 =? 4))%bool then (y - 1, 12, 31)
  else let m := month_at y n 12 in
       (y, m, n - days_before_month y m + 1).

(** [datetime(y, 1, 1)] *)
Definition datetime_jan1 (y : Z) : result datetime :=
  if (1 <=? y) && (y <=? 9999) then Ok (MkDatetime y 1 1 0 0 0 0)
  else Raise ValueError.

(** [dt + td] *)
Definition datetime_add (dt : datetime) (td : timedelta) : result datetime :=
  let us := microsecond dt + td_microseconds td in
  let s := second dt + td_seconds td + us / 1000000 in
  let mi := minute dt + s / 60 in
  let h := hour dt + mi / 60 in
  let d := day dt + td_days td + h / 24 in
  let ordinal := ymd_to_ord (year dt) (month dt) 1 + d - 1 in
  if (1 <=? ordinal) && (ordinal <=? max_ordinal) then
    let '(y, m, dd) := ord_to_ymd ordinal in
    Ok (MkDatetime y m dd (h mod 24) (mi mod 60) (s mod 60) (us mod 1000000))
  else Raise OverflowError.

(** [z] in decimal on [w] digits, zero-padded. *)
Fixpoint pad (w : nat) (z : Z) : string :=
  match w with
  | O => EmptyString
  | S w' =>
      pad w' (z / 10)
      ++ String (ascii_of_nat (48 + Z.to_nat (z mod 10))) EmptyString
  end.

(** [dt.isoformat()] *)
Definition isoformat (dt : datetime) : string :=
  pad 4 (year dt) ++ "-" ++ pad 2 (month dt) ++ "-" ++ pad 2 (day dt)
  ++ "T" ++ pad 2 (hour dt) ++ ":" ++ pad 2 (minute dt)
  ++ ":" ++ pad 2 (second dt)
  ++ (if microsecond dt =? 0 then EmptyString
      else "." ++ pad 6 (microsecond dt)).

(** [timedelta(hours=h)] for an [int] [h]. *)
Definition timedelta_of_hours (h : Z) : result timedelta :=
  microseconds_to_delta (h * 3600000000).

(** [a - b] for two naive [datetime]s: the differences of the ordinals, of
    the seconds of the day and of the microseconds, normalised. *)
Definition datetime_sub (a b : datetime) : result timedelta :=
  let delta_d := ymd_to_ord (year a) (month a) (day a)
                 - ymd_to_ord (year b) (month b) (day b) in
  let delta_s := (hour a - hour b) * 3600 + (minute a - minute b) * 60
                 + (second a - second b) in
  let delta_us := microsecond a - microsecond b in
  let s := delta_s + delta_us / 1000000 in
  let d := delta_d + s / 86400 in
  if (- max_delta_days <=? d) && (d <=? max_delta_days)
  then Ok (MkDelta d (s mod 86400) (delta_us mod 1000000))
  else Raise OverflowError.

(** [x > y] on [timedelta]s: days, then seconds, then microseconds. *)
Definition timedelta_gtb (x y : timedelta) : bool :=
  match td_days x ?= td_days y with
  | Gt => true
  | Lt => false
  | Eq =>
      match td_seconds x ?= td_seconds y with
      | Gt => true
      | Lt => false
      | Eq => td_microseconds y <? td_microseconds x
      end
  end.

End Time.

(** ** The parser and the catalog assembler *)

(** The dictionary [parse_tle_data] builds for one object. *)
Module Satellite.
Record t : Type := Make
  { name : string;
    norad_id : string;
    int_designator : string;
    epoch : string;
    period_minutes : Flt.num;
    inclination : Flt.float;
    eccentricity : Flt.float;
    type : string;
    altitude : Flt.num;
    tle_line1 : string;
    tle_line2 : string }.
End Satellite.

(** The dictionary [to_space_object] builds from it. *)
Module SpaceObject.
Record t : Type := Make
  { id : string;
    name : string;
    type : string;
    country : string;
    launchDate : string;
    altitude : Flt.num;
    inclination : Flt.float;
    period : Flt.num;
    status : string;
    riskLevel : string;
    lastUpdate : string }.
End SpaceObject.

Module OrbitPropagation.
Import Flt Time.

(** What [parse_tle_data] prints: one line per triplet that raised,
    [Error parsing TLE data for {name}: {e}]. *)
Inductive output : Type :=
| ErrorParsing (name : string) (e : exn).

Definition newline : ascii := "010"%char.

Section Parser.
Variable libm_pow : float -> float -> float * errno.

(** Lines 128-129: the epoch year. *)
Definition epoch_year_of (line1 : string) : result Z :=
  epoch_year <- int_of_str (Str.slice 18 20 line1) ;;
  Ok (if epoch_year <? 57 then epoch_year + 2000 else epoch_year + 1900).

(** Lines 130-133: the epoch date. *)
Definition epoch_date_of (line1 : string) : result datetime :=
  epoch_year <- epoch_year_of line1 ;;
  epoch_day <- float_of_str (Str.slice 20 32 line1) ;;
  jan1 <- datetime_jan1 epoch_year ;;
  delta <- timedelta_of_days (fsub epoch_day (of_int 1)) ;;
  datetime_add jan1 delta.

(** Line 139: the orbital period in minutes. *)
Definition period_of (mean_motion : float) : result num :=
  if fltb (of_int 0) mean_motion
  then p <- fdiv (literal "1440.0") mean_motion ;; Ok (VFloat p)
  else Ok (VInt 0).

(** Line 149: the debris heuristic. *)
Definition debris_tokens : list string := ["deb"; "debris"; "r/b"; "rocket"].

Definition is_debris (name : string) : bool :=
  existsb (fun debris_cat => Str.contains debris_cat (Str.lower name))
          debris_tokens.

(** Line 153, inner part: [mean_motion * 2 * 3.14159 / 86400.0]. *)
Definition rad_per_sec (mean_motion : float) : result float :=
  fdiv (fmul (fmul mean_motion (of_int 2)) (literal "3.14159"))
       (literal "86400.0").

Definition one_third : float := SFdiv prec emax (of_int 1) (of_int 3).

(** Line 153: the semi-major axis. *)
Definition semi_major_axis_of (mean_motion : float) : result num :=
  w <- rad_per_sec mean_motion ;;
  sq <- float_pow libm_pow w (of_int 2) ;;
  q <- div_by (literal "8681663.0") sq ;;
  pow libm_pow q one_third.

(** Line 154: the altitude in km. *)
Definition altitude_of (mean_motion : float) : result num :=
  semi_major_axis <- semi_major_axis_of mean_motion ;;
  km <- div_float semi_major_axis (literal "1000.0") ;;
  Ok (sub_float km (literal "6371.0")).

(** Lines 120-170: the body of the [try] for one triplet. *)
Definition parse_triplet (name line1 line2 : string)
  : result Satellite.t :=
  let norad_id := Str.strip (Str.slice 2 7 line1) in
  let int_designator := Str.strip (Str.slice 9 17 line1) in
  epoch_date <- epoch_date_of line1 ;;
  mean_motion <- float_of_str (Str.slice 52 63 line2) ;;
  period_minutes <- period_of mean_motion ;;
  eccentricity <- float_of_str ("0." ++ Str.slice 26 33 line2) ;;
  inclination <- float_of_str (Str.slice 8 16 line2) ;;
  let is_debris := is_debris name in
  altitude <- altitude_of mean_motion ;;
  Ok (Satellite.Make name norad_id int_designator
        (isoformat epoch_date) period_minutes inclination eccentricity
        (if is_debris then "debris" else "satellite")
        altitude line1 line2).

(** [range(0, n, 3)] *)
Definition range3 (n : nat) : list nat :=
  map (fun k => (3 * k)%nat) (seq 0 ((n + 2) / 3)).

(** One turn of the loop of line 113, on the list built so far and the
    lines printed so far. *)
Definition loop_body (lines : list string)
    (st : list Satellite.t * list output) (i : nat)
  : list Satellite.t * list output :=
  let '(satellites, printed) := st in
  if (i + 2 <? List.length lines)%nat then
    let name := Str.strip (nth i lines EmptyString) in
    let line1 := Str.strip (nth (i + 1) lines EmptyString) in
    let line2 := Str.strip (nth (i + 2) lines EmptyString) in
    match parse_triplet name line1 line2 with
    | Ok satellite => ((satellites ++ [satellite])%list, printed)
    | Raise e => (satellites, (printed ++ [ErrorParsing name e])%list)
    end
  else st.

(** [parse_tle_data], threading what has been printed: [printed] is the
    output before the call, the result carries the output after it. *)
Definition parse_tle_data_st (tle_data : string) (printed : list output)
  : list Satellite.t * list output :=
  let lines := Str.split newline (Str.strip tle_data) in
  fold_left (loop_body lines) (range3 (List.length lines)) ([], printed).

(** The list [parse_tle_data] returns. *)
Definition parse_tle_data (tle_data : string) : list Satellite.t :=
  fst (parse_tle_data_st tle_data []).

End Parser.

(** Lines 203-213: the table, in the order the dictionary is written. *)
Definition country_codes : list (string * string) :=
  [ ("US", "USA"); ("CIS", "Russia"); ("PRC", "China"); ("ESA", "ESA");
    ("FR", "France"); ("JP", "Japan"); ("IN", "India"); ("CA", "Canada");
    ("UK", "UK") ].

Definition nonempty (s : string) : bool :=
  match s with EmptyString => false | String _ _ => true end.

(** Lines 219-222: the loop over the table; the match breaks out of it. *)
Fixpoint country_loop (int_des : string) (codes : list (string * string))
    (country : string) : string :=
  match codes with
  | [] => country
  | (code, name) :: rest =>
      if (nonempty int_des && Str.contains code int_des)%bool then name
      else country_loop int_des rest country
  end.

(** Lines 229-233. *)
Definition risk_level_of (altitude : num) : result string :=
  lt500 <- lt_int altitude 500 ;;
  if lt500 : bool then Ok "high"
  else lt800 <- lt_int altitude 800 ;;
       Ok (if lt800 : bool then "medium" else "low").

(** [v / 60] *)
Definition div_60 (v : num) : result num :=
  match v with
  | VInt z => f <- fdiv (of_int z) (of_int 60) ;; Ok (VFloat f)
  | _ => div_float v (of_int 60)
  end.

(** [to_space_object]; [now] is what [datetime.now().isoformat()] returns
    when the dictionary is built. *)
Definition to_space_object (now : string) (satellite : Satellite.t)
  : result SpaceObject.t :=
  let int_des := Satellite.int_designator satellite in
  let country := country_loop int_des country_codes "Unknown" in
  let is_sat := String.eqb (Satellite.type satellite) "satellite" in
  let status := if is_sat then "active" else "inactive" in
  risk_level <- risk_level_of (Satellite.altitude satellite) ;;
  altitude <- round1 (Satellite.altitude satellite) ;;
  hours <- div_60 (Satellite.period_minutes satellite) ;;
  period <- round1 hours ;;
  Ok (SpaceObject.Make
        ((if is_sat then "SAT-" else "DEB-") ++ Satellite.norad_id satellite)
        (Satellite.name satellite)
        (Satellite.type satellite)
        country
        (hd EmptyString (Str.split "T" (Satellite.epoch satellite)))
        altitude
        (round1_float (Satellite.inclination satellite))
        period
        status
        risk_level
        now).

End OrbitPropagation.

(** ** A stand-in for the C library

    To run the model on examples, [pow] is replaced by a function that
    squares with correct rounding when the exponent is two and otherwise
    returns the cube root, truncated: the source passes no other exponent
    than [2] and [1/3]. The theorems below hold for every [pow]. *)
Module SampleLibm.
Import Flt.

(** The greatest [r] below [2^bits] with [r^3 <= n], from the top bit down. *)
Fixpoint icbrt (bits : nat) (n r : Z) : Z :=
  match bits with
  | O => r
  | S b =>
      let r' := r + 2 ^ Z.of_nat b in
      icbrt b n (if r' * r' * r' <=? n then r' else r)
  end.

Definition cbrt (x : float) : float :=
  match x with
  | S754_finite false m e =>
      let s := 162 + e mod 3 in
      binary_normalize prec emax
        (icbrt 80 (Zpos m * 2 ^ s) 0) ((e - s) / 3) false
  | _ => x
  end.

Definition pow (x y : float) : float * errno :=
  if feqb y (of_int 2) then
    let r := fmul x x in
    (r, if (is_inf r || is_zero r)%bool then ERANGE else E0)
  else (cbrt x, E0).

End SampleLibm.

(** ** The specification's view

    Definitions that follow the words of the specification, to be compared
    with the ones above, which follow the source. *)
Module Spec.
Import Flt OrbitPropagation.

(** "Process lines in groups of exactly three (name, line1, line2); any
    dangling partial group at the end is silently dropped": the groups, each
    line stripped. *)
Fixpoint triplets (lines : list string) : list (string * string * string) :=
  match lines with
  | a :: b :: c :: rest =>
      (Str.strip a, Str.strip b, Str.strip c) :: triplets rest
  | _ => []
  end.

(** The lines of a text as the parser groups them. *)
Definition lines_of (tle_data : string) : list string :=
  Str.split newline (Str.strip tle_data).

Section Groups.
Variable libm_pow : float -> float -> float * errno.

(** The records of the valid groups, in order. *)
Definition records_of (groups : list (string * string * string))
  : list Satellite.t :=
  flat_map (fun '(name, line1, line2) =>
              match parse_triplet libm_pow name line1 line2 with
              | Ok satellite => [satellite]
              | Raise _ => []
              end) groups.

(** One report, with the name, per malformed group, in order. *)
Definition reports_of (groups : list (string * string * string))
  : list output :=
  flat_map (fun '(name, line1, line2) =>
              match parse_triplet libm_pow name line1 line2 with
              | Ok _ => []
              | Raise e => [ErrorParsing name e]
              end) groups.

(** "(GM / (meanMotion_rad_per_sec)^2)^(1/3)" with the conversion
    "meanMotion * 2π / 86400": the same operations as the source, with the
    float nearest to π where the source writes [3.14159]. *)
Definition pi : float := literal "3.141592653589793".


End Groups.

(** "first match wins ... default Unknown": the name of the first entry of
    the table whose code is a substring of the designator. *)
Definition first_match (int_des : string) : string :=
  match find (fun entry => Str.contains (fst entry) int_des) country_codes with
  | Some entry => snd entry
  | None => "Unknown"
  end.

(** "<500 high, <800 medium, else low" on a float altitude. *)
Definition risk_by_thresholds (a : float) : string :=
  if fltb a (of_int 500) then "high"
  else if fltb a (of_int 800) then "medium" else "low".

End Spec.

(** ** Example inputs *)

Module Examples.

Definition iss_line1 : string :=
  "1 25544U 98067A   24264.51782528 -.00002182  00000-0 -11606-4 0  2927".

Definition iss_line2 : string :=
  "2 25544  51.6416 247.4627 0006703 130.5360 325.0288 15.50377579469587".

Definition nl : string := String OrbitPropagation.newline EmptyString.

Definition cr : string := String "013"%char EmptyString.

(** One well-formed group. *)
Definition iss_tle : string :=
  "ISS (ZARYA)" ++ nl ++ iss_line1 ++ nl ++ iss_line2 ++ nl.

(** The same group as a file with CR LF line ends has it. *)
Definition crlf_tle : string :=
  "ISS (ZARYA)" ++ cr ++ nl ++ iss_line1 ++ cr ++ nl ++ iss_line2 ++ cr ++ nl.

(** A group whose mean motion field reads zero. *)
Definition zero_line2 : string :=
  "2 25544  51.6416 247.4627 0006703 130.5360 325.0288  0.00000000469587".

Definition zero_tle : string :=
  "ZERO" ++ nl ++ iss_line1 ++ nl ++ zero_line2 ++ nl.

(** A debris group, a group whose second line is cut to ten characters,
    and a well-formed group after it. *)
Definition debris_line1 : string :=
  "1 33759U 93036E   24263.90703531  .00002313  00000-0  81137-3 0  9993".

Definition debris_line2 : string :=
  "2 33759  74.0354 121.8749 0039946 135.0123 225.4320 14.36276893820092".

Definition mixed_tle : string :=
  "COSMOS 2251 DEB" ++ nl ++ debris_line1 ++ nl ++ debris_line2 ++ nl
  ++ "BAD" ++ nl ++ debris_line1 ++ nl ++ "2 33759  7" ++ nl
  ++ "ISS (ZARYA)" ++ nl ++ iss_line1 ++ nl ++ iss_line2 ++ nl
  ++ "DANGLING" ++ nl.

(** Lines cut short. *)
Definition line1_19 : string := Str.take 19 iss_line1.
Definition line1_21 : string := Str.take 21 iss_line1.
Definition line2_54 : string := Str.take 54 iss_line2.

Definition short_tle : string :=
  "SHORT" ++ nl ++ line1_21 ++ nl ++ line2_54 ++ nl.

Definition short19_tle : string :=
  "SHORT" ++ nl ++ line1_19 ++ nl ++ iss_line2 ++ nl.

(** A first line cut after an epoch day field that reads [1e7]. *)
Definition line1_1e7 : string := "1 25544U 98067A   241e7".

Definition far_tle : string :=
  "FAR" ++ nl ++ line1_1e7 ++ nl ++ iss_line2 ++ nl.

(** The records the model computes from the well-formed groups, with the
    stand-in [pow]. *)
Definition no_record : Satellite.t :=
  Satellite.Make EmptyString EmptyString EmptyString EmptyString
    (Flt.VInt 0) Flt.zero Flt.zero EmptyString (Flt.VInt 0)
    EmptyString EmptyString.

Definition iss_record : Satellite.t :=
  Eval vm_compute in
    hd no_record (OrbitPropagation.parse_tle_data SampleLibm.pow iss_tle).

Definition debris_record : Satellite.t :=
  Eval vm_compute in
    hd no_record (OrbitPropagation.parse_tle_data SampleLibm.pow mixed_tle).

Definition short_record : Satellite.t :=
  Eval vm_compute in
    hd no_record (OrbitPropagation.parse_tle_data SampleLibm.pow short_tle).

Definition iss_altitude : Flt.float :=
  Eval vm_compute in
    match Satellite.altitude iss_record with
    | Flt.VFloat a => a
    | _ => Flt.zero
    end.

(** [iss_record] with an altitude of 499.96 km. *)
Definition near_500_record : Satellite.t :=
  Satellite.Make (Satellite.name iss_record) (Satellite.norad_id iss_record)
    (Satellite.int_designator iss_record) (Satellite.epoch iss_record)
    (Satellite.period_minutes iss_record) (Satellite.inclination iss_record)
    (Satellite.eccentricity iss_record) (Satellite.type iss_record)
    (Flt.VFloat (Flt.literal "499.96"))
    (Satellite.tle_line1 iss_record) (Satellite.tle_line2 iss_record).

(** The entity built from [iss_record] when the clock reads [build_time]. *)
Definition build_time : string := "2024-09-21T03:00:00".

(** Two groups whose mean motion gives an altitude just below and just
    above 500 km: about 499.9989 km and 500.0010 km. *)
Definition below_500_line2 : string :=
  "2 25544  51.6416 247.4627 0006703 130.5360 325.0288 0.002249603469587".

Definition above_500_line2 : string :=
  "2 25544  51.6416 247.4627 0006703 130.5360 325.0288 0.002249602469587".

Definition below_500_record : Satellite.t :=
  Eval vm_compute in
    match OrbitPropagation.parse_triplet SampleLibm.pow "BELOW" iss_line1
            below_500_line2 with
    | Ok sat => sat
    | Raise _ => no_record
    end.

Definition above_500_record : Satellite.t :=
  Eval vm_compute in
    match OrbitPropagation.parse_triplet SampleLibm.pow "ABOVE" iss_line1
            above_500_line2 with
    | Ok sat => sat
    | Raise _ => no_record
    end.

Definition no_entity : SpaceObject.t :=
  SpaceObject.Make EmptyString EmptyString EmptyString EmptyString
    EmptyString (Flt.VInt 0) Flt.zero (Flt.VInt 0) EmptyString EmptyString
    EmptyString.

Definition iss_entity : SpaceObject.t :=
  Eval vm_compute in
    match OrbitPropagation.to_space_object build_time iss_record with
    | Ok so => so
    | Raise _ => no_entity
    end.

Definition below_500_entity : SpaceObject.t :=
  Eval vm_compute in
    match OrbitPropagation.to_space_object build_time below_500_record with
    | Ok so => so
    | Raise _ => no_entity
    end.

Definition above_500_entity : SpaceObject.t :=
  Eval vm_compute in
    match OrbitPropagation.to_space_object build_time above_500_record with
    | Ok so => so
    | Raise _ => no_entity
    end.

(** Groups whose mean motion field reads [nan] and [inf]. *)
Definition nan_line2 : string :=
  "2 25544  51.6416 247.4627 0006703 130.5360 325.0288         nan469587".

Definition inf_line2 : string :=
  "2 25544  51.6416 247.4627 0006703 130.5360 325.0288         inf469587".

Definition nan_record : Satellite.t :=
  Eval vm_compute in
    match OrbitPropagation.parse_triplet SampleLibm.pow "NAN" iss_line1
            nan_line2 with
    | Ok sat => sat
    | Raise _ => no_record
    end.

Definition inf_record : Satellite.t :=
  Eval vm_compute in
    match OrbitPropagation.parse_triplet SampleLibm.pow "INF" iss_line1
            inf_line2 with
    | Ok sat => sat
    | Raise _ => no_record
    end.

End Examples.

(** ** The cache of element sets and its update

    [fetch_celestrak_tle], [save_tle_data], [needs_update], [load_tle_data]
    and [update_all_tle_data] act on files, on the network, on the clock and
    on the standard output.  They are functions from a state to an outcome;
    what they cannot decide themselves is read from an environment.

    - The state holds the files (the text and the modification time of each
      path that exists; a path that exists is a regular file), the number
      of readings of the clock so far, the parameters of the requests sent
      to the server so far and the lines printed so far.
    - The environment gives the answer of the server to a request ([None]
      when [requests] raises a [RequestException]), whether [os.makedirs]
      succeeds for a directory and whether [open(..., 'w')] and the writes
      that follow succeed for a path, the modification time a file gets
      when it is written, the successive readings of the clock, the C
      library's [pow], and the text [json.dump] writes for a list of
      entities.
    - Text is written as it is and read with universal newlines, as on a
      POSIX system; a modification time is the local time
      [datetime.fromtimestamp] gives for it.
    - A state is returned only when the function returns: nothing is said
      of the files after an exception.
    - Whether a directory can be made and a file written is read from the
      environment for the path; it is not derived from the directories
      made so far, so that [open(..., 'w')] in a directory that nothing has
      made is not told apart from one that exists.  A file holds text: one
      whose bytes do not decode, for which [f.read()] raises, is not
      represented.  The properties of [update_all_tle_data] below are
      therefore stated for the runs that return; when it returns, and the
      whole set of exceptions it can raise, is not decided on this
      model. *)

Module Updater.
Import Flt Time OrbitPropagation.

Definition CELESTRAK_URL : string :=
  "https://celestrak.org/NORAD/elements/gp.php".

(** Lines 15-30 and 32-38: the tables, in the order they are written. *)
Definition SATELLITE_CATEGORIES : list (string * string) :=
  [ ("active", "active"); ("starlink", "starlink");
    ("stations", "stations"); ("visual", "visual");
    ("weather", "weather"); ("noaa", "noaa"); ("goes", "goes");
    ("resource", "resource"); ("sarsat", "sarsat"); ("dmc", "dmc");
    ("tdrss", "tdrss"); ("argos", "argos"); ("planet", "planet");
    ("spire", "spire") ].

Definition DEBRIS_CATEGORIES : list (string * string) :=
  [ ("last-30-days", "last-30-days"); ("debris", "debris");
    ("iridium-33-debris", "iridium-33-debris");
    ("cosmos-2251-debris", "cosmos-2251-debris");
    ("fengyun-1c-debris", "fengyun-1c-debris") ].

(** An exception of the parser's runtime, or an [OSError]. *)
Inductive failure : Type :=
| Python (e : exn)
| OSError.

Record file : Type := MkFile { content : string; mtime : datetime }.

(** What is printed: the error of line 62, and the lines of line 78, of
    line 172, of lines 269 and 291, and of line 311. *)
Inductive message : Type :=
| ErrorFetching
| TleDataSaved (filename : string)
| Parsing (o : output)
| Updating (category label : string)
| SavedObjects (n : nat) (filename : string).

Record env : Type := MkEnv
  { libm_pow : float -> float -> float * errno;
    http_get : string -> list (string * string) -> option string;
    can_make : string -> bool;
    can_write : string -> bool;
    stamp : string -> datetime;
    clock : nat -> datetime;
    json_dump : list SpaceObject.t -> string }.

Record state : Type := MkState
  { files : string -> option file;
    ticks : nat;
    requested : list (list (string * string));
    printed : list message }.

Inductive outcome (A : Type) : Type :=
| Returns (a : A) (s : state)
| Raises (e : failure).

Arguments Returns {A} a s.
Arguments Raises {A} e.

Definition io (A : Type) : Type := state -> outcome A.

Definition ret {A : Type} (a : A) : io A := fun s => Returns a s.

Definition and_then {A B : Type} (c : io A) (k : A -> io B) : io B :=
  fun s =>
    match c s with
    | Returns a s' => k a s'
    | Raises e => Raises e
    end.

Notation "x <~ c ;; k" := (and_then c (fun x => k))
  (at level 61, c at next level, right associativity).

(** The state after one more reading of the clock, after more lines are
    printed, after a request, and after a file is stored. *)
Definition tick (s : state) : state :=
  MkState (files s) (S (ticks s)) (requested s) (printed s).

Definition printing (ms : list message) (s : state) : state :=
  MkState (files s) (ticks s) (requested s) (printed s ++ ms).

Definition requesting (params : list (string * string)) (s : state)
  : state :=
  MkState (files s) (ticks s) (requested s ++ [params]) (printed s).

Definition storing (filename : string) (f : file) (s : state) : state :=
  MkState (fun p => if String.eqb p filename then Some f else files s p)
          (ticks s) (requested s) (printed s).

(** [print(...)] *)
Definition print (m : message) : io unit :=
  fun s => Returns tt (printing [m] s).

(** [datetime.now()] *)
Definition datetime_now (E : env) : io datetime :=
  fun s => Returns (clock E (ticks s)) (tick s).

(** Pure code that may raise. *)
Definition lift {A : Type} (c : result A) : io A :=
  fun s =>
    match c with
    | Ok a => Returns a s
    | Raise e => Raises (Python e)
    end.

(** [os.path.exists(filename)] *)
Definition path_exists (filename : string) : io bool :=
  fun s =>
    Returns (match files s filename with Some _ => true | None => false end)
            s.

(** [datetime.fromtimestamp(os.path.getmtime(filename))] *)
Definition file_time_of (filename : string) : io datetime :=
  fun s =>
    match files s filename with
    | Some f => Returns (mtime f) s
    | None => Raises OSError
    end.

Definition is_sep (c : ascii) : bool := Ascii.eqb c "/".

(** [p[:p.rfind('/') + 1]] *)
Fixpoint up_to_last_sep (p : string) : string :=
  match p with
  | EmptyString => EmptyString
  | String c r =>
      match up_to_last_sep r with
      | EmptyString =>
          if is_sep c then String c EmptyString else EmptyString
      | String d head => String c (String d head)
      end
  end.

Fixpoint all_sep (p : string) : bool :=
  match p with
  | EmptyString => true
  | String c r => (is_sep c && all_sep r)%bool
  end.

(** [os.path.dirname(p)] *)
Definition dirname (p : string) : string :=
  let head := up_to_last_sep p in
  if (nonempty head && negb (all_sep head))%bool
  then Str.rstrip_by is_sep head
  else head.

(** [os.makedirs(name, exist_ok=True)]: the empty name is no directory. *)
Definition makedirs (E : env) (name : string) : io unit :=
  fun s =>
    if (nonempty name && can_make E name)%bool then Returns tt s
    else Raises OSError.

(** [with open(filename, 'w') as f: f.write(data)]; whether it succeeds is
    the environment's answer for the path, whatever directories exist. *)
Definition write_file (E : env) (filename data : string) : io unit :=
  fun s =>
    if can_write E filename
    then Returns tt (storing filename (MkFile data (stamp E filename)) s)
    else Raises OSError.

(** What a file opened with [open(filename, 'r')] gives for the text that
    is stored: a carriage return, with the line feed after it if there is
    one, is read as one line feed. *)
Fixpoint universal_newlines (s : string) : string :=
  match s with
  | EmptyString => EmptyString
  | String c r =>
      if Ascii.eqb c "013" then
        match r with
        | String d r' =>
            if Ascii.eqb d "010"
            then String "010" (universal_newlines r')
            else String "010" (universal_newlines r)
        | EmptyString => String "010" EmptyString
        end
      else String c (universal_newlines r)
  end.

(** [with open(filename, 'r') as f: return f.read()] on a file that
    exists and whose bytes decode to the text stored. *)
Definition read_file (filename : string) : io string :=
  fun s =>
    match files s filename with
    | Some f => Returns (universal_newlines (content f)) s
    | None => Raises OSError
    end.

(** [requests.get(CELESTRAK_URL, params=params)] with
    [response.raise_for_status()] and [response.text]. *)
Definition get_text (E : env) (params : list (string * string))
  : io (option string) :=
  fun s => Returns (http_get E CELESTRAK_URL params) (requesting params s).

(** Lines 41-63, for a format that is not ["json"]: the text of the
    response, or [None] once the exception is reported. *)
Definition fetch_celestrak_tle (E : env) (category : string)
    (format_type : string) : io (option string) :=
  let params := [("GROUP", category); ("FORMAT", format_type)] in
  response <~ get_text E params ;;
  match response with
  | Some text => ret (Some text)
  | None => _ <~ print ErrorFetching ;; ret None
  end.

(** Lines 66-78. *)
Definition save_tle_data (E : env) (data filename : string) : io unit :=
  _ <~ makedirs E (dirname filename) ;;
  _ <~ write_file E filename data ;;
  print (TleDataSaved filename).

(** Lines 81-97. *)
Definition needs_update (E : env) (filename : string)
    (update_interval_hours : Z) : io bool :=
  there <~ path_exists filename ;;
  if negb there then ret true
  else
    file_time <~ file_time_of filename ;;
    current_time <~ datetime_now E ;;
    age <~ lift (datetime_sub current_time file_time) ;;
    interval <~ lift (timedelta_of_hours update_interval_hours) ;;
    ret (timedelta_gtb age interval).

(** Lines 177-190. *)
Definition load_tle_data (filename : string) : io (option string) :=
  there <~ path_exists filename ;;
  if negb there then ret None
  else tle_data <~ read_file filename ;; ret (Some tle_data).

(** [parse_tle_data], its reports among the lines printed. *)
Definition parse_tle_data_io (E : env) (tle_data : string)
  : io (list Satellite.t) :=
  fun s =>
    let '(satellites, reports) :=
      parse_tle_data_st (libm_pow E) tle_data [] in
    Returns satellites (printing (map Parsing reports) s).

(** [to_space_object], which reads the clock once its other fields are
    computed. *)
Definition to_space_object_io (E : env) (satellite : Satellite.t)
  : io SpaceObject.t :=
  fun s =>
    match to_space_object (isoformat (clock E (ticks s))) satellite with
    | Ok space_object => Returns space_object (tick s)
    | Raise e => Raises (Python e)
    end.

(** [for x in l: acc = body(acc, x)] *)
Fixpoint for_each {A B : Type} (body : B -> A -> io B) (l : list A)
    (acc : B) : io B :=
  match l with
  | [] => ret acc
  | x :: rest => acc' <~ body acc x ;; for_each body rest acc'
  end.

(** [d[key] = True] on a dictionary whose values are all [True], kept as
    the list of its keys in the order they were inserted. *)
Definition dict_set (key : string) (d : list string) : list string :=
  if existsb (String.eqb key) d then d else (d ++ [key])%list.

(** Is the value of [if tle_data:] true. *)
Definition truthy (tle_data : option string) : bool :=
  match tle_data with
  | Some text => nonempty text
  | None => false
  end.

Definition text_of (tle_data : option string) : string :=
  match tle_data with
  | Some text => text
  | None => EmptyString
  end.

(** Lines 278-279 and 300-301. *)
Definition append_objects (E : env)
    (all_space_objects : list SpaceObject.t) (satellite : Satellite.t)
  : io (list SpaceObject.t) :=
  space_object <~ to_space_object_io E satellite ;;
  ret (all_space_objects ++ [space_object])%list.

(** Lines 265-279 and 287-301: one turn of either loop; [dir] is the
    directory of the file names and [label] the word of the message. *)
Definition category_turn (E : env) (data_dir dir label : string)
    (update_interval_hours : Z)
    (acc : list string * list SpaceObject.t) (entry : string * string)
  : io (list string * list SpaceObject.t) :=
  let '(updated_categories, all_space_objects) := acc in
  let '(category, value) := entry in
  let filename := data_dir ++ "/" ++ dir ++ "/" ++ category ++ ".txt" in
  stale <~ needs_update E filename update_interval_hours ;;
  updated_categories <~
    (if stale : bool then
       _ <~ print (Updating category label) ;;
       tle_data <~ fetch_celestrak_tle E value "tle" ;;
       if truthy tle_data then
         _ <~ save_tle_data E (text_of tle_data) filename ;;
         ret (dict_set category updated_categories)
       else ret updated_categories
     else ret updated_categories) ;;
  tle_data <~ load_tle_data filename ;;
  if truthy tle_data then
    satellites <~ parse_tle_data_io E (text_of tle_data) ;;
    all_space_objects <~
      for_each (append_objects E) satellites all_space_objects ;;
    ret (updated_categories, all_space_objects)
  else ret (updated_categories, all_space_objects).

(** Lines 253-313; the result is the pair of the keys of
    [result["updated"]] and of [result["space_objects"]]. *)
Definition update_all_tle_data (E : env) (data_dir : string)
    (update_interval_hours : Z)
  : io (list string * list SpaceObject.t) :=
  acc <~ for_each (category_turn E data_dir "satellites" "satellite"
                                 update_interval_hours)
                  SATELLITE_CATEGORIES ([], []) ;;
  acc <~ for_each (category_turn E data_dir "debris" "debris"
                                 update_interval_hours)
                  DEBRIS_CATEGORIES acc ;;
  let all_space_objects := snd acc in
  let space_objects_file := data_dir ++ "/space_objects.json" in
  _ <~ write_file E space_objects_file (json_dump E all_space_objects) ;;
  _ <~ print (SavedObjects (List.length all_space_objects)
                           space_objects_file) ;;
  ret acc.

End Updater.

(** ** Example environments and states *)

Module UpdaterExamples.
Import Time Updater.

(** A clock that advances by one microsecond at each reading, from three
    in the morning to the end of that second. *)
Definition three_am (k : nat) : datetime :=
  MkDatetime 2024 9 21 3 0 0 (Z.min (Z.of_nat k) 999999).

(** A server that answers for three groups: one group of lines, three
    groups with a malformed one, and an empty text. *)
Definition server (url : string) (params : list (string * string))
  : option string :=
  match params with
  | [(_, group); (_, _)] =>
      if String.eqb group "stations" then Some Examples.iss_tle
      else if String.eqb group "cosmos-2251-debris"
           then Some Examples.mixed_tle
      else if String.eqb group "weather" then Some EmptyString
      else None
  | _ => None
  end.

(** A stand-in for [json.dump]: the identifiers, one per line. *)
Definition ids (objs : list SpaceObject.t) : string :=
  String.concat Examples.nl (map SpaceObject.id objs).

Definition world : env :=
  MkEnv SampleLibm.pow server (fun _ => true) (fun _ => true)
        (fun _ => three_am 0) three_am ids.

(** A cache with one file written exactly 24 hours before the first
    reading of the clock, and one written three weeks before. *)
Definition day_before : datetime := MkDatetime 2024 9 20 3 0 0 0.
Definition weeks_before : datetime := MkDatetime 2024 9 1 0 0 0 0.

Definition cache (p : string) : option file :=
  if String.eqb p "data/tle/satellites/active.txt"
  then Some (MkFile Examples.crlf_tle day_before)
  else if String.eqb p "data/tle/debris/debris.txt"
       then Some (MkFile Examples.mixed_tle weeks_before)
       else None.

Definition start : state := MkState cache 0 [] [].

(** An empty cache. *)
Definition nothing : state := MkState (fun _ => None) 0 [] [].

(** A cache where every path holds the same file, written at the first
    reading of the clock. *)
Definition fresh_file : file := MkFile Examples.iss_tle (three_am 0).

Definition everywhere : state := MkState (fun _ => Some fresh_file) 0 [] [].

(** The update of the empty cache and of the cache with fresh files
    everywhere: the keys set, the entities and the state it returns. *)
Definition run (s : state) : list string * list SpaceObject.t * state :=
  match update_all_tle_data world "data/tle" 24 s with
  | Returns (updated, objects) s' => (updated, objects, s')
  | Raises _ => ([], [], s)
  end.

Definition first_updated : list string :=
  Eval vm_compute in fst (fst (run nothing)).

Definition first_objects : list SpaceObject.t :=
  Eval vm_compute in snd (fst (run nothing)).

Definition first_state : state := snd (run nothing).

Definition fresh_objects : list SpaceObject.t :=
  Eval vm_compute in snd (fst (run everywhere)).

Definition fresh_state : state := snd (run everywhere).

(** The state after [save_tle_data] of one group of lines on the empty
    cache. *)
Definition saved : state :=
  match save_tle_data world Examples.crlf_tle "data/tle/x.txt" nothing with
  | Returns _ s => s
  | Raises _ => nothing
  end.

End UpdaterExamples.

(** ** Notions used to state properties *)

Module Notions.

(** Every character of [s] satisfies [p]. *)
Fixpoint all_of (p : ascii -> bool) (s : string) : bool :=
  match s with
  | EmptyString => true
  | String c r => (p c && all_of p r)%bool
  end.

Definition is_capital (c : ascii) : bool := Str.between 65 90 c.

(** Two capital letters of the basic alphabet stand next to each other
    somewhere in [s]. *)
Fixpoint two_capitals_in_a_row (s : string) : bool :=
  match s with
  | String c ((String d _) as r) =>
      ((is_capital c && is_capital d) || two_capitals_in_a_row r)%bool
  | _ => false
  end.

(** The characters of a date: digits and the hyphen. *)
Definition date_char (c : ascii) : bool :=
  (Str.is_digit c || Ascii.eqb c "-")%bool.

(** The date of a [datetime] as [isoformat] starts with it. *)
Definition date_text (dt : Time.datetime) : string :=
  Time.pad 4 (Time.year dt) ++ "-" ++ Time.pad 2 (Time.month dt) ++ "-"
  ++ Time.pad 2 (Time.day dt).

(** A [datetime] whose fields lie in the ranges of the type. *)
Definition valid_datetime (dt : Time.datetime) : Prop :=
  1 <= Time.year dt <= 9999 /\ 1 <= Time.month dt <= 12
  /\ 1 <= Time.day dt <= 31 /\ 0 <= Time.hour dt < 24
  /\ 0 <= Time.minute dt < 60 /\ 0 <= Time.second dt < 60
  /\ 0 <= Time.microsecond dt < 1000000.

(** The microseconds from the start of the day before 0001-01-01 to
    [dt]. *)
Definition microseconds_of (dt : Time.datetime) : Z :=
  ((Time.ymd_to_ord (Time.year dt) (Time.month dt) (Time.day dt) * 86400
    + Time.hour dt * 3600 + Time.minute dt * 60 + Time.second dt)
   * 1000000) + Time.microsecond dt.

(** The microseconds a [timedelta] stands for, and its normal form. *)
Definition total (td : Time.timedelta) : Z :=
  (Time.td_days td * 86400 + Time.td_seconds td) * 1000000
  + Time.td_microseconds td.

Definition normalised (td : Time.timedelta) : Prop :=
  0 <= Time.td_seconds td < 86400
  /\ 0 <= Time.td_microseconds td < 1000000.

(** The microseconds of [h] hours. *)
Definition microseconds_of_hours (h : Z) : Z := h * 3600000000.

(** The file of a category, and the file of the catalog. *)
Definition category_file (data_dir dir category : string) : string :=
  data_dir ++ "/" ++ dir ++ "/" ++ category ++ ".txt".

Definition catalog_file (data_dir : string) : string :=
  data_dir ++ "/space_objects.json".

(** The parameters of the request for a group. *)
Definition tle_request (value : string) : list (string * string) :=
  [("GROUP", value); ("FORMAT", "tle")].

(** The directory, the key and the value of every category, in the order
    [update_all_tle_data] visits them. *)
Definition tracked : list (string * string * string) :=
  (map (fun e => ("satellites", fst e, snd e)) Updater.SATELLITE_CATEGORIES
   ++ map (fun e => ("debris", fst e, snd e)) Updater.DEBRIS_CATEGORIES)%list.

Definition tracked_file (data_dir : string)
    (t : string * string * string) : string :=
  category_file data_dir (fst (fst t)) (snd (fst t)).

(** The records [parse_tle_data] gives for the text [load_tle_data] reads
    from a file. *)
Definition cached_records (E : Updater.env) (s : Updater.state)
    (filename : string) : list Satellite.t :=
  match Updater.files s filename with
  | Some f =>
      OrbitPropagation.parse_tle_data (Updater.libm_pow E)
        (Updater.universal_newlines (Updater.content f))
  | None => []
  end.

(** [so] is the entity of [sat] at some reading of the clock. *)
Definition built (E : Updater.env) (so : SpaceObject.t)
    (sat : Satellite.t) : Prop :=
  exists k,
    OrbitPropagation.to_space_object
      (Time.isoformat (Updater.clock E k)) sat = Ok so.

(** Every carriage return of [s] has a line feed after it. *)
Fixpoint crlf_only (s : string) : bool :=
  match s with
  | EmptyString => true
  | String c r =>
      if Ascii.eqb c "013" then
        match r with
        | String d r' => (Ascii.eqb d "010" && crlf_only r')%bool
        | EmptyString => false
        end
      else crlf_only r
  end.

End Notions.

(** * Properties *)

(** Prove a conjunction of closed facts, each by evaluation. *)
Ltac by_evaluation :=
  repeat (apply conj); vm_compute; (reflexivity || discriminate).

(** ** The model on known values

    Values the Python runtime gives, reproduced by the model. *)

Module ModelChecks.
Import Flt Time OrbitPropagation.

Example strip_blanks_and_cr :
  Str.strip ("  ab c " ++ Examples.cr) = "ab c".
Proof. reflexivity. Qed.

Example split_keeps_empty_lines :
  Str.split newline ("a" ++ Examples.nl ++ Examples.nl ++ "b")
  = ["a"; ""; "b"].
Proof. reflexivity. Qed.

Example slice_clamps : Str.slice 18 20 "0123456789012345678" = "8".
Proof. reflexivity. Qed.

Example int_accepts_blanks_and_sign :
  map int_of_str [" 24"; "24"; "-5"; "+5"; "1_0"; "2."; ""; "1_"]
  = [Ok 24; Ok 24; Ok (-5); Ok 5; Ok 10;
     Raise ValueError; Raise ValueError; Raise ValueError].
Proof. vm_compute. reflexivity. Qed.

(** [float('3.14159').hex()] is [0x1.921f9f01b866ep+1]. *)
Example float_of_3_14159 :
  float_of_str "3.14159" = Ok (S754_finite false 0x1921f9f01b866e (-51)).
Proof. vm_compute. reflexivity. Qed.

(** [float('0.1').hex()] is [0x1.999999999999ap-4]. *)
Example float_of_tenth :
  float_of_str "0.1" = Ok (S754_finite false 0x1999999999999a (-56)).
Proof. vm_compute. reflexivity. Qed.

Example float_special_texts :
  map float_of_str ["1e400"; "-inf"; "NaN"; " 1_0.5 "; "-0.0"; "1e"; ""; "."]
  = [Ok (S754_infinity false); Ok (S754_infinity true); Ok S754_nan;
     Ok (literal "10.5"); Ok (S754_zero true);
     Raise ValueError; Raise ValueError; Raise ValueError].
Proof. vm_compute. reflexivity. Qed.

(** [timedelta(days=264.51782528 - 1)] is
    [timedelta(days=263, seconds=44740, microseconds=104192)]. *)
Example timedelta_of_epoch_day :
  timedelta_of_days (fsub (literal "264.51782528") (of_int 1))
  = Ok (MkDelta 263 44740 104192).
Proof. vm_compute. reflexivity. Qed.

Example timedelta_failures :
  map timedelta_of_days [S754_nan; S754_infinity false; literal "1e9"]
  = [Raise ValueError; Raise OverflowError; Raise OverflowError].
Proof. vm_compute. reflexivity. Qed.

Example epoch_of_example :
  Satellite.epoch Examples.iss_record = "2024-09-20T12:25:40.104192".
Proof. reflexivity. Qed.

(** [round(0.25, 1)] is [0.2], [round(0.35, 1)] is [0.3], [round(0.45, 1)]
    is [0.5], [round(-0.04, 1)] is [-0.0], [round(499.96, 1)] is [500.0]. *)
Example round1_values :
  map round1_float
      [literal "0.25"; literal "0.35"; literal "0.45"; literal "-0.04";
       literal "499.96"]
  = [literal "0.2"; literal "0.3"; literal "0.5"; S754_zero true;
     literal "500.0"].
Proof. vm_compute. reflexivity. Qed.

(** [math.pi.hex()] is [0x1.921fb54442d18p+1]. *)
Example pi_is_math_pi :
  Spec.pi = S754_finite false 0x1921fb54442d18 (-51).
Proof. vm_compute. reflexivity. Qed.

(** [0.0 ** 2] and [(-0.0) ** 2] are [0.0], without the C library. *)
Example pow_of_zero libm_pow :
  float_pow libm_pow (S754_zero false) (of_int 2) = Ok (VFloat zero)
  /\ float_pow libm_pow (S754_zero true) (of_int 2) = Ok (VFloat zero).
Proof. split; reflexivity. Qed.

(** [(-8.0) ** (1/3)] is a complex number, without the C library. *)
Example pow_of_negative libm_pow :
  float_pow libm_pow (literal "-8.0") one_third = Ok VComplex.
Proof. vm_compute. reflexivity. Qed.

(** The risk level is taken from the altitude before it is rounded: at
    499.96 km the entity shows 500.0 and is "high". *)
Example rounded_altitude_and_risk :
  exists so,
    to_space_object Examples.build_time Examples.near_500_record = Ok so /\
    SpaceObject.altitude so = VFloat (literal "500.0") /\
    SpaceObject.riskLevel so = "high".
Proof. eexists. by_evaluation. Qed.

End ModelChecks.

(** ** The loop of [parse_tle_data] *)

Module LoopFacts.
Import Flt OrbitPropagation Spec.

Section WithLibm.
Variable libm_pow : float -> float -> float * errno.

Lemma records_of_cons (g : string * string * string) gs :
  records_of libm_pow (g :: gs)
  = (records_of libm_pow [g] ++ records_of libm_pow gs)%list.
Proof. unfold records_of; simpl. now rewrite app_nil_r. Qed.

Lemma reports_of_cons (g : string * string * string) gs :
  reports_of libm_pow (g :: gs)
  = (reports_of libm_pow [g] ++ reports_of libm_pow gs)%list.
Proof. unfold reports_of; simpl. now rewrite app_nil_r. Qed.

(** The loop from index [3 * j] on handles the groups of the lines that are
    left, and only appends to its two lists. *)
Lemma loop_from (lines : list string) :
  forall (n j : nat) sats printed,
    ((List.length (skipn (3 * j) lines) + 2) / 3)%nat = n ->
    fold_left (loop_body libm_pow lines)
              (map (fun k => (3 * k)%nat) (seq j n)) (sats, printed)
    = ((sats ++ records_of libm_pow (triplets (skipn (3 * j) lines)))%list,
       (printed ++ reports_of libm_pow (triplets (skipn (3 * j) lines)))%list).
Proof.
  induction n as [|n IH]; intros j sats printed Hn.
  - assert (Hl : List.length (skipn (3 * j) lines) = 0%nat).
    { apply Nat.div_small_iff in Hn; lia. }
    apply length_zero_iff_nil in Hl. rewrite Hl. simpl.
    now rewrite !app_nil_r.
  - cbn [seq map fold_left].
    pose proof (length_skipn (3 * j) lines) as Hlen.
    assert (Hnth : forall k d, nth (3 * j + k) lines d
                               = nth k (skipn (3 * j) lines) d).
    { intros k d. now rewrite nth_skipn. }
    assert (Hnext : skipn (3 * S j) lines = skipn 3 (skipn (3 * j) lines)).
    { rewrite skipn_skipn. f_equal. lia. }
    destruct (skipn (3 * j) lines) as [|a [|b [|c rest]]] eqn:Hs.
    + simpl in Hn. discriminate.
    + cbn in Hn, Hlen. injection Hn as Hn. subst n.
      cbn [seq map fold_left triplets]. unfold loop_body.
      destruct (Nat.ltb_spec (3 * j + 2) (List.length lines)) as [H|H];
        [lia|]. cbn. now rewrite !app_nil_r.
    + cbn in Hn, Hlen. injection Hn as Hn. subst n.
      cbn [seq map fold_left triplets]. unfold loop_body.
      destruct (Nat.ltb_spec (3 * j + 2) (List.length lines)) as [H|H];
        [lia|]. cbn. now rewrite !app_nil_r.
    + assert (Hn' : ((List.length (skipn (3 * S j) lines) + 2) / 3)%nat = n).
      { rewrite Hnext. simpl skipn. simpl List.length in Hn.
        replace (S (S (S (List.length rest))) + 2)%nat
          with (1 * 3 + (List.length rest + 2))%nat in Hn by lia.
        rewrite Nat.div_add_l in Hn by lia. lia. }
      assert (Hbody : loop_body libm_pow lines (sats, printed) (3 * j)
                      = ((sats ++ records_of libm_pow
                                    [(Str.strip a, Str.strip b, Str.strip c)])%list,
                         (printed ++ reports_of libm_pow
                                    [(Str.strip a, Str.strip b, Str.strip c)])%list)).
      { unfold loop_body. simpl in Hlen.
        destruct (Nat.ltb_spec (3 * j + 2) (List.length lines)) as [H|H];
          [|lia].
        assert (H0 : nth (3 * j) lines EmptyString = a).
        { rewrite <- (Nat.add_0_r (3 * j)), Hnth. reflexivity. }
        rewrite H0, !Hnth. cbn [nth].
        unfold records_of, reports_of. simpl flat_map.
        destruct (parse_triplet libm_pow (Str.strip a) (Str.strip b)
                                (Str.strip c)); cbn [app];
          now rewrite ?app_nil_r. }
      rewrite Hbody, (IH (S j) _ _ Hn'), Hnext. simpl skipn.
      simpl triplets.
      rewrite (records_of_cons _ (triplets rest)),
              (reports_of_cons _ (triplets rest)).
      now rewrite !app_assoc.
Qed.

(** [parse_tle_data_st] in terms of the groups of three lines. *)
Lemma parse_tle_data_st_groups (tle_data : string) (printed : list output) :
  parse_tle_data_st libm_pow tle_data printed
  = (records_of libm_pow (triplets (lines_of tle_data)),
     (printed ++ reports_of libm_pow (triplets (lines_of tle_data)))%list).
Proof.
  unfold parse_tle_data_st, range3.
  rewrite (loop_from _ _ 0 [] printed); [reflexivity|].
  reflexivity.
Qed.

End WithLibm.
End LoopFacts.

(** ** Results *)

Module ResultFacts.

Lemma bind_ok {A B : Type} (c : result A) (k : A -> result B) (b : B) :
  bind c k = Ok b -> exists a, c = Ok a /\ k a = Ok b.
Proof. destruct c as [a|e]; simpl; [eauto | discriminate]. Qed.

Lemma bind_raise {A B : Type} (c : result A) (k : A -> result B) (e : exn) :
  bind c k = Raise e ->
  c = Raise e \/ exists a, c = Ok a /\ k a = Raise e.
Proof. destruct c as [a|e']; simpl; [eauto | intros [= ->]; now left]. Qed.

Lemma bind_of_raise {A B : Type} (c : result A) (k : A -> result B) e :
  c = Raise e -> bind c k = Raise e.
Proof. now intros ->. Qed.

Lemma bind_of_ok {A B : Type} (c : result A) (k : A -> result B) a :
  c = Ok a -> bind c k = k a.
Proof. now intros ->. Qed.

End ResultFacts.

(** Split a hypothesis [x <- c ;; k = Ok b] into its two steps. *)
Ltac bind_inv H :=
  let a := fresh "v" in
  let Ha := fresh "Hstep" in
  apply ResultFacts.bind_ok in H; destruct H as (a & Ha & H).

(** The same, naming the value of the first step and its equation. *)
Tactic Notation "bind_inv_as" hyp(H) ident(a) ident(Ha) :=
  apply ResultFacts.bind_ok in H; destruct H as (a & Ha & H).

(** ** Text *)

Module StrFacts.
Import Str.

Lemma drop_short (a : nat) (s : string) :
  (String.length s <= a)%nat -> drop a s = EmptyString.
Proof.
  revert s; induction a as [|a IH]; intros [|c s] H; simpl in *;
    try reflexivity; try lia.
  apply IH; lia.
Qed.

Lemma take_empty (n : nat) : take n EmptyString = EmptyString.
Proof. now destruct n. Qed.

(** A slice that starts at or after the end of the text is empty. *)
Lemma slice_short (a b : nat) (s : string) :
  (String.length s <= a)%nat -> slice a b s = EmptyString.
Proof. intros H; unfold slice; rewrite drop_short by exact H. apply take_empty. Qed.

Lemma prefix_app (sub s : string) :
  prefix sub s = true <-> exists post, s = sub ++ post.
Proof.
  revert s; induction sub as [|a sub IH]; intros s.
  - destruct s; simpl; split; eauto.
  - destruct s as [|b s]; simpl.
    + split; [discriminate | intros [post H]; discriminate].
    + destruct (ascii_dec a b) as [->|Hab].
      * rewrite IH; split; intros [post H]; exists post.
        -- now rewrite H.
        -- now injection H.
      * split; [discriminate | intros [post H]; injection H; congruence].
Qed.

(** [sub in s] holds exactly when [s] is some text, then [sub], then some
    text. *)
Lemma contains_app (sub s : string) :
  contains sub s = true <-> exists pre post, s = pre ++ sub ++ post.
Proof.
  induction s as [|c s IH]; cbn [contains].
  - destruct (prefix sub EmptyString) eqn:Hp.
    + split; [intros _|reflexivity].
      apply prefix_app in Hp as [post Hp]. now exists EmptyString, post.
    + split; [discriminate|]. intros (pre & post & H).
      destruct pre; simpl in H.
      * assert (prefix sub EmptyString = true) by (apply prefix_app; eauto).
        congruence.
      * discriminate.
  - destruct (prefix sub (String c s)) eqn:Hp.
    + split; [intros _|reflexivity].
      apply prefix_app in Hp as [post Hp]. now exists EmptyString, post.
    + rewrite IH. split.
      * intros (pre & post & ->). now exists (String c pre), post.
      * intros (pre & post & H). destruct pre as [|c' pre]; simpl in H.
        -- assert (prefix sub (String c s) = true)
             by (apply prefix_app; eauto).
           congruence.
        -- injection H as _ ->. eauto.
Qed.

Lemma length_lstrip_by (p : ascii -> bool) (s : string) :
  (String.length (lstrip_by p s) <= String.length s)%nat.
Proof.
  induction s as [|c s IH]; simpl; [lia|].
  destruct (p c); simpl; lia.
Qed.

Lemma length_rstrip_by (p : ascii -> bool) (s : string) :
  (String.length (rstrip_by p s) <= String.length s)%nat.
Proof.
  induction s as [|c s IH]; simpl; [lia|].
  destruct (rstrip_by p s); [destruct (p c)|]; simpl in *; lia.
Qed.

(** Stripping never makes a line longer. *)
Lemma length_strip (s : string) :
  (String.length (strip s) <= String.length s)%nat.
Proof.
  unfold strip.
  pose proof (length_rstrip_by isspace (lstrip_by isspace s)).
  pose proof (length_lstrip_by isspace s). lia.
Qed.

End StrFacts.

(** ** The body of the loop *)

Module ParserFacts.
Import Flt Time OrbitPropagation Spec ResultFacts.

Section WithLibm.
Variable libm_pow : float -> float -> float * errno.

(** A triplet yields a record exactly when each step of the body succeeds,
    and the record is built from the values of the steps. *)
Lemma parse_triplet_ok (name line1 line2 : string) (sat : Satellite.t) :
  parse_triplet libm_pow name line1 line2 = Ok sat <->
  exists epoch_date mean_motion period_minutes eccentricity inclination
         altitude,
    epoch_date_of line1 = Ok epoch_date /\
    float_of_str (Str.slice 52 63 line2) = Ok mean_motion /\
    period_of mean_motion = Ok period_minutes /\
    float_of_str ("0." ++ Str.slice 26 33 line2) = Ok eccentricity /\
    float_of_str (Str.slice 8 16 line2) = Ok inclination /\
    altitude_of libm_pow mean_motion = Ok altitude /\
    sat = Satellite.Make name (Str.strip (Str.slice 2 7 line1))
            (Str.strip (Str.slice 9 17 line1)) (isoformat epoch_date)
            period_minutes inclination eccentricity
            (if is_debris name then "debris" else "satellite")
            altitude line1 line2.
Proof.
  unfold parse_triplet. split.
  - intros H. do 6 bind_inv H. injection H as <-.
    do 6 eexists. repeat (split; [eassumption|]). reflexivity.
  - intros (d & mm & p & ec & inc & alt & H1 & H2 & H3 & H4 & H5 & H6 & ->).
    rewrite H1; cbn [bind]. rewrite H2; cbn [bind]. rewrite H3; cbn [bind].
    rewrite H4; cbn [bind]. rewrite H5; cbn [bind]. now rewrite H6.
Qed.

Lemma records_of_In (groups : list (string * string * string)) sat :
  In sat (records_of libm_pow groups) <->
  exists name line1 line2,
    In (name, line1, line2) groups /\
    parse_triplet libm_pow name line1 line2 = Ok sat.
Proof.
  unfold records_of. rewrite in_flat_map. split.
  - intros ([[name line1] line2] & Hin & H).
    destruct (parse_triplet libm_pow name line1 line2) as [s|e] eqn:Hp;
      simpl in H; [|contradiction].
    destruct H as [->|[]]. eauto.
  - intros (name & line1 & line2 & Hin & Hp).
    exists (name, line1, line2). rewrite Hp. simpl. auto.
Qed.

Lemma reports_of_In (groups : list (string * string * string)) name e :
  In (ErrorParsing name e) (reports_of libm_pow groups) <->
  exists line1 line2,
    In (name, line1, line2) groups /\
    parse_triplet libm_pow name line1 line2 = Raise e.
Proof.
  unfold reports_of. rewrite in_flat_map. split.
  - intros ([[name' line1] line2] & Hin & H).
    destruct (parse_triplet libm_pow name' line1 line2) as [s|e'] eqn:Hp;
      simpl in H; [contradiction|].
    destruct H as [[= -> ->]|[]]. eauto.
  - intros (line1 & line2 & Hin & Hp).
    exists (name, line1, line2). rewrite Hp. simpl. auto.
Qed.

End WithLibm.

(** Every group is three consecutive lines, stripped, starting at a
    multiple of three. *)
Lemma triplets_In (lines : list string) (name line1 line2 : string) :
  In (name, line1, line2) (triplets lines) ->
  exists k : nat,
    (3 * k + 2 < List.length lines)%nat /\
    name = Str.strip (nth (3 * k) lines EmptyString) /\
    line1 = Str.strip (nth (3 * k + 1) lines EmptyString) /\
    line2 = Str.strip (nth (3 * k + 2) lines EmptyString).
Proof.
  assert (Hle : (List.length lines <= List.length lines)%nat) by lia.
  revert Hle. generalize (List.length lines) at 2. intros m.
  revert lines.
  induction m as [|m IH]; intros lines Hle Hin.
  - destruct lines; [contradiction | simpl in Hle; lia].
  - destruct lines as [|a [|b [|c rest]]]; try contradiction.
    cbn [triplets] in Hin. destruct Hin as [[= <- <- <-]|Hin].
    + exists 0%nat. cbn [nth Nat.mul Nat.add List.length].
      repeat split; try reflexivity; lia.
    + destruct (IH rest) as (k & Hk & Hn & H1 & H2);
        [simpl in Hle; lia | exact Hin |].
      exists (S k). simpl List.length.
      replace (3 * S k)%nat with (S (S (S (3 * k)))) by lia.
      cbn [nth Nat.add]. repeat split; try assumption; lia.
Qed.

(** Conversely, the [k]-th complete group of three lines is among the
    groups. *)
Lemma triplets_nth (k : nat) :
  forall lines : list string,
    (3 * k + 2 < List.length lines)%nat ->
    In (Str.strip (nth (3 * k) lines EmptyString),
        Str.strip (nth (3 * k + 1) lines EmptyString),
        Str.strip (nth (3 * k + 2) lines EmptyString))
       (triplets lines).
Proof.
  induction k as [|k IH]; intros lines Hlen.
  - destruct lines as [|a [|b [|c rest]]]; try (simpl in Hlen; lia).
    cbn [triplets nth Nat.mul Nat.add]. now left.
  - destruct lines as [|a [|b [|c rest]]]; try (simpl in Hlen; lia).
    replace (3 * S k)%nat with (S (S (S (3 * k)))) by lia.
    cbn [triplets nth Nat.add]. right. apply IH.
    simpl in Hlen. lia.
Qed.

End ParserFacts.

(** ** Signs: when the altitude is a float

    A complex altitude needs a negative square at line 153, which no
    [**] gives unless the C library's [pow] returns a negative number for
    a positive base. *)

Module PowFacts.
Import Flt OrbitPropagation.

Lemma binary_round_aux_sign (sx : bool) (mx ex : Z) (lx : location) :
  binary_round_aux prec emax sx mx ex lx = S754_nan \/
  sign_bit (binary_round_aux prec emax sx mx ex lx) = sx.
Proof.
  unfold binary_round_aux.
  destruct (shr_fexp prec emax mx ex lx) as [mrs' e'].
  destruct (shr_fexp prec emax _ e' loc_Exact) as [mrs'' e''].
  destruct (shr_m mrs'') as [|m|m]; auto.
  destruct (e'' <=? emax - prec); auto.
Qed.

Lemma SFdiv_sign (a b : float) :
  sign_bit a = false -> sign_bit b = false ->
  sign_bit (SFdiv prec emax a b) = false.
Proof.
  destruct a as [[|]|[|]| |[|] ma ea], b as [[|]|[|]| |[|] mb eb];
    try discriminate; try reflexivity; intros _ _.
  cbn [SFdiv xorb].
  destruct (SFdiv_core_binary prec emax (Z.pos ma) ea (Z.pos mb) eb)
    as [[mz ez] lz].
  destruct (binary_round_aux_sign false mz ez lz) as [H|H]; rewrite H;
    reflexivity.
Qed.

Lemma SFmul_sign (a b : float) :
  sign_bit a = false -> sign_bit b = false ->
  sign_bit (fmul a b) = false.
Proof.
  destruct a as [[|]|[|]| |[|] ma ea], b as [[|]|[|]| |[|] mb eb];
    try discriminate; try reflexivity; intros _ _.
  unfold fmul. cbn [SFmul xorb].
  destruct (binary_round_aux_sign false (Z.pos (ma * mb)) (ea + eb)
              loc_Exact) as [H|H]; rewrite H; reflexivity.
Qed.

Lemma fdiv_ok (a b q : float) :
  fdiv a b = Ok q -> q = SFdiv prec emax a b.
Proof. unfold fdiv. destruct (is_zero b); [discriminate | now intros [= <-]]. Qed.

Lemma sign_abs (x : float) : sign_bit (SFabs x) = false.
Proof. now destruct x. Qed.

Lemma not_below_zero (x : float) : sign_bit x = false -> fltb x zero = false.
Proof. destruct x as [[|]|[|]| |[|] m e]; try discriminate; reflexivity. Qed.

Section WithLibm.
Variable libm_pow : float -> float -> float * errno.
Hypothesis libm_pow_sign :
  forall x y, sign_bit x = false -> sign_bit (fst (libm_pow x y)) = false.

(** The square of line 153 is a float, and not a negative one. *)
Lemma square_sign (w : float) (sq : num) :
  float_pow libm_pow w (of_int 2) = Ok sq ->
  exists f, sq = VFloat f /\ sign_bit f = false.
Proof.
  unfold float_pow.
  replace (is_zero (of_int 2)) with false by reflexivity.
  replace (is_nan (of_int 2)) with false by reflexivity.
  replace (is_inf (of_int 2)) with false by reflexivity.
  replace (is_integer (of_int 2)) with true by reflexivity.
  replace (is_odd_integer (of_int 2)) with false by reflexivity.
  replace (fltb zero (of_int 2)) with true by reflexivity.
  replace (fltb (of_int 2) zero) with false by reflexivity.
  rewrite !andb_false_r.
  destruct (is_nan w) eqn:Hn.
  { intros [= <-]. exists w. split; auto. now destruct w. }
  destruct (is_inf w).
  { intros [= <-]. eexists; split; eauto. apply sign_abs. }
  destruct (is_zero w).
  { intros [= <-]. eexists; split; eauto. }
  destruct (feqb (SFabs w) one).
  { intros [= <-]. eexists; split; eauto. }
  pose proof (libm_pow_sign (SFabs w) (of_int 2) (sign_abs w)) as Hs.
  destruct (libm_pow (SFabs w) (of_int 2)) as [ix en]. cbn [fst] in Hs.
  destruct (adjust_erange ix en); try discriminate.
  intros [= <-]. eauto.
Qed.

(** A base that is not negative has a float for every power. *)
Lemma float_pow_real (q w : float) (v : num) :
  sign_bit q = false ->
  float_pow libm_pow q w = Ok v -> exists f, v = VFloat f.
Proof.
  intros Hq. unfold float_pow. rewrite (not_below_zero q Hq).
  cbn [andb].
  repeat match goal with
         | |- context [if ?c then _ else _] => destruct c
         end;
    try (intros [= <-]; eauto); try discriminate.
  destruct (libm_pow (SFabs q) w) as [ix en].
  destruct (adjust_erange ix en); try discriminate.
  intros [= <-]. eauto.
Qed.

(** With such a [pow], the altitude of line 154 is a float. *)
Lemma altitude_is_float (mean_motion : float) (altitude : num) :
  altitude_of libm_pow mean_motion = Ok altitude ->
  exists a, altitude = VFloat a.
Proof.
  unfold altitude_of, semi_major_axis_of. intros H.
  bind_inv_as H sma Hsma.
  bind_inv_as Hsma w Hw.
  bind_inv_as Hsma sq Hsq.
  bind_inv_as Hsma q Hq.
  apply square_sign in Hsq as (f & -> & Hf).
  cbn [div_by] in Hq. bind_inv_as Hq q' Hq'. injection Hq as <-.
  apply fdiv_ok in Hq'. subst q'.
  cbn [pow] in Hsma. apply float_pow_real in Hsma as [s ->].
  - cbn [div_float] in H. bind_inv_as H km Hkm. bind_inv_as Hkm km' Hkm'.
    injection Hkm as <-. injection H as <-. cbn [sub_float]. eauto.
  - apply SFdiv_sign; [reflexivity | exact Hf].
Qed.

End WithLibm.

Lemma icbrt_nonneg (bits : nat) (n r : Z) :
  0 <= r -> 0 <= SampleLibm.icbrt bits n r.
Proof.
  revert r; induction bits as [|b IH]; intros r Hr; cbn [SampleLibm.icbrt];
    [exact Hr|].
  apply IH. destruct (_ <=? n); [|exact Hr].
  pose proof (Z.pow_nonneg 2 (Z.of_nat b)). lia.
Qed.

(** The stand-in [pow] is one of these. *)
Lemma sample_pow_sign (x y : float) :
  sign_bit x = false -> sign_bit (fst (SampleLibm.pow x y)) = false.
Proof.
  intros Hx. unfold SampleLibm.pow.
  destruct (feqb y (of_int 2)); cbn [fst].
  - now apply SFmul_sign.
  - destruct x as [[|]|[|]| |[|] m e]; try discriminate; try reflexivity.
    unfold SampleLibm.cbrt.
    pose proof (icbrt_nonneg 80 (Z.pos m * 2 ^ (162 + e mod 3)) 0
                  (Z.le_refl 0)) as Hn.
    destruct (SampleLibm.icbrt 80 _ 0) as [|p|p]; [reflexivity| |lia].
    unfold binary_normalize, binary_round.
    destruct (shl_align p _ _) as [mz ez].
    destruct (binary_round_aux_sign false (Z.pos mz) ez loc_Exact)
      as [H|H]; rewrite H; reflexivity.
Qed.

End PowFacts.

Import Flt OrbitPropagation.

(** ** Comparisons of floats *)

Module FltFacts.
Import Flt.

Lemma SFcompare_antisym (x y : float) :
  SFcompare y x = option_map CompOpp (SFcompare x y).
Proof.
  destruct x as [[|]|[|]| |[|] mx ex], y as [[|]|[|]| |[|] my ey];
    try reflexivity; cbn [SFcompare option_map]; f_equal;
    rewrite (Z.compare_antisym ex ey);
    assert (H : Pos.compare_cont Eq my mx
                = CompOpp (Pos.compare_cont Eq mx my))
      by (rewrite Pos.compare_cont_antisym; reflexivity);
    rewrite H;
    destruct (ex ?= ey)%Z; cbn [CompOpp]; try reflexivity;
    destruct (Pos.compare_cont Eq mx my); reflexivity.
Qed.

(** [c <= a] excludes [a < c]. *)
Lemma fleb_not_fltb (c a : float) : fleb c a = true -> fltb a c = false.
Proof.
  unfold fleb, fltb, SFleb, SFltb. rewrite (SFcompare_antisym c a).
  destruct (SFcompare c a) as [[| |]|]; cbn; congruence.
Qed.

(** [800 <= a] excludes [a < 500]. *)
Lemma fleb_800_not_fltb_500 (a : float) :
  fleb (of_int 800) a = true -> fltb a (of_int 500) = false.
Proof.
  change (of_int 800) with (S754_finite false 7036874417766400 (-43)).
  change (of_int 500) with (S754_finite false 8796093022208000 (-44)).
  unfold fleb, fltb, SFleb, SFltb.
  destruct a as [[|]|[|]| |[|] m e]; cbn [SFcompare];
    try reflexivity; try discriminate.
  destruct (Z.compare_spec (-43) e) as [He|He|He];
    destruct (Z.compare_spec e (-44)) as [He'|He'|He'];
    try lia; try reflexivity; try discriminate.
Qed.

End FltFacts.

(** ** The catalog assembler *)

Module AssemblerFacts.
Import ResultFacts.

Lemma to_space_object_ok (now : string) (sat : Satellite.t)
    (so : SpaceObject.t) :
  to_space_object now sat = Ok so ->
  exists risk_level altitude hours period,
    risk_level_of (Satellite.altitude sat) = Ok risk_level /\
    round1 (Satellite.altitude sat) = Ok altitude /\
    div_60 (Satellite.period_minutes sat) = Ok hours /\
    round1 hours = Ok period /\
    SpaceObject.riskLevel so = risk_level /\
    SpaceObject.country so
    = country_loop (Satellite.int_designator sat) country_codes "Unknown" /\
    SpaceObject.altitude so = altitude /\
    SpaceObject.period so = period.
Proof.
  unfold to_space_object. intros H. do 4 bind_inv H. injection H as <-.
  cbn. eauto 12.
Qed.

(** On a float altitude the two comparisons of lines 229-233 are the
    thresholds of the specification. *)
Lemma risk_level_of_float (a : float) :
  risk_level_of (VFloat a) = Ok (Spec.risk_by_thresholds a).
Proof.
  unfold risk_level_of, Spec.risk_by_thresholds. cbn [lt_int bind].
  destruct (fltb a (of_int 500)); [reflexivity|]. cbn [bind].
  destruct (fltb a (of_int 800)); reflexivity.
Qed.

(** [find], as a split of the list at the first element that fits. *)
Lemma find_first {A : Type} (f : A -> bool) (l : list A) (x : A) :
  find f l = Some x ->
  exists before after,
    l = (before ++ x :: after)%list /\
    (forall y, In y before -> f y = false) /\ f x = true.
Proof.
  induction l as [|y l IH]; cbn [find]; [discriminate|].
  destruct (f y) eqn:Hy.
  - intros [= ->]. exists [], l. repeat split; auto. intros ? [].
  - intros H. destruct (IH H) as (before & after & -> & Hb & Hx).
    exists (y :: before), after. repeat split; auto.
    intros z [<-|Hz]; auto.
Qed.

(** The loop with its [break] returns the first match of the table, for a
    designator that is not empty. *)
Lemma country_loop_find (int_des : string) (codes : list (string * string))
    (country : string) :
  nonempty int_des = true ->
  country_loop int_des codes country
  = match find (fun entry => Str.contains (fst entry) int_des) codes with
    | Some entry => snd entry
    | None => country
    end.
Proof.
  intros Hne. induction codes as [|[code name] codes IH];
    cbn [country_loop find fst snd]; [reflexivity|].
  rewrite Hne. cbn [andb].
  destruct (Str.contains code int_des); [reflexivity | exact IH].
Qed.

Lemma country_loop_first_match (int_des : string) :
  country_loop int_des country_codes "Unknown" = Spec.first_match int_des.
Proof.
  destruct int_des as [|c s]; [reflexivity|].
  now apply country_loop_find.
Qed.

(** The thresholds, on the altitude of the record an entity is built
    from. *)
Lemma risk_level_thresholds (now : string) (sat : Satellite.t)
    (so : SpaceObject.t) (a : float) :
  to_space_object now sat = Ok so ->
  Satellite.altitude sat = VFloat a ->
  SpaceObject.riskLevel so = Spec.risk_by_thresholds a
  /\ (fltb a (of_int 500) = true -> SpaceObject.riskLevel so = "high")
  /\ (fleb (of_int 500) a = true -> fltb a (of_int 800) = true ->
      SpaceObject.riskLevel so = "medium")
  /\ (fleb (of_int 800) a = true -> SpaceObject.riskLevel so = "low")
  /\ (a = literal "499.9" -> SpaceObject.riskLevel so = "high")
  /\ (a = literal "500.0" -> SpaceObject.riskLevel so = "medium")
  /\ (a = literal "799.9" -> SpaceObject.riskLevel so = "medium")
  /\ (a = literal "800.0" -> SpaceObject.riskLevel so = "low")
  /\ (forall now' sat' so',
        to_space_object now' sat' = Ok so' ->
        Satellite.altitude sat' = Satellite.altitude sat ->
        SpaceObject.riskLevel so' = SpaceObject.riskLevel so).
Proof.
  intros H Ha.
  assert (Hr : forall n s o,
             to_space_object n s = Ok o ->
             Satellite.altitude s = VFloat a ->
             SpaceObject.riskLevel o = Spec.risk_by_thresholds a).
  { intros n s o Ho Hs.
    apply to_space_object_ok in Ho
      as (r & al & h & p & Hrisk & _ & _ & _ & Hso & _).
    rewrite Hs, risk_level_of_float in Hrisk.
    injection Hrisk as <-. exact Hso. }
  rewrite (Hr _ _ _ H Ha). unfold Spec.risk_by_thresholds.
  repeat split.
  - now intros ->.
  - intros H5 H8. now rewrite (FltFacts.fleb_not_fltb _ _ H5), H8.
  - intros H8. now rewrite (FltFacts.fleb_800_not_fltb_500 _ H8),
                           (FltFacts.fleb_not_fltb _ _ H8).
  - now intros ->.
  - now intros ->.
  - now intros ->.
  - now intros ->.
  - intros n s o Ho Hs. rewrite Ha in Hs. now rewrite (Hr _ _ _ Ho Hs).
Qed.

(** The altitude of line 154 is a float or a complex number, never an
    [int]. *)
Lemma altitude_of_shape libm_pow (mean_motion : float) (v : num) :
  altitude_of libm_pow mean_motion = Ok v ->
  v = VComplex \/ exists a, v = VFloat a.
Proof.
  unfold altitude_of. intros H.
  bind_inv_as H sma Hsma. bind_inv_as H km Hkm. injection H as <-.
  destruct km; cbn [sub_float]; eauto.
Qed.

(** An entity is built only from a record whose altitude is a float: the
    comparison of line 230 raises on a complex number. *)
Lemma entity_altitude_float libm_pow (name line1 line2 : string)
    (sat : Satellite.t) (now : string) (so : SpaceObject.t) :
  parse_triplet libm_pow name line1 line2 = Ok sat ->
  to_space_object now sat = Ok so ->
  exists a, Satellite.altitude sat = VFloat a.
Proof.
  intros Hp Hso.
  apply ParserFacts.parse_triplet_ok in Hp
    as (d & mm & p & ec & inc & alt & _ & _ & _ & _ & _ & Halt & ->).
  cbn [Satellite.altitude].
  apply altitude_of_shape in Halt as [->|[a ->]]; [|eauto].
  apply to_space_object_ok in Hso as (r & _ & _ & _ & Hr & _).
  discriminate Hr.
Qed.

End AssemblerFacts.

(** ** Failures of the body *)

Module FailureFacts.
Import ResultFacts.

(** The conversions raise nothing but [ValueError]. *)
Lemma int_of_str_raise (s : string) (e : exn) :
  int_of_str s = Raise e -> e = ValueError.
Proof.
  unfold int_of_str.
  destruct (sign_of (Str.lstrip_by is_ws s)) as [neg [|c r]];
    [now intros [= <-]|].
  destruct (Str.is_digit c); [|now intros [= <-]].
  destruct (digits_us 0 0 (String c r)) as [[v n] rest].
  destruct (Str.lstrip_by is_ws rest); [discriminate | now intros [= <-]].
Qed.

Lemma float_of_str_raise (s : string) (e : exn) :
  float_of_str s = Raise e -> e = ValueError.
Proof.
  unfold float_of_str.
  destruct (Str.rstrip_by is_ws (Str.lstrip_by is_ws s)) as [|c r];
    [now intros [= <-]|].
  destruct (drop_underscores Ascii.zero (String c r)) as [s2|];
    [|now intros [= <-]].
  destruct (match parse_number s2 with
            | Some r0 => Some r0
            | None => parse_inf_nan s2
            end) as [[f [|c' r']]|];
    [discriminate | now intros [= <-] | now intros [= <-]].
Qed.

(** The period of line 139 never raises: the division is guarded. *)
Lemma period_of_ok (mean_motion : float) :
  exists p, period_of mean_motion = Ok p.
Proof.
  unfold period_of.
  destruct (fltb (of_int 0) mean_motion) eqn:Hlt; [|eauto].
  unfold fdiv. destruct mean_motion as [[|]| | |]; cbn [is_zero bind];
    try discriminate; eauto.
Qed.

(** A first line of twenty characters or fewer has an empty epoch day
    field, which [float()] refuses. *)
Lemma epoch_date_of_short (line1 : string) :
  (String.length line1 <= 20)%nat ->
  epoch_date_of line1 = Raise ValueError.
Proof.
  intros Hlen. unfold epoch_date_of.
  destruct (epoch_year_of line1) as [y|e] eqn:Hy; cbn [bind].
  - now rewrite (StrFacts.slice_short 20 32 line1 Hlen).
  - unfold epoch_year_of in Hy.
    destruct (int_of_str (Str.slice 18 20 line1)) as [y|e'] eqn:Hi;
      cbn [bind] in Hy; [discriminate|].
    injection Hy as <-. now rewrite (int_of_str_raise _ _ Hi).
Qed.

(** Where the epoch date can fail. *)
Lemma epoch_date_of_raise (line1 : string) (e : exn) :
  epoch_date_of line1 = Raise e ->
  (e = ValueError /\
   (int_of_str (Str.slice 18 20 line1) = Raise e \/
    float_of_str (Str.slice 20 32 line1) = Raise e))
  \/ exists y epoch_day,
       int_of_str (Str.slice 18 20 line1) = Ok y /\
       float_of_str (Str.slice 20 32 line1) = Ok epoch_day.
Proof.
  unfold epoch_date_of, epoch_year_of. intros H.
  destruct (int_of_str (Str.slice 18 20 line1)) as [y|e'] eqn:Hi;
    cbn [bind] in H.
  - destruct (float_of_str (Str.slice 20 32 line1)) as [d|e'] eqn:Hf;
      cbn [bind] in H.
    + right. eauto.
    + injection H as <-. left. rewrite (float_of_str_raise _ _ Hf) in *.
      auto.
  - injection H as <-. left. rewrite (int_of_str_raise _ _ Hi) in *. auto.
Qed.

End FailureFacts.

(** ** Steps of the body *)

(** A zero mean motion, of either sign, makes the altitude formula divide by
    zero: the square of line 153 is computed without the C library, and the
    division by it raises. *)
Lemma altitude_of_zero libm_pow (mean_motion : float) :
  is_zero mean_motion = true ->
  altitude_of libm_pow mean_motion = Raise ZeroDivisionError.
Proof.
  destruct mean_motion as [[|]| | |]; try discriminate; intros _;
    vm_compute; reflexivity.
Qed.

(** The period of line 139 is the integer [0] for such a mean motion. *)
Lemma period_of_zero (mean_motion : float) :
  is_zero mean_motion = true -> period_of mean_motion = Ok (VInt 0).
Proof.
  destruct mean_motion as [[|]| | |]; try discriminate; reflexivity.
Qed.

(** No record comes out of a triplet whose mean motion field reads zero,
    whatever the other fields hold. *)
Lemma zero_mean_motion_no_record libm_pow name line1 line2 mean_motion :
  float_of_str (Str.slice 52 63 line2) = Ok mean_motion ->
  is_zero mean_motion = true ->
  forall sat, parse_triplet libm_pow name line1 line2 <> Ok sat.
Proof.
  intros Hmm Hz sat H.
  apply ParserFacts.parse_triplet_ok in H
    as (d & mm & p & ec & inc & alt & _ & H2 & _ & _ & _ & H6 & _).
  rewrite Hmm in H2. injection H2 as <-.
  rewrite (altitude_of_zero _ _ Hz) in H6. discriminate.
Qed.

(** The conversion of line 153 never raises: its divisor is [86400.0]. *)
Lemma rad_per_sec_value (mean_motion : float) :
  rad_per_sec mean_motion
  = Ok (SFdiv prec emax
          (fmul (fmul mean_motion (of_int 2)) (literal "3.14159"))
          (literal "86400.0")).
Proof.
  unfold rad_per_sec, fdiv.
  replace (is_zero (literal "86400.0")) with false
    by (vm_compute; reflexivity).
  reflexivity.
Qed.

(** The steps of lines 128-133. *)
Lemma epoch_date_of_ok (line1 : string) (epoch_date : Time.datetime) :
  epoch_date_of line1 = Ok epoch_date ->
  exists y epoch_day jan1 delta,
    int_of_str (Str.slice 18 20 line1) = Ok y /\
    epoch_year_of line1
    = Ok (if y <? 57 then y + 2000 else y + 1900) /\
    float_of_str (Str.slice 20 32 line1) = Ok epoch_day /\
    Time.datetime_jan1 (if y <? 57 then y + 2000 else y + 1900) = Ok jan1 /\
    Time.timedelta_of_days (fsub epoch_day (of_int 1)) = Ok delta /\
    Time.datetime_add jan1 delta = Ok epoch_date.
Proof.
  unfold epoch_date_of. intros H.
  bind_inv H. rename v into ey, Hstep into Hey.
  pose proof Hey as Hey'. unfold epoch_year_of in Hey.
  bind_inv Hey. rename v into y, Hstep into Hy. injection Hey as <-.
  bind_inv H. rename v into d, Hstep into Hd.
  bind_inv H. rename v into j, Hstep into Hj.
  bind_inv H. rename v into td, Hstep into Htd.
  exists y, d, j, td. auto 10.
Qed.

(** ** The claims *)

(** C1 (the code at the failing input): on a group whose mean motion field
    reads [0.00000000], [parse_tle_data] returns no record and prints one
    report, for a [ZeroDivisionError]; the claim promises a record with a
    zero period and a zero altitude. *)
Theorem C1_zero_mean_motion_raises libm_pow (printed : list output) :
  float_of_str (Str.slice 52 63 Examples.zero_line2) = Ok (S754_zero false)
  /\ period_of (S754_zero false) = Ok (VInt 0)
  /\ altitude_of libm_pow (S754_zero false) = Raise ZeroDivisionError
  /\ parse_tle_data_st libm_pow Examples.zero_tle printed
     = ([], (printed ++ [ErrorParsing "ZERO" ZeroDivisionError])%list).
Proof.
  by_evaluation.
Qed.

(** C2 (as amended): the two lines a record keeps are the second and third
    lines of its own group with leading and trailing whitespace removed.
    Whenever the body succeeds on the [k]-th group of three lines, the
    record it gives is in the list returned and keeps the stripped second
    and third lines of that group; and every record returned is the record
    of such a group. *)
Theorem C2_raw_lines_kept_stripped libm_pow (tle_data : string) :
  (forall (k : nat) (sat : Satellite.t),
      (3 * k + 2 < List.length (Spec.lines_of tle_data))%nat ->
      parse_triplet libm_pow
        (Str.strip (nth (3 * k) (Spec.lines_of tle_data) EmptyString))
        (Str.strip (nth (3 * k + 1) (Spec.lines_of tle_data) EmptyString))
        (Str.strip (nth (3 * k + 2) (Spec.lines_of tle_data) EmptyString))
      = Ok sat ->
      In sat (parse_tle_data libm_pow tle_data)
      /\ Satellite.tle_line1 sat
         = Str.strip (nth (3 * k + 1) (Spec.lines_of tle_data) EmptyString)
      /\ Satellite.tle_line2 sat
         = Str.strip (nth (3 * k + 2) (Spec.lines_of tle_data) EmptyString))
  /\ (forall sat : Satellite.t,
        In sat (parse_tle_data libm_pow tle_data) ->
        exists k : nat,
          (3 * k + 2 < List.length (Spec.lines_of tle_data))%nat
          /\ parse_triplet libm_pow
               (Str.strip (nth (3 * k) (Spec.lines_of tle_data)
                               EmptyString))
               (Str.strip (nth (3 * k + 1) (Spec.lines_of tle_data)
                               EmptyString))
               (Str.strip (nth (3 * k + 2) (Spec.lines_of tle_data)
                               EmptyString))
             = Ok sat).
Proof.
  unfold parse_tle_data.
  rewrite LoopFacts.parse_tle_data_st_groups. cbn [fst].
  split.
  - intros k sat Hk Hp. split.
    + apply ParserFacts.records_of_In.
      do 3 eexists. split; [|exact Hp].
      now apply ParserFacts.triplets_nth.
    + apply ParserFacts.parse_triplet_ok in Hp
        as (d & mm & p & ec & inc & alt & _ & _ & _ & _ & _ & _ & ->).
      split; reflexivity.
  - intros sat H. apply ParserFacts.records_of_In in H
      as (name & line1 & line2 & Hin & Hp).
    apply ParserFacts.triplets_In in Hin as (k & Hk & -> & -> & ->).
    exists k. split; assumption.
Qed.

Lemma C2_raw_lines_kept_stripped_witness :
  In Examples.iss_record (parse_tle_data SampleLibm.pow Examples.crlf_tle)
  /\ Satellite.tle_line1 Examples.iss_record
     = Str.strip (nth (3 * 0 + 1) (Spec.lines_of Examples.crlf_tle)
                      EmptyString)
  /\ Satellite.tle_line2 Examples.iss_record
     = Str.strip (nth (3 * 0 + 2) (Spec.lines_of Examples.crlf_tle)
                      EmptyString).
Proof.
  apply (proj1 (C2_raw_lines_kept_stripped SampleLibm.pow Examples.crlf_tle)
               0%nat Examples.iss_record).
  - vm_compute. lia.
  - vm_compute. reflexivity.
Defined.

(** C2 (counterexample): in a text with CR LF line ends the second line of
    the group ends in a carriage return, and the record keeps it without. *)
Lemma C2_counterexample :
  nth 1 (Str.split newline Examples.crlf_tle) EmptyString
  = (Examples.iss_line1 ++ Examples.cr)%string
  /\ map Satellite.tle_line1
         (parse_tle_data SampleLibm.pow Examples.crlf_tle)
     = [Examples.iss_line1]
  /\ Examples.iss_line1 <> (Examples.iss_line1 ++ Examples.cr)%string.
Proof.
  by_evaluation.
Qed.




(** C4: [parse_tle_data] is total; its result is the records of the groups
    of three lines whose body does not raise, in order, and it prints one
    report carrying the name for each group whose body raises. A group that
    raises changes nothing for the groups before and after it. *)
Theorem C4_malformed_triplets_skipped libm_pow (tle_data : string)
    (printed : list output) :
  let groups := Spec.triplets (Spec.lines_of tle_data) in
  parse_tle_data_st libm_pow tle_data printed
  = (Spec.records_of libm_pow groups,
     (printed ++ Spec.reports_of libm_pow groups)%list)
  /\ parse_tle_data libm_pow tle_data = Spec.records_of libm_pow groups
  /\ (forall sat,
        In sat (parse_tle_data libm_pow tle_data) <->
        exists name line1 line2,
          In (name, line1, line2) groups /\
          parse_triplet libm_pow name line1 line2 = Ok sat)
  /\ (forall name e,
        In (ErrorParsing name e) (Spec.reports_of libm_pow groups) <->
        exists line1 line2,
          In (name, line1, line2) groups /\
          parse_triplet libm_pow name line1 line2 = Raise e)
  /\ (forall before name line1 line2 after e,
        groups = (before ++ (name, line1, line2) :: after)%list ->
        parse_triplet libm_pow name line1 line2 = Raise e ->
        parse_tle_data libm_pow tle_data
        = (Spec.records_of libm_pow before
           ++ Spec.records_of libm_pow after)%list).
Proof.
  intros groups.
  assert (Hst := LoopFacts.parse_tle_data_st_groups libm_pow tle_data).
  assert (Hp : parse_tle_data libm_pow tle_data
               = Spec.records_of libm_pow groups).
  { unfold parse_tle_data. now rewrite Hst. }
  split; [apply Hst|]. split; [exact Hp|]. split; [|split].
  - intros sat. rewrite Hp. apply ParserFacts.records_of_In.
  - intros name e. apply ParserFacts.reports_of_In.
  - intros before name line1 line2 after e Hg Hr. rewrite Hp, Hg.
    unfold Spec.records_of. rewrite flat_map_app. cbn [flat_map].
    now rewrite Hr.
Qed.

Lemma C4_malformed_triplets_skipped_witness :
  parse_tle_data SampleLibm.pow Examples.mixed_tle
  = (Spec.records_of SampleLibm.pow
       [("COSMOS 2251 DEB", Examples.debris_line1, Examples.debris_line2)]
     ++ Spec.records_of SampleLibm.pow
          [("ISS (ZARYA)", Examples.iss_line1, Examples.iss_line2)])%list.
Proof.
  apply (proj2 (proj2 (proj2 (proj2
           (C4_malformed_triplets_skipped SampleLibm.pow Examples.mixed_tle
              []))))
           [("COSMOS 2251 DEB", Examples.debris_line1, Examples.debris_line2)]
           "BAD" Examples.debris_line1 "2 33759  7"
           [("ISS (ZARYA)", Examples.iss_line1, Examples.iss_line2)]
           ValueError).
  - vm_compute. reflexivity.
  - vm_compute. reflexivity.
Defined.

(** C5: the country of an entity is the name of the first entry of the
    table, read in the order US, CIS, PRC, ESA, FR, JP, IN, CA, UK, whose
    code is a substring of the international designator, and "Unknown" when
    no code is. *)
Theorem C5_country_first_match (now : string) (sat : Satellite.t)
    (so : SpaceObject.t) :
  to_space_object now sat = Ok so ->
  map fst country_codes
  = ["US"; "CIS"; "PRC"; "ESA"; "FR"; "JP"; "IN"; "CA"; "UK"]
  /\ SpaceObject.country so
     = Spec.first_match (Satellite.int_designator sat)
  /\ ((exists before code name after,
         country_codes = (before ++ (code, name) :: after)%list /\
         (forall c, In c (map fst before) ->
                    Str.contains c (Satellite.int_designator sat) = false) /\
         Str.contains code (Satellite.int_designator sat) = true /\
         SpaceObject.country so = name)
      \/ ((forall c, In c (map fst country_codes) ->
                     Str.contains c (Satellite.int_designator sat) = false) /\
          SpaceObject.country so = "Unknown")).
Proof.
  intros H.
  apply AssemblerFacts.to_space_object_ok in H
    as (r & al & h & p & _ & _ & _ & _ & _ & Hc & _).
  rewrite AssemblerFacts.country_loop_first_match in Hc.
  split; [reflexivity|]. split; [exact Hc|].
  rewrite Hc. unfold Spec.first_match.
  destruct (find _ country_codes) as [[code name]|] eqn:Hf.
  - left. apply AssemblerFacts.find_first in Hf
      as (before & after & Hl & Hb & Hx).
    exists before, code, name, after. repeat split; auto.
    intros c Hin. apply in_map_iff in Hin as ([c' n'] & <- & Hin).
    exact (Hb _ Hin).
  - right. split; [|reflexivity].
    intros c Hin. apply in_map_iff in Hin as ([c' n'] & <- & Hin).
    exact (find_none _ _ Hf _ Hin).
Qed.

Lemma C5_country_first_match_witness :
  map fst country_codes
  = ["US"; "CIS"; "PRC"; "ESA"; "FR"; "JP"; "IN"; "CA"; "UK"]
  /\ SpaceObject.country Examples.iss_entity
     = Spec.first_match (Satellite.int_designator Examples.iss_record)
  /\ ((exists before code name after,
         country_codes = (before ++ (code, name) :: after)%list /\
         (forall c, In c (map fst before) ->
                    Str.contains c
                      (Satellite.int_designator Examples.iss_record)
                    = false) /\
         Str.contains code (Satellite.int_designator Examples.iss_record)
         = true /\
         SpaceObject.country Examples.iss_entity = name)
      \/ ((forall c, In c (map fst country_codes) ->
                     Str.contains c
                       (Satellite.int_designator Examples.iss_record)
                     = false) /\
          SpaceObject.country Examples.iss_entity = "Unknown")).
Proof.
  apply (C5_country_first_match Examples.build_time Examples.iss_record
           Examples.iss_entity).
  vm_compute. reflexivity.
Defined.

(** C6 (as amended): the risk level of an entity built from a parsed
    record is a function of the altitude of the record, before it is rounded
    for the entity: "high" below 500, "medium" from 500 and below 800, "low"
    from 800; 499.9 gives "high", 500.0 "medium", 799.9 "medium" and 800.0
    "low".  The altitude the entity shows is this altitude rounded to one
    decimal. *)
Theorem C6_risk_level_thresholds libm_pow (name line1 line2 : string)
    (sat : Satellite.t) (now : string) (so : SpaceObject.t) :
  parse_triplet libm_pow name line1 line2 = Ok sat ->
  to_space_object now sat = Ok so ->
  exists a : float,
    Satellite.altitude sat = VFloat a
    /\ SpaceObject.altitude so = VFloat (round1_float a)
    /\ SpaceObject.riskLevel so = Spec.risk_by_thresholds a
    /\ (fltb a (of_int 500) = true -> SpaceObject.riskLevel so = "high")
    /\ (fleb (of_int 500) a = true -> fltb a (of_int 800) = true ->
        SpaceObject.riskLevel so = "medium")
    /\ (fleb (of_int 800) a = true -> SpaceObject.riskLevel so = "low")
    /\ (a = literal "499.9" -> SpaceObject.riskLevel so = "high")
    /\ (a = literal "500.0" -> SpaceObject.riskLevel so = "medium")
    /\ (a = literal "799.9" -> SpaceObject.riskLevel so = "medium")
    /\ (a = literal "800.0" -> SpaceObject.riskLevel so = "low")
    /\ (forall now' sat' so',
          to_space_object now' sat' = Ok so' ->
          Satellite.altitude sat' = Satellite.altitude sat ->
          SpaceObject.riskLevel so' = SpaceObject.riskLevel so).
Proof.
  intros Hp Hso.
  destruct (AssemblerFacts.entity_altitude_float _ _ _ _ _ _ _ Hp Hso)
    as [a Ha].
  exists a. split; [exact Ha|]. split.
  - apply AssemblerFacts.to_space_object_ok in Hso
      as (r & al & h & p & _ & Hal & _ & _ & _ & _ & Hso_al & _).
    rewrite Ha in Hal. cbn [round1] in Hal. injection Hal as <-.
    exact Hso_al.
  - exact (AssemblerFacts.risk_level_thresholds _ _ _ _ Hso Ha).
Qed.

Lemma C6_risk_level_thresholds_witness :
  exists a : float,
    Satellite.altitude Examples.iss_record = VFloat a
    /\ SpaceObject.altitude Examples.iss_entity = VFloat (round1_float a)
    /\ SpaceObject.riskLevel Examples.iss_entity
       = Spec.risk_by_thresholds a
    /\ (fltb a (of_int 500) = true ->
        SpaceObject.riskLevel Examples.iss_entity = "high")
    /\ (fleb (of_int 500) a = true -> fltb a (of_int 800) = true ->
        SpaceObject.riskLevel Examples.iss_entity = "medium")
    /\ (fleb (of_int 800) a = true ->
        SpaceObject.riskLevel Examples.iss_entity = "low")
    /\ (a = literal "499.9" ->
        SpaceObject.riskLevel Examples.iss_entity = "high")
    /\ (a = literal "500.0" ->
        SpaceObject.riskLevel Examples.iss_entity = "medium")
    /\ (a = literal "799.9" ->
        SpaceObject.riskLevel Examples.iss_entity = "medium")
    /\ (a = literal "800.0" ->
        SpaceObject.riskLevel Examples.iss_entity = "low")
    /\ (forall now' sat' so',
          to_space_object now' sat' = Ok so' ->
          Satellite.altitude sat' = Satellite.altitude Examples.iss_record ->
          SpaceObject.riskLevel so'
          = SpaceObject.riskLevel Examples.iss_entity).
Proof.
  apply (C6_risk_level_thresholds SampleLibm.pow "ISS (ZARYA)"
           Examples.iss_line1 Examples.iss_line2 Examples.iss_record
           Examples.build_time Examples.iss_entity).
  - vm_compute. reflexivity.
  - vm_compute. reflexivity.
Defined.

(** C6 (counterexample): two groups of lines are parsed into records with
    altitudes just below and just above 500 km; the two entities show the
    same altitude, 500.0, and have different risk levels, "high" and
    "medium": the risk level is not a function of the altitude the entity
    shows, and an entity that shows exactly 500.0 can be "high". *)
Lemma C6_counterexample :
  parse_triplet SampleLibm.pow "BELOW" Examples.iss_line1
    Examples.below_500_line2 = Ok Examples.below_500_record
  /\ parse_triplet SampleLibm.pow "ABOVE" Examples.iss_line1
       Examples.above_500_line2 = Ok Examples.above_500_record
  /\ to_space_object Examples.build_time Examples.below_500_record
     = Ok Examples.below_500_entity
  /\ to_space_object Examples.build_time Examples.above_500_record
     = Ok Examples.above_500_entity
  /\ SpaceObject.altitude Examples.below_500_entity
     = VFloat (literal "500.0")
  /\ SpaceObject.altitude Examples.above_500_entity
     = VFloat (literal "500.0")
  /\ SpaceObject.riskLevel Examples.below_500_entity = "high"
  /\ SpaceObject.riskLevel Examples.above_500_entity = "medium".
Proof.
  by_evaluation.
Qed.

(** C7: the year of the epoch is [2000 + y] when the two-digit field reads
    [y < 57] and [1900 + y] otherwise, and the epoch kept in the record is
    counted from January 1 of that year; "24", "99", "56" and "57" give
    2024, 1999, 2056 and 1957. *)
Theorem C7_epoch_year_pivot libm_pow (name line1 line2 : string)
    (sat : Satellite.t) :
  parse_triplet libm_pow name line1 line2 = Ok sat ->
  (exists y epoch_day delta epoch_date,
     int_of_str (Str.slice 18 20 line1) = Ok y /\
     epoch_year_of line1 = Ok (if y <? 57 then 2000 + y else 1900 + y) /\
     float_of_str (Str.slice 20 32 line1) = Ok epoch_day /\
     Time.timedelta_of_days (fsub epoch_day (of_int 1)) = Ok delta /\
     Time.datetime_add
       (Time.MkDatetime (if y <? 57 then 2000 + y else 1900 + y)
                        1 1 0 0 0 0) delta
     = Ok epoch_date /\
     Satellite.epoch sat = Time.isoformat epoch_date)
  /\ (forall l, Str.slice 18 20 l = "24" -> epoch_year_of l = Ok 2024)
  /\ (forall l, Str.slice 18 20 l = "99" -> epoch_year_of l = Ok 1999)
  /\ (forall l, Str.slice 18 20 l = "56" -> epoch_year_of l = Ok 2056)
  /\ (forall l, Str.slice 18 20 l = "57" -> epoch_year_of l = Ok 1957).
Proof.
  intros H. split.
  - apply ParserFacts.parse_triplet_ok in H
      as (d & mm & p & ec & inc & alt & Hd & _ & _ & _ & _ & _ & ->).
    apply epoch_date_of_ok in Hd
      as (y & day & jan1 & delta & Hy & Hey & Hday & Hj & Htd & Hadd).
    exists y, day, delta, d.
    replace (2000 + y) with (y + 2000) by lia.
    replace (1900 + y) with (y + 1900) by lia.
    repeat split; auto.
    unfold Time.datetime_jan1 in Hj.
    destruct ((1 <=? _) && (_ <=? 9999))%bool; [|discriminate].
    injection Hj as <-. exact Hadd.
  - repeat split; intros l Hl; unfold epoch_year_of; rewrite Hl;
      reflexivity.
Qed.

Lemma C7_epoch_year_pivot_witness :
  (exists y epoch_day delta epoch_date,
     int_of_str (Str.slice 18 20 Examples.iss_line1) = Ok y /\
     epoch_year_of Examples.iss_line1
     = Ok (if y <? 57 then 2000 + y else 1900 + y) /\
     float_of_str (Str.slice 20 32 Examples.iss_line1) = Ok epoch_day /\
     Time.timedelta_of_days (fsub epoch_day (of_int 1)) = Ok delta /\
     Time.datetime_add
       (Time.MkDatetime (if y <? 57 then 2000 + y else 1900 + y)
                        1 1 0 0 0 0) delta
     = Ok epoch_date /\
     Satellite.epoch Examples.iss_record = Time.isoformat epoch_date)
  /\ (forall l, Str.slice 18 20 l = "24" -> epoch_year_of l = Ok 2024)
  /\ (forall l, Str.slice 18 20 l = "99" -> epoch_year_of l = Ok 1999)
  /\ (forall l, Str.slice 18 20 l = "56" -> epoch_year_of l = Ok 2056)
  /\ (forall l, Str.slice 18 20 l = "57" -> epoch_year_of l = Ok 1957).
Proof.
  apply (C7_epoch_year_pivot SampleLibm.pow "ISS (ZARYA)"
           Examples.iss_line1 Examples.iss_line2 Examples.iss_record).
  vm_compute. reflexivity.
Defined.

(** C8: a record is classed "debris" exactly when its name, in lower case,
    contains one of "deb", "debris", "r/b", "rocket", and "satellite"
    otherwise; "COSMOS 2251 DEBRIS" is debris, "ISS (ZARYA)" a satellite. *)
Theorem C8_debris_classification libm_pow (name line1 line2 : string)
    (sat : Satellite.t) :
  parse_triplet libm_pow name line1 line2 = Ok sat ->
  Satellite.name sat = name
  /\ (Satellite.type sat = "debris" <->
      exists token pre post,
        In token ["deb"; "debris"; "r/b"; "rocket"] /\
        Str.lower name = (pre ++ token ++ post)%string)
  /\ (Satellite.type sat = "satellite" <->
      ~ exists token pre post,
          In token ["deb"; "debris"; "r/b"; "rocket"] /\
          Str.lower name = (pre ++ token ++ post)%string)
  /\ (if is_debris "COSMOS 2251 DEBRIS" then "debris" else "satellite")
     = "debris"
  /\ (if is_debris "ISS (ZARYA)" then "debris" else "satellite")
     = "satellite".
Proof.
  intros H.
  apply ParserFacts.parse_triplet_ok in H
    as (d & mm & p & ec & inc & alt & _ & _ & _ & _ & _ & _ & ->).
  cbn [Satellite.name Satellite.type].
  assert (Hd : is_debris name = true <->
               exists token pre post,
                 In token ["deb"; "debris"; "r/b"; "rocket"] /\
                 Str.lower name = (pre ++ token ++ post)%string).
  { unfold is_debris. rewrite existsb_exists. split.
    - intros (tok & Hin & Hc). apply StrFacts.contains_app in Hc
        as (pre & post & Hc). exists tok, pre, post. auto.
    - intros (tok & pre & post & Hin & Hc). exists tok. split; [exact Hin|].
      apply StrFacts.contains_app. eauto. }
  split; [reflexivity|]. split; [|split; [|split; reflexivity]].
  - rewrite <- Hd. destruct (is_debris name); split;
      (reflexivity || discriminate).
  - rewrite <- Hd. destruct (is_debris name); split;
      try reflexivity; try discriminate; intros Hn; now elim Hn.
Qed.

Lemma C8_debris_classification_witness :
  Satellite.name Examples.debris_record = "COSMOS 2251 DEB"
  /\ (Satellite.type Examples.debris_record = "debris" <->
      exists token pre post,
        In token ["deb"; "debris"; "r/b"; "rocket"] /\
        Str.lower "COSMOS 2251 DEB" = (pre ++ token ++ post)%string)
  /\ (Satellite.type Examples.debris_record = "satellite" <->
      ~ exists token pre post,
          In token ["deb"; "debris"; "r/b"; "rocket"] /\
          Str.lower "COSMOS 2251 DEB" = (pre ++ token ++ post)%string)
  /\ (if is_debris "COSMOS 2251 DEBRIS" then "debris" else "satellite")
     = "debris"
  /\ (if is_debris "ISS (ZARYA)" then "debris" else "satellite")
     = "satellite".
Proof.
  apply (C8_debris_classification SampleLibm.pow "COSMOS 2251 DEB"
           Examples.debris_line1 Examples.debris_line2
           Examples.debris_record).
  vm_compute. reflexivity.
Defined.

(** C10 (as amended): a line shorter than a field's end column is not
    rejected for its length. A first line of 21 characters and a second of
    54 still give a record, computed from the one-digit epoch day and the
    two-digit mean motion that are left; a first line of at most 20
    characters always excludes the triplet, its epoch day field being empty;
    and a triplet is excluded only when a step of the body raises: the
    conversion of a field, the date arithmetic on converted fields, or the
    altitude formula on a converted mean motion. *)
Theorem C10_short_lines_truncate libm_pow (name line1 line2 : string) :
  (String.length Examples.line1_21 = 21%nat /\
   String.length Examples.line2_54 = 54%nat /\
   parse_triplet SampleLibm.pow "SHORT" Examples.line1_21
                 Examples.line2_54 = Ok Examples.short_record /\
   Satellite.epoch Examples.short_record = "2024-01-02T00:00:00" /\
   Satellite.period_minutes Examples.short_record
   = VFloat (literal "96.0"))
  /\ ((String.length line1 <= 20)%nat ->
      parse_triplet libm_pow name line1 line2 = Raise ValueError)
  /\ (forall e,
        parse_triplet libm_pow name line1 line2 = Raise e ->
        (e = ValueError /\
         (int_of_str (Str.slice 18 20 line1) = Raise e \/
          float_of_str (Str.slice 20 32 line1) = Raise e \/
          float_of_str (Str.slice 52 63 line2) = Raise e \/
          float_of_str ("0." ++ Str.slice 26 33 line2) = Raise e \/
          float_of_str (Str.slice 8 16 line2) = Raise e))
        \/ (exists y epoch_day,
              int_of_str (Str.slice 18 20 line1) = Ok y /\
              float_of_str (Str.slice 20 32 line1) = Ok epoch_day /\
              epoch_date_of line1 = Raise e)
        \/ (exists mean_motion,
              float_of_str (Str.slice 52 63 line2) = Ok mean_motion /\
              altitude_of libm_pow mean_motion = Raise e)).
Proof.
  split; [|split].
  - by_evaluation.
  - intros Hlen. unfold parse_triplet.
    now rewrite (FailureFacts.epoch_date_of_short _ Hlen).
  - intros e H. unfold parse_triplet in H.
    apply ResultFacts.bind_raise in H as [H|(d & Hd & H)].
    { destruct (FailureFacts.epoch_date_of_raise _ _ H)
        as [[-> [Hi|Hf]]|(y & day & Hi & Hf)]; [left; auto .. |].
      right; left. eauto. }
    apply ResultFacts.bind_raise in H as [H|(mm & Hmm & H)].
    { left. pose proof (FailureFacts.float_of_str_raise _ _ H) as ->. auto 6. }
    apply ResultFacts.bind_raise in H as [H|(p & Hp & H)].
    { destruct (FailureFacts.period_of_ok mm) as [p Hp]. congruence. }
    apply ResultFacts.bind_raise in H as [H|(ec & Hec & H)].
    { left. pose proof (FailureFacts.float_of_str_raise _ _ H) as ->. auto 6. }
    apply ResultFacts.bind_raise in H as [H|(inc & Hinc & H)].
    { left. pose proof (FailureFacts.float_of_str_raise _ _ H) as ->. auto 7. }
    apply ResultFacts.bind_raise in H as [H|(alt & Halt & H)];
      [|discriminate].
    right; right. eauto.
Qed.

Lemma C10_short_lines_truncate_witness :
  parse_triplet SampleLibm.pow "SHORT" Examples.line1_19 Examples.iss_line2
  = Raise ValueError.
Proof.
  apply (proj1 (proj2 (C10_short_lines_truncate SampleLibm.pow "SHORT"
                         Examples.line1_19 Examples.iss_line2))).
  vm_compute. lia.
Defined.

(** C10 (counterexample): a first line of 23 characters whose epoch day
    field reads [1e7]. Every numeric conversion succeeds, the date
    arithmetic overflows, and the triplet is excluded; and the line of 19
    characters the claim takes as its example gives no record either. *)
Lemma C10_counterexample :
  String.length Examples.line1_1e7 = 23%nat
  /\ int_of_str (Str.slice 18 20 Examples.line1_1e7) = Ok 24
  /\ float_of_str (Str.slice 20 32 Examples.line1_1e7)
     = Ok (literal "10000000.0")
  /\ is_ok (float_of_str (Str.slice 52 63 Examples.iss_line2)) = true
  /\ is_ok (float_of_str ("0." ++ Str.slice 26 33 Examples.iss_line2)) = true
  /\ is_ok (float_of_str (Str.slice 8 16 Examples.iss_line2)) = true
  /\ epoch_date_of Examples.line1_1e7 = Raise OverflowError
  /\ parse_tle_data_st SampleLibm.pow Examples.far_tle []
     = ([], [ErrorParsing "FAR" OverflowError])
  /\ String.length Examples.line1_19 = 19%nat
  /\ parse_tle_data_st SampleLibm.pow Examples.short19_tle []
     = ([], [ErrorParsing "SHORT" ValueError]).
Proof.
  by_evaluation.
Qed.

(** * Further properties of the parser and the assembler *)

(** ** Counting groups *)

Module CountFacts.
Import Spec.

Lemma triplets_length (lines : list string) :
  List.length (triplets lines) = (List.length lines / 3)%nat.
Proof.
  assert (H : forall m l, (List.length l <= m)%nat ->
              List.length (triplets l) = (List.length l / 3)%nat).
  { induction m as [|m IH]; intros l Hl.
    - destruct l; [reflexivity | simpl in Hl; lia].
    - destruct l as [|a [|b [|c rest]]]; try reflexivity.
      cbn [triplets List.length]. rewrite IH by (simpl in Hl; lia).
      replace (S (S (S (List.length rest))))
        with (1 * 3 + List.length rest)%nat by lia.
      rewrite Nat.div_add_l by lia. lia. }
  now apply (H (List.length lines)).
Qed.

Lemma records_reports_length libm_pow
    (groups : list (string * string * string)) :
  (List.length (records_of libm_pow groups)
   + List.length (reports_of libm_pow groups))%nat
  = List.length groups.
Proof.
  induction groups as [|[[name line1] line2] groups IH]; [reflexivity|].
  rewrite LoopFacts.records_of_cons, LoopFacts.reports_of_cons.
  rewrite !length_app. unfold records_of at 1, reports_of at 1.
  cbn [flat_map].
  destruct (parse_triplet libm_pow name line1 line2); cbn [List.length app];
    lia.
Qed.

(** The groups depend on the lines through their stripped form only. *)
Lemma triplets_stripped (lines lines' : list string) :
  map Str.strip lines = map Str.strip lines' ->
  triplets lines = triplets lines'.
Proof.
  assert (H : forall m l l', (List.length l <= m)%nat ->
              map Str.strip l = map Str.strip l' ->
              triplets l = triplets l').
  { induction m as [|m IH]; intros l l' Hl Hm.
    - destruct l; [|simpl in Hl; lia].
      destruct l'; [reflexivity | discriminate].
    - destruct l as [|a [|b [|c rest]]], l' as [|a' [|b' [|c' rest']]];
        try discriminate; try reflexivity.
      cbn [map] in Hm. injection Hm as Ha Hb Hc Hr.
      cbn [triplets]. rewrite Ha, Hb, Hc.
      f_equal. apply IH; [simpl in Hl; lia | exact Hr]. }
  now apply (H (List.length lines)).
Qed.

End CountFacts.

(** X1: every complete group of three lines yields either one record or
    one printed report, so the records and the new reports together number
    a third of the lines, rounded down; a text of fewer than three lines,
    the empty text included, yields nothing and prints nothing. *)
Theorem parse_accounts_for_every_group libm_pow (tle_data : string)
    (printed : list output) :
  (List.length (fst (parse_tle_data_st libm_pow tle_data printed))
   + List.length (snd (parse_tle_data_st libm_pow tle_data printed)))%nat
  = (List.length printed + List.length (Spec.lines_of tle_data) / 3)%nat
  /\ (List.length (parse_tle_data libm_pow tle_data)
      <= List.length (Spec.lines_of tle_data) / 3)%nat
  /\ ((List.length (Spec.lines_of tle_data) < 3)%nat ->
      parse_tle_data_st libm_pow tle_data printed = ([], printed)).
Proof.
  unfold parse_tle_data.
  rewrite !LoopFacts.parse_tle_data_st_groups. cbn [fst snd].
  pose proof (CountFacts.records_reports_length libm_pow
                (Spec.triplets (Spec.lines_of tle_data))) as Hc.
  rewrite CountFacts.triplets_length in Hc. rewrite length_app.
  repeat split; try lia.
  intros Hlt.
  destruct (Spec.lines_of tle_data) as [|a [|b [|c rest]]];
    cbn [Spec.triplets Spec.records_of Spec.reports_of flat_map];
    try (now rewrite app_nil_r).
  simpl in Hlt. lia.
Qed.

Lemma parse_accounts_for_every_group_witness :
  parse_tle_data_st SampleLibm.pow "" [] = ([], []).
Proof.
  apply (proj2 (proj2 (parse_accounts_for_every_group SampleLibm.pow "" []))).
  vm_compute. lia.
Defined.

(** ** Whitespace around the text and around its lines *)

Module StripFacts.
Import Str Notions.

Section By.
Variable p : ascii -> bool.

Lemma lstrip_all (s : string) :
  all_of p s = true -> lstrip_by p s = EmptyString.
Proof.
  induction s as [|c s IH]; cbn [all_of lstrip_by]; [reflexivity|].
  intros H. apply andb_prop in H as [Hc Hs]. now rewrite Hc, IH.
Qed.

Lemma rstrip_all (s : string) :
  all_of p s = true -> rstrip_by p s = EmptyString.
Proof.
  induction s as [|c s IH]; cbn [all_of rstrip_by]; [reflexivity|].
  intros H. apply andb_prop in H as [Hc Hs]. now rewrite IH, Hc.
Qed.

Lemma lstrip_app (s t : string) :
  lstrip_by p (s ++ t)
  = if all_of p s then lstrip_by p t else (lstrip_by p s ++ t)%string.
Proof.
  induction s as [|c s IH]; cbn [all_of lstrip_by append]; [reflexivity|].
  destruct (p c); cbn [andb]; [exact IH | reflexivity].
Qed.

Lemma rstrip_app_all (s post : string) :
  all_of p post = true -> rstrip_by p (s ++ post) = rstrip_by p s.
Proof.
  intros H. induction s as [|c s IH]; cbn [append rstrip_by].
  - now apply rstrip_all.
  - now rewrite IH.
Qed.

Lemma strip_by_surrounded (pre s post : string) :
  all_of p pre = true -> all_of p post = true ->
  rstrip_by p (lstrip_by p (pre ++ s ++ post))
  = rstrip_by p (lstrip_by p s).
Proof.
  intros Hpre Hpost. rewrite (lstrip_app pre), Hpre, (lstrip_app s).
  destruct (all_of p s) eqn:Hs.
  - now rewrite (lstrip_all post Hpost), (lstrip_all s Hs).
  - now apply rstrip_app_all.
Qed.
End By.

(** Whitespace before and after a text does not change its stripped form. *)
Lemma strip_surrounded (pre s post : string) :
  all_of isspace pre = true -> all_of isspace post = true ->
  strip (pre ++ s ++ post) = strip s.
Proof. apply strip_by_surrounded. Qed.

End StripFacts.

(** X2: whitespace before and after the whole text, such as blank lines at
    the start or a final line end, changes neither the records returned nor
    the reports printed. *)
Theorem parse_ignores_surrounding_whitespace libm_pow
    (pre tle_data post : string) (printed : list output) :
  Notions.all_of Str.isspace pre = true ->
  Notions.all_of Str.isspace post = true ->
  parse_tle_data_st libm_pow (pre ++ tle_data ++ post) printed
  = parse_tle_data_st libm_pow tle_data printed.
Proof.
  intros Hpre Hpost. unfold parse_tle_data_st.
  now rewrite (StripFacts.strip_surrounded _ _ _ Hpre Hpost).
Qed.

Lemma parse_ignores_surrounding_whitespace_witness :
  parse_tle_data_st SampleLibm.pow
    (Examples.nl ++ Examples.iss_tle ++ (Examples.cr ++ Examples.nl)) []
  = parse_tle_data_st SampleLibm.pow Examples.iss_tle [].
Proof.
  apply (parse_ignores_surrounding_whitespace SampleLibm.pow Examples.nl
           Examples.iss_tle (Examples.cr ++ Examples.nl) []).
  - vm_compute. reflexivity.
  - vm_compute. reflexivity.
Defined.

(** X3: the result depends on the text through its stripped lines only:
    two texts whose lines agree once each is stripped, as a text with CR LF
    line ends and the same text with LF line ends do, give the same records
    and the same reports. *)
Theorem parse_depends_on_stripped_lines libm_pow (tle_data tle_data' : string)
    (printed : list output) :
  map Str.strip (Spec.lines_of tle_data)
  = map Str.strip (Spec.lines_of tle_data') ->
  parse_tle_data_st libm_pow tle_data printed
  = parse_tle_data_st libm_pow tle_data' printed.
Proof.
  intros H. rewrite !LoopFacts.parse_tle_data_st_groups.
  now rewrite (CountFacts.triplets_stripped _ _ H).
Qed.

Lemma parse_depends_on_stripped_lines_witness :
  parse_tle_data_st SampleLibm.pow Examples.crlf_tle []
  = parse_tle_data_st SampleLibm.pow Examples.iss_tle [].
Proof.
  apply (parse_depends_on_stripped_lines SampleLibm.pow Examples.crlf_tle
           Examples.iss_tle []).
  vm_compute. reflexivity.
Defined.

(** ** The entity of a parsed record *)

Module EntityFacts.
Import ResultFacts.

(** [to_space_object], as the record it builds from the values of its
    steps. *)
Lemma to_space_object_fields (now : string) (sat : Satellite.t)
    (so : SpaceObject.t) :
  to_space_object now sat = Ok so <->
  exists risk_level altitude hours period,
    risk_level_of (Satellite.altitude sat) = Ok risk_level /\
    round1 (Satellite.altitude sat) = Ok altitude /\
    div_60 (Satellite.period_minutes sat) = Ok hours /\
    round1 hours = Ok period /\
    so = SpaceObject.Make
           ((if String.eqb (Satellite.type sat) "satellite"
             then "SAT-" else "DEB-") ++ Satellite.norad_id sat)
           (Satellite.name sat) (Satellite.type sat)
           (country_loop (Satellite.int_designator sat) country_codes
                         "Unknown")
           (hd EmptyString (Str.split "T" (Satellite.epoch sat)))
           altitude (round1_float (Satellite.inclination sat)) period
           (if String.eqb (Satellite.type sat) "satellite"
            then "active" else "inactive")
           risk_level now.
Proof.
  unfold to_space_object. split.
  - intros H. do 4 bind_inv H. injection H as <-. eauto 10.
  - intros (r & a & h & p & H1 & H2 & H3 & H4 & ->).
    rewrite H1; cbn [bind]. rewrite H2; cbn [bind].
    rewrite H3; cbn [bind]. now rewrite H4.
Qed.

Lemma fdiv_by_60 (f : float) :
  fdiv f (of_int 60) = Ok (SFdiv prec emax f (of_int 60)).
Proof. reflexivity. Qed.

(** Dividing by 60 fails on no number; it keeps a complex number complex
    and turns the others into floats. *)
Lemma div_60_shape (v : num) :
  match v with
  | VComplex => div_60 v = Ok VComplex
  | _ => exists h, div_60 v = Ok (VFloat h)
  end.
Proof.
  destruct v as [z|f|]; cbn [div_60 div_float]; rewrite ?fdiv_by_60;
    cbn [bind]; eauto.
Qed.

(** [to_space_object] raises nothing but [TypeError], and only on a complex
    altitude or period. *)
Lemma to_space_object_raise (now : string) (sat : Satellite.t) (e : exn) :
  to_space_object now sat = Raise e ->
  e = TypeError /\
  (Satellite.altitude sat = VComplex \/
   Satellite.period_minutes sat = VComplex).
Proof.
  unfold to_space_object.
  destruct (Satellite.altitude sat) as [z|a|] eqn:Ha.
  - cbn [risk_level_of lt_int bind round1].
    destruct (z <? 500); cbn [bind]; [|destruct (z <? 800)];
      (pose proof (div_60_shape (Satellite.period_minutes sat)) as Hd;
       destruct (Satellite.period_minutes sat) as [pz|pf|];
       [destruct Hd as [h ->] | destruct Hd as [h ->] | rewrite Hd];
       cbn [bind round1]; try discriminate;
       intros [= <-]; auto).
  - rewrite AssemblerFacts.risk_level_of_float. cbn [bind round1].
    pose proof (div_60_shape (Satellite.period_minutes sat)) as Hd.
    destruct (Satellite.period_minutes sat) as [pz|pf|];
      [destruct Hd as [h ->] | destruct Hd as [h ->] | rewrite Hd];
      cbn [bind round1]; try discriminate.
    intros [= <-]; auto.
  - cbn. intros [= <-]; auto.
Qed.

(** The period of a parsed record is the integer zero or a float. *)
Lemma parsed_period_shape libm_pow (name line1 line2 : string)
    (sat : Satellite.t) :
  parse_triplet libm_pow name line1 line2 = Ok sat ->
  Satellite.period_minutes sat = VInt 0 \/
  exists p, Satellite.period_minutes sat = VFloat p.
Proof.
  intros H. apply ParserFacts.parse_triplet_ok in H
    as (d & mm & p & ec & inc & alt & _ & _ & Hp & _ & _ & _ & ->).
  cbn [Satellite.period_minutes]. unfold period_of in Hp.
  destruct (fltb (of_int 0) mm).
  - bind_inv_as Hp q Hq. injection Hp as <-. eauto.
  - injection Hp as <-. auto.
Qed.

End EntityFacts.

(** X4: for a parsed record, [to_space_object] can raise nothing but a
    [TypeError], and only when the altitude is a complex number; when the C
    library's [pow] gives no negative result for a base that is not
    negative, every parsed record has its entity. *)
Theorem entity_of_parsed_record libm_pow (name line1 line2 : string)
    (sat : Satellite.t) (now : string) :
  parse_triplet libm_pow name line1 line2 = Ok sat ->
  (forall e, to_space_object now sat = Raise e ->
             e = TypeError /\ Satellite.altitude sat = VComplex)
  /\ ((forall x y, sign_bit x = false ->
                   sign_bit (fst (libm_pow x y)) = false) ->
      exists so, to_space_object now sat = Ok so).
Proof.
  intros Hp.
  assert (Hper : Satellite.period_minutes sat <> VComplex).
  { destruct (EntityFacts.parsed_period_shape _ _ _ _ _ Hp) as [H|[p H]];
      rewrite H; discriminate. }
  assert (Hraise : forall e, to_space_object now sat = Raise e ->
                             e = TypeError /\
                             Satellite.altitude sat = VComplex).
  { intros e He.
    destruct (EntityFacts.to_space_object_raise _ _ _ He) as [-> [H|H]];
      [auto | contradiction]. }
  split; [exact Hraise|].
  intros Hsign.
  destruct (to_space_object now sat) as [so|e] eqn:Hso; [eauto|].
  destruct (Hraise e eq_refl) as [_ Hc].
  apply ParserFacts.parse_triplet_ok in Hp
    as (d & mm & p & ec & inc & alt & _ & _ & _ & _ & _ & Halt & ->).
  cbn [Satellite.altitude] in Hc. subst alt.
  destruct (PowFacts.altitude_is_float libm_pow Hsign _ _ Halt) as [a Ha].
  discriminate.
Qed.

Lemma entity_of_parsed_record_witness :
  exists so,
    to_space_object Examples.build_time Examples.iss_record = Ok so.
Proof.
  apply (proj2 (entity_of_parsed_record SampleLibm.pow "ISS (ZARYA)"
                  Examples.iss_line1 Examples.iss_line2 Examples.iss_record
                  Examples.build_time ltac:(vm_compute; reflexivity))).
  exact PowFacts.sample_pow_sign.
Defined.

(** X5: the entity of a parsed record carries the record's name and class;
    a name with a debris token gives the class "debris", an identifier
    "DEB-" followed by the catalog number and the status "inactive", any
    other name gives "satellite", "SAT-" and "active"; the catalog number
    is columns [2,7) of the first line, stripped, and the time stamp is the
    clock reading. *)
Theorem entity_identity libm_pow (name line1 line2 : string)
    (sat : Satellite.t) (now : string) (so : SpaceObject.t) :
  parse_triplet libm_pow name line1 line2 = Ok sat ->
  to_space_object now sat = Ok so ->
  SpaceObject.name so = name
  /\ SpaceObject.lastUpdate so = now
  /\ ((is_debris name = true /\
       SpaceObject.type so = "debris" /\
       SpaceObject.id so = "DEB-" ++ Str.strip (Str.slice 2 7 line1) /\
       SpaceObject.status so = "inactive")
      \/ (is_debris name = false /\
          SpaceObject.type so = "satellite" /\
          SpaceObject.id so = "SAT-" ++ Str.strip (Str.slice 2 7 line1) /\
          SpaceObject.status so = "active")).
Proof.
  intros Hp Hso.
  apply ParserFacts.parse_triplet_ok in Hp
    as (d & mm & p & ec & inc & alt & _ & _ & _ & _ & _ & _ & ->).
  apply EntityFacts.to_space_object_fields in Hso
    as (r & a & h & q & _ & _ & _ & _ & ->).
  cbn [SpaceObject.name SpaceObject.lastUpdate SpaceObject.type
       SpaceObject.id SpaceObject.status Satellite.name Satellite.type
       Satellite.norad_id].
  split; [reflexivity|]. split; [reflexivity|].
  destruct (is_debris name); [left | right]; repeat split; reflexivity.
Qed.

Lemma entity_identity_witness :
  SpaceObject.name Examples.iss_entity = "ISS (ZARYA)"
  /\ SpaceObject.lastUpdate Examples.iss_entity = Examples.build_time
  /\ ((is_debris "ISS (ZARYA)" = true /\
       SpaceObject.type Examples.iss_entity = "debris" /\
       SpaceObject.id Examples.iss_entity
       = "DEB-" ++ Str.strip (Str.slice 2 7 Examples.iss_line1) /\
       SpaceObject.status Examples.iss_entity = "inactive")
      \/ (is_debris "ISS (ZARYA)" = false /\
          SpaceObject.type Examples.iss_entity = "satellite" /\
          SpaceObject.id Examples.iss_entity
          = "SAT-" ++ Str.strip (Str.slice 2 7 Examples.iss_line1) /\
          SpaceObject.status Examples.iss_entity = "active")).
Proof.
  apply (entity_identity SampleLibm.pow "ISS (ZARYA)" Examples.iss_line1
           Examples.iss_line2 Examples.iss_record Examples.build_time
           Examples.iss_entity).
  - vm_compute. reflexivity.
  - vm_compute. reflexivity.
Defined.

(** ** The launch date *)

Module DateFacts.
Import Str Notions Time.

Lemma append_assoc' (a b c : string) :
  ((a ++ b) ++ c = a ++ (b ++ c))%string.
Proof.
  induction a as [|x a IH]; cbn [append]; [reflexivity | now rewrite IH].
Qed.

Lemma all_of_app (p : ascii -> bool) (a b : string) :
  all_of p (a ++ b) = (all_of p a && all_of p b)%bool.
Proof.
  induction a as [|x a IH]; cbn [append all_of]; [reflexivity|].
  now rewrite IH, andb_assoc.
Qed.

Lemma all_of_weaken (p q : ascii -> bool) (s : string) :
  (forall c, p c = true -> q c = true) ->
  all_of p s = true -> all_of q s = true.
Proof.
  intros Hpq. induction s as [|c s IH]; cbn [all_of]; [reflexivity|].
  intros H. apply andb_prop in H as [Hc Hs]. now rewrite (Hpq c Hc), IH.
Qed.

Lemma digit_char (k : nat) :
  (k <= 9)%nat -> is_digit (ascii_of_nat (48 + k)) = true.
Proof.
  intros Hk. unfold is_digit, between, code.
  rewrite nat_ascii_embedding by lia.
  apply andb_true_intro. split; apply Nat.leb_le; lia.
Qed.

Lemma pad_digits (w : nat) (z : Z) : all_of date_char (pad w z) = true.
Proof.
  revert z; induction w as [|w IH]; intros z; cbn [pad]; [reflexivity|].
  rewrite all_of_app, IH. cbn [all_of andb]. unfold date_char.
  rewrite digit_char; [reflexivity|].
  pose proof (Z.mod_pos_bound z 10 ltac:(lia)). lia.
Qed.

Lemma length_append (a b : string) :
  String.length (a ++ b) = (String.length a + String.length b)%nat.
Proof. induction a as [|x a IH]; cbn; [reflexivity | now rewrite IH]. Qed.

Lemma pad_length (w : nat) (z : Z) : String.length (pad w z) = w.
Proof.
  revert z; induction w as [|w IH]; intros z; cbn [pad]; [reflexivity|].
  rewrite length_append, IH. cbn. lia.
Qed.

(** The first piece of a split is what stands before the separator. *)
Lemma split_head (sep : ascii) (a b : string) :
  all_of (fun c => negb (Ascii.eqb c sep)) a = true ->
  hd EmptyString (split sep (a ++ String sep b)) = a.
Proof.
  induction a as [|x a IH]; cbn [append all_of split].
  - now rewrite Ascii.eqb_refl.
  - intros H. apply andb_prop in H as [Hx Ha].
    apply negb_true_iff in Hx. rewrite Hx.
    specialize (IH Ha).
    destruct (split sep (a ++ String sep b)) as [|h t]; cbn [hd] in *;
      now subst.
Qed.

Lemma take_append (a b : string) : take (String.length a) (a ++ b) = a.
Proof.
  induction a as [|x a IH]; cbn; [now destruct b | now rewrite IH].
Qed.

Lemma isoformat_date (dt : datetime) :
  exists time_text,
    isoformat dt = (date_text dt ++ String "T" time_text)%string.
Proof.
  eexists. unfold isoformat, date_text.
  rewrite !append_assoc'. cbn [append]. reflexivity.
Qed.

Lemma date_text_chars (dt : datetime) :
  all_of date_char (date_text dt) = true /\
  String.length (date_text dt) = 10%nat.
Proof.
  unfold date_text. split.
  - rewrite !all_of_app, !pad_digits. reflexivity.
  - rewrite !length_append, !pad_length. reflexivity.
Qed.

Lemma date_of_isoformat (dt : datetime) :
  hd EmptyString (split "T" (isoformat dt)) = date_text dt /\
  take 10 (isoformat dt) = date_text dt.
Proof.
  destruct (isoformat_date dt) as [t ->].
  destruct (date_text_chars dt) as [Hc Hl]. split.
  - apply split_head. revert Hc. apply all_of_weaken.
    intros c Hd. unfold date_char in Hd.
    apply orb_prop in Hd as [Hd|Hd].
    + unfold is_digit, between, code in Hd.
      apply andb_prop in Hd as [H1 H2].
      apply Nat.leb_le in H1, H2. apply negb_true_iff.
      apply Ascii.eqb_neq. intros ->. cbn in H2. lia.
    + apply Ascii.eqb_eq in Hd as ->. reflexivity.
  - rewrite <- Hl. apply take_append.
Qed.

End DateFacts.

(** X6: the launch date of an entity built from a parsed record is the date
    of the record's epoch, the first ten characters of its ISO text: four
    digits of the year, two of the month and two of the day, with hyphens. *)
Theorem launch_date_is_epoch_date libm_pow (name line1 line2 : string)
    (sat : Satellite.t) (now : string) (so : SpaceObject.t) :
  parse_triplet libm_pow name line1 line2 = Ok sat ->
  to_space_object now sat = Ok so ->
  exists epoch_date,
    epoch_date_of line1 = Ok epoch_date /\
    SpaceObject.launchDate so = Notions.date_text epoch_date /\
    SpaceObject.launchDate so = Str.take 10 (Satellite.epoch sat) /\
    String.length (SpaceObject.launchDate so) = 10%nat.
Proof.
  intros Hp Hso.
  apply ParserFacts.parse_triplet_ok in Hp
    as (d & mm & p & ec & inc & alt & Hd & _ & _ & _ & _ & _ & ->).
  apply EntityFacts.to_space_object_fields in Hso
    as (r & a & h & q & _ & _ & _ & _ & ->).
  cbn [SpaceObject.launchDate Satellite.epoch].
  destruct (DateFacts.date_of_isoformat d) as [Hh Ht].
  exists d. rewrite Hh, Ht.
  split; [exact Hd|]. split; [reflexivity|]. split; [reflexivity|].
  apply (proj2 (DateFacts.date_text_chars d)).
Qed.

Lemma launch_date_is_epoch_date_witness :
  exists epoch_date,
    epoch_date_of Examples.iss_line1 = Ok epoch_date /\
    SpaceObject.launchDate Examples.iss_entity
    = Notions.date_text epoch_date /\
    SpaceObject.launchDate Examples.iss_entity
    = Str.take 10 (Satellite.epoch Examples.iss_record) /\
    String.length (SpaceObject.launchDate Examples.iss_entity) = 10%nat.
Proof.
  apply (launch_date_is_epoch_date SampleLibm.pow "ISS (ZARYA)"
           Examples.iss_line1 Examples.iss_line2 Examples.iss_record
           Examples.build_time Examples.iss_entity).
  - vm_compute. reflexivity.
  - vm_compute. reflexivity.
Defined.

(** ** Designators and the country table *)

Module CountryFacts.
Import Str Notions.

Lemma two_capitals_step (c d : ascii) (r : string) :
  two_capitals_in_a_row (String c (String d r))
  = ((is_capital c && is_capital d)
     || two_capitals_in_a_row (String d r))%bool.
Proof. reflexivity. Qed.

Lemma two_capitals_after (pre : string) (c d : ascii) (rest : string) :
  is_capital c = true -> is_capital d = true ->
  two_capitals_in_a_row (pre ++ String c (String d rest)) = true.
Proof.
  intros Hc Hd. induction pre as [|x pre IH]; cbn [append].
  - rewrite two_capitals_step, Hc, Hd. reflexivity.
  - destruct (pre ++ String c (String d rest))%string as [|y r] eqn:E.
    + destruct pre; discriminate.
    + rewrite two_capitals_step, IH. apply orb_true_r.
Qed.

(** Every code of the table starts with two capital letters. *)
Lemma codes_start_with_capitals :
  Forall (fun code => exists c d rest,
            code = String c (String d rest) /\
            is_capital c = true /\ is_capital d = true)
         (map fst country_codes).
Proof.
  repeat (constructor; [do 3 eexists; repeat split; reflexivity|]).
  constructor.
Qed.

Lemma no_code_without_capitals (int_des code : string) :
  two_capitals_in_a_row int_des = false ->
  In code (map fst country_codes) ->
  contains code int_des = false.
Proof.
  intros Hno Hin.
  pose proof codes_start_with_capitals as Hall.
  rewrite Forall_forall in Hall.
  destruct (Hall code Hin) as (c & d & rest & -> & Hc & Hd).
  destruct (contains (String c (String d rest)) int_des) eqn:E;
    [|reflexivity].
  apply StrFacts.contains_app in E as (pre & post & ->).
  cbn [append] in Hno.
  rewrite (two_capitals_after pre c d _ Hc Hd) in Hno. discriminate.
Qed.

End CountryFacts.

(** X7: a designator in which no two capital letters stand next to each
    other, as the designators of the feeds are while the piece is a single
    letter ("98067A"), always gives the country "Unknown": every code of the
    table starts with two capital letters. *)
Theorem country_unknown_without_capitals (now : string) (sat : Satellite.t)
    (so : SpaceObject.t) :
  to_space_object now sat = Ok so ->
  Notions.two_capitals_in_a_row (Satellite.int_designator sat) = false ->
  SpaceObject.country so = "Unknown".
Proof.
  intros Hso Hno.
  apply EntityFacts.to_space_object_fields in Hso
    as (r & a & h & q & _ & _ & _ & _ & ->).
  cbn [SpaceObject.country].
  rewrite AssemblerFacts.country_loop_first_match. unfold Spec.first_match.
  destruct (find _ country_codes) as [[code name]|] eqn:Hf; [|reflexivity].
  apply find_some in Hf as [Hin Hc]. cbn [fst] in Hc.
  rewrite (CountryFacts.no_code_without_capitals _ code Hno) in Hc;
    [discriminate|].
  apply in_map_iff. now exists (code, name).
Qed.

Lemma country_unknown_without_capitals_witness :
  SpaceObject.country Examples.iss_entity = "Unknown".
Proof.
  apply (country_unknown_without_capitals Examples.build_time
           Examples.iss_record Examples.iss_entity).
  - vm_compute. reflexivity.
  - vm_compute. reflexivity.
Defined.

(** ** The sign of the mean motion *)

Module SignFacts.

Lemma binary_round_aux_opp (s : bool) (m e : Z) (l : location) :
  binary_round_aux prec emax (negb s) m e l
  = SFopp (binary_round_aux prec emax s m e l).
Proof.
  unfold binary_round_aux.
  destruct (shr_fexp prec emax m e l) as [mrs' e'].
  destruct (shr_fexp prec emax _ e' loc_Exact) as [mrs'' e''].
  destruct (shr_m mrs'') as [|p|p]; try reflexivity.
  destruct (e'' <=? emax - prec); reflexivity.
Qed.

Lemma fmul_opp (x y : float) : fmul (SFopp x) y = SFopp (fmul x y).
Proof.
  unfold fmul.
  destruct x as [sx|sx| |sx mx ex], y as [sy|sy| |sy my ey];
    cbn [SFopp SFmul]; rewrite <- ?negb_xorb_l; try reflexivity.
  apply binary_round_aux_opp.
Qed.

Lemma SFdiv_opp (x y : float) :
  SFdiv prec emax (SFopp x) y = SFopp (SFdiv prec emax x y).
Proof.
  destruct x as [sx|sx| |sx mx ex], y as [sy|sy| |sy my ey];
    cbn [SFopp SFdiv]; rewrite <- ?negb_xorb_l; try reflexivity.
  destruct (SFdiv_core_binary prec emax (Z.pos mx) ex (Z.pos my) ey)
    as [[mz ez] lz].
  apply binary_round_aux_opp.
Qed.

Lemma rad_per_sec_opp (mean_motion w : float) :
  rad_per_sec mean_motion = Ok w ->
  rad_per_sec (SFopp mean_motion) = Ok (SFopp w).
Proof.
  rewrite !rad_per_sec_value. intros [= <-].
  now rewrite !fmul_opp, SFdiv_opp.
Qed.

(** A square does not see the sign of its base. *)
Lemma float_pow_two_opp libm_pow (w : float) :
  float_pow libm_pow (SFopp w) (of_int 2) = float_pow libm_pow w (of_int 2).
Proof.
  unfold float_pow.
  replace (is_integer (of_int 2)) with true by reflexivity.
  replace (is_odd_integer (of_int 2)) with false by reflexivity.
  rewrite !andb_false_r.
  destruct w as [s|s| |s m e]; reflexivity.
Qed.

End SignFacts.

(** X8: the altitude does not see the sign of the mean motion: the opposite
    of a mean motion gives the same semi-major axis and the same altitude,
    or the same exception, so a negative mean motion is given the altitude
    of its absolute value. *)
Theorem altitude_ignores_sign libm_pow (mean_motion : float) :
  semi_major_axis_of libm_pow (SFopp mean_motion)
  = semi_major_axis_of libm_pow mean_motion
  /\ altitude_of libm_pow (SFopp mean_motion)
     = altitude_of libm_pow mean_motion.
Proof.
  assert (H : semi_major_axis_of libm_pow (SFopp mean_motion)
              = semi_major_axis_of libm_pow mean_motion).
  { unfold semi_major_axis_of.
    rewrite (rad_per_sec_value mean_motion).
    rewrite (SignFacts.rad_per_sec_opp mean_motion _
               (rad_per_sec_value mean_motion)).
    cbn [bind]. now rewrite SignFacts.float_pow_two_opp. }
  split; [exact H|]. unfold altitude_of. now rewrite H.
Qed.

(** ** The range of the epoch year *)

Module YearFacts.
Import Str.

Lemma digit_val_bound (c : ascii) :
  is_digit c = true -> 0 <= digit_val c <= 9.
Proof.
  unfold is_digit, between, digit_val. intros H.
  apply andb_prop in H as [H1 H2]. apply Nat.leb_le in H1, H2. lia.
Qed.

(** The value of a run of digits, after [acc], on a text of [k]
    characters at most, is below [(acc + 1) * 10 ^ k]. *)
Lemma digits_us_bound (k : nat) :
  forall (s : string) (acc n v n' : Z) (rest : string),
    (String.length s <= k)%nat -> 0 <= acc ->
    digits_us acc n s = (v, n', rest) ->
    acc <= v < (acc + 1) * 10 ^ Z.of_nat k.
Proof.
  induction k as [k IH] using lt_wf_ind.
  intros s acc n v n' rest Hlen Hacc H.
  assert (Hp : 0 < 10 ^ Z.of_nat k) by (apply Z.pow_pos_nonneg; lia).
  destruct s as [|c r]; cbn [digits_us] in H.
  { injection H as <- _ _. nia. }
  destruct k as [|k]; [simpl in Hlen; lia|].
  assert (Hk : 10 ^ Z.of_nat (S k) = 10 * 10 ^ Z.of_nat k).
  { rewrite Nat2Z.inj_succ, Z.pow_succ_r by lia. reflexivity. }
  assert (Hpk : 0 < 10 ^ Z.of_nat k) by (apply Z.pow_pos_nonneg; lia).
  destruct (is_digit c) eqn:Hc.
  - pose proof (digit_val_bound c Hc) as Hd.
    apply (IH k ltac:(lia)) in H; [|simpl in Hlen; lia|lia].
    rewrite Hk. nia.
  - destruct (Ascii.eqb c "_"); [|injection H as <- _ _; nia].
    destruct r as [|d r']; [injection H as <- _ _; nia|].
    destruct (is_digit d) eqn:Hd; [|injection H as <- _ _; nia].
    pose proof (digit_val_bound d Hd) as Hdv.
    destruct k as [|k']; [simpl in Hlen; lia|].
    apply (IH k' ltac:(lia)) in H; [|simpl in Hlen; lia|lia].
    assert (Hk' : 10 ^ Z.of_nat (S k') = 10 * 10 ^ Z.of_nat k').
    { rewrite Nat2Z.inj_succ, Z.pow_succ_r by lia. reflexivity. }
    assert (0 < 10 ^ Z.of_nat k') by (apply Z.pow_pos_nonneg; lia).
    rewrite Hk, Hk'. nia.
Qed.

(** A sign, when there is one, takes a character. *)
Lemma sign_of_length (s : string) :
  (String.length (snd (sign_of s)) <= String.length s)%nat /\
  (fst (sign_of s) = true ->
   (String.length (snd (sign_of s)) < String.length s)%nat).
Proof.
  destruct s as [|c r]; [cbn; split; [lia | discriminate]|].
  destruct c as [[|] [|] [|] [|] [|] [|] [|] [|]]; cbn;
    split; (lia || discriminate).
Qed.

(** [int()] of a text of two characters at most lies between -9 and 99. *)
Lemma int_of_short_text (s : string) (v : Z) :
  (String.length s <= 2)%nat -> int_of_str s = Ok v -> -9 <= v <= 99.
Proof.
  intros Hlen. unfold int_of_str.
  pose proof (StrFacts.length_lstrip_by is_ws s) as Hl.
  pose proof (sign_of_length (lstrip_by is_ws s)) as [Hs1 Hs2].
  destruct (sign_of (lstrip_by is_ws s)) as [neg s1]. cbn [fst snd] in *.
  destruct s1 as [|c r] eqn:Es1; [discriminate|].
  destruct (is_digit c); [|discriminate].
  destruct (digits_us 0 0 (String c r)) as [[v' n'] rest] eqn:Ed.
  destruct (lstrip_by is_ws rest); [|discriminate].
  intros [= <-].
  destruct neg.
  - specialize (Hs2 eq_refl).
    apply (digits_us_bound 1) in Ed; [|lia|lia].
    change (10 ^ Z.of_nat 1) with 10 in Ed. lia.
  - apply (digits_us_bound 2) in Ed; [|lia|lia].
    change (10 ^ Z.of_nat 2) with 100 in Ed. lia.
Qed.

Lemma take_length (n : nat) (s : string) :
  (String.length (take n s) <= n)%nat.
Proof.
  revert s; induction n as [|n IH]; intros [|c s]; cbn; try lia.
  specialize (IH s). lia.
Qed.

End YearFacts.

(** X9: the year resolved from the two columns of the epoch year always
    lies between 1957 and 2056, whatever the two characters are (a sign or
    a blank with a digit included), so the [datetime] of its first of
    January is always built. *)
Theorem epoch_year_range (line1 : string) (epoch_year : Z) :
  epoch_year_of line1 = Ok epoch_year ->
  1957 <= epoch_year <= 2056
  /\ Time.datetime_jan1 epoch_year
     = Ok (Time.MkDatetime epoch_year 1 1 0 0 0 0).
Proof.
  unfold epoch_year_of. intros H. bind_inv_as H y Hy.
  apply YearFacts.int_of_short_text in Hy;
    [|apply (YearFacts.take_length 2)].
  assert (Hr : 1957 <= epoch_year <= 2056).
  { destruct (Z.ltb_spec y 57); injection H as <-; lia. }
  split; [exact Hr|].
  unfold Time.datetime_jan1.
  destruct (Z.leb_spec 1 epoch_year); [|lia].
  destruct (Z.leb_spec epoch_year 9999); [reflexivity | lia].
Qed.

Lemma epoch_year_range_witness :
  1957 <= 2024 <= 2056
  /\ Time.datetime_jan1 2024 = Ok (Time.MkDatetime 2024 1 1 0 0 0 0).
Proof.
  apply (epoch_year_range Examples.iss_line1 2024).
  vm_compute. reflexivity.
Defined.

(** ** A mean motion that is not a number, or not finite *)

Module NonFiniteFacts.

Lemma nan_steps libm_pow :
  period_of S754_nan = Ok (VInt 0)
  /\ altitude_of libm_pow S754_nan = Ok (VFloat S754_nan).
Proof. split; reflexivity. Qed.

Lemma inf_steps libm_pow (s : bool) :
  period_of (S754_infinity s) = Ok (if s then VInt 0 else VFloat zero)
  /\ altitude_of libm_pow (S754_infinity s)
     = Ok (VFloat (SFopp (literal "6371.0"))).
Proof. destruct s; split; vm_compute; reflexivity. Qed.

End NonFiniteFacts.

(** X10: a mean motion field that reads [nan] or an infinity is not
    rejected, whatever the C library's [pow] is.  With [nan] the record has
    the period 0 and the altitude [nan], and its entity has the risk level
    "low"; with an infinity the altitude is -6371.0 km, and its entity has
    the risk level "high"; in both cases the entity is built and its period
    is 0.0 hours. *)
Theorem non_finite_mean_motion_accepted libm_pow
    (name line1 line2 : string) (sat : Satellite.t) (mean_motion : float)
    (now : string) :
  parse_triplet libm_pow name line1 line2 = Ok sat ->
  float_of_str (Str.slice 52 63 line2) = Ok mean_motion ->
  (mean_motion = S754_nan ->
   Satellite.period_minutes sat = VInt 0 /\
   Satellite.altitude sat = VFloat S754_nan /\
   exists so, to_space_object now sat = Ok so /\
              SpaceObject.riskLevel so = "low" /\
              SpaceObject.altitude so = VFloat S754_nan /\
              SpaceObject.period so = VFloat zero)
  /\ (forall s, mean_motion = S754_infinity s ->
      Satellite.period_minutes sat = (if s then VInt 0 else VFloat zero) /\
      Satellite.altitude sat = VFloat (SFopp (literal "6371.0")) /\
      exists so, to_space_object now sat = Ok so /\
                 SpaceObject.riskLevel so = "high" /\
                 SpaceObject.altitude so
                 = VFloat (SFopp (literal "6371.0")) /\
                 SpaceObject.period so = VFloat zero).
Proof.
  intros Hp Hmm.
  apply ParserFacts.parse_triplet_ok in Hp
    as (d & mm & p & ec & inc & alt & _ & Hmm' & Hper & _ & _ & Halt & ->).
  rewrite Hmm in Hmm'. injection Hmm' as <-.
  cbn [Satellite.period_minutes Satellite.altitude].
  split.
  - intros ->.
    destruct (NonFiniteFacts.nan_steps libm_pow) as [H1 H2].
    rewrite H1 in Hper. rewrite H2 in Halt.
    injection Hper as <-. injection Halt as <-.
    repeat (split; [reflexivity|]).
    eexists. split; [reflexivity|]. repeat split; reflexivity.
  - intros s ->.
    destruct (NonFiniteFacts.inf_steps libm_pow s) as [H1 H2].
    rewrite H1 in Hper. rewrite H2 in Halt.
    injection Hper as <-. injection Halt as <-.
    repeat (split; [reflexivity|]).
    destruct s; (eexists; split; [reflexivity|]);
      repeat (apply conj); vm_compute; reflexivity.
Qed.

Lemma non_finite_mean_motion_accepted_witness :
  Satellite.altitude Examples.nan_record = VFloat S754_nan
  /\ Satellite.altitude Examples.inf_record
     = VFloat (SFopp (literal "6371.0")).
Proof.
  split.
  - apply (proj1 (non_finite_mean_motion_accepted SampleLibm.pow "NAN"
                    Examples.iss_line1 Examples.nan_line2
                    Examples.nan_record S754_nan Examples.build_time
                    ltac:(vm_compute; reflexivity)
                    ltac:(vm_compute; reflexivity)) eq_refl).
  - apply (proj2 (non_finite_mean_motion_accepted SampleLibm.pow "INF"
                    Examples.iss_line1 Examples.inf_line2
                    Examples.inf_record (S754_infinity false)
                    Examples.build_time
                    ltac:(vm_compute; reflexivity)
                    ltac:(vm_compute; reflexivity)) false eq_refl).
Defined.

(** * Properties of the cache and of its update *)

(** ** Differences of dates *)

Module DeltaFacts.
Import Time Notions.

Lemma microseconds_to_delta_ok (x : Z) (td : timedelta) :
  microseconds_to_delta x = Ok td -> total td = x /\ normalised td.
Proof.
  unfold microseconds_to_delta, total, normalised.
  destruct (_ && _); [|discriminate]. intros [= <-].
  cbn [td_days td_seconds td_microseconds].
  Z.div_mod_to_equations. lia.
Qed.

Lemma microseconds_to_delta_range (x : Z) :
  microseconds_to_delta x
  = if ((- max_delta_days <=? x / 86400000000)
        && (x / 86400000000 <=? max_delta_days))%bool
    then Ok (MkDelta (x / 86400000000) (x / 1000000 mod 86400)
                     (x mod 1000000))
    else Raise OverflowError.
Proof.
  unfold microseconds_to_delta.
  replace (x / 1000000 / 86400) with (x / 86400000000); [reflexivity|].
  rewrite Z.div_div by lia. reflexivity.
Qed.

Lemma timedelta_of_hours_range (h : Z) :
  timedelta_of_hours h
  = if ((- max_delta_days <=? h / 24) && (h / 24 <=? max_delta_days))%bool
    then Ok (MkDelta (h / 24) (h mod 24 * 3600) 0)
    else Raise OverflowError.
Proof.
  unfold timedelta_of_hours. rewrite microseconds_to_delta_range.
  assert (H1 : h * 3600000000 / 86400000000 = h / 24)
    by (Z.div_mod_to_equations; lia).
  assert (H2 : h * 3600000000 / 1000000 mod 86400 = h mod 24 * 3600)
    by (Z.div_mod_to_equations; lia).
  assert (H3 : h * 3600000000 mod 1000000 = 0)
    by (Z.div_mod_to_equations; lia).
  now rewrite H1, H2, H3.
Qed.

Lemma month_start_bound (y m : Z) :
  1 <= m <= 12 -> 0 <= days_before_month y m <= 335.
Proof.
  intros H. unfold days_before_month.
  assert (Hm : m = 1 \/ m = 2 \/ m = 3 \/ m = 4 \/ m = 5 \/ m = 6 \/ m = 7
               \/ m = 8 \/ m = 9 \/ m = 10 \/ m = 11 \/ m = 12) by lia.
  destruct (_ && _);
    repeat (destruct Hm as [Hm|Hm]; [rewrite Hm; vm_compute; intuition discriminate|]);
    rewrite Hm; vm_compute; intuition discriminate.
Qed.

Lemma ordinal_bound (dt : datetime) :
  valid_datetime dt ->
  1 <= ymd_to_ord (year dt) (month dt) (day dt) <= 3652060.
Proof.
  intros (Hy & Hm & Hd & _).
  pose proof (month_start_bound (year dt) (month dt) Hm).
  unfold ymd_to_ord, days_before_year.
  Z.div_mod_to_equations. lia.
Qed.

Lemma datetime_sub_ok (a b : datetime) :
  valid_datetime a -> valid_datetime b ->
  exists td, datetime_sub a b = Ok td
             /\ total td = microseconds_of a - microseconds_of b
             /\ normalised td.
Proof.
  intros Ha Hb.
  pose proof (ordinal_bound a Ha). pose proof (ordinal_bound b Hb).
  destruct Ha as (_ & _ & _ & Hah & Ham & Has & Hau).
  destruct Hb as (_ & _ & _ & Hbh & Hbm & Hbs & Hbu).
  unfold datetime_sub, microseconds_of, total, normalised.
  set (oa := ymd_to_ord (year a) (month a) (day a)) in *.
  set (ob := ymd_to_ord (year b) (month b) (day b)) in *.
  match goal with
  | |- context [if ?c then _ else _] => assert (Hc : c = true)
  end.
  { apply andb_true_iff; split; apply Z.leb_le; unfold max_delta_days;
      Z.div_mod_to_equations; lia. }
  rewrite Hc. eexists. split; [reflexivity|].
  cbn [td_days td_seconds td_microseconds].
  Z.div_mod_to_equations. lia.
Qed.

Lemma timedelta_gtb_total (x y : timedelta) :
  normalised x -> normalised y ->
  timedelta_gtb x y = (total y <? total x).
Proof.
  unfold normalised, total, timedelta_gtb. intros [Hx1 Hx2] [Hy1 Hy2].
  destruct (Z.compare_spec (td_days x) (td_days y));
    [destruct (Z.compare_spec (td_seconds x) (td_seconds y));
       [destruct (Z.ltb_spec (td_microseconds y) (td_microseconds x))|..]
    |..];
    symmetry; (apply Z.ltb_lt || apply Z.ltb_ge); lia.
Qed.

End DeltaFacts.

Ltac valid_by_evaluation :=
  unfold Notions.valid_datetime; repeat (apply conj); vm_compute;
  (reflexivity || discriminate).

(** ** Sequencing *)

Module IoFacts.
Import Updater.

Lemma and_then_returns {A B : Type} (c : io A) (k : A -> io B)
    (s s2 : state) (b : B) :
  and_then c k s = Returns b s2 <->
  exists a s1, c s = Returns a s1 /\ k a s1 = Returns b s2.
Proof.
  unfold and_then. split.
  - destruct (c s) as [a s1|e]; [eauto | discriminate].
  - intros (a & s1 & -> & H). exact H.
Qed.

End IoFacts.

(** ** Text of paths *)

Module PathFacts.
Import Notions.

Lemma append_inv_head (a x y : string) : a ++ x = a ++ y -> x = y.
Proof.
  induction a as [|c a IH]; cbn [append]; intros H; [exact H|].
  injection H as H. auto.
Qed.

Lemma append_inv_tail (t : string) :
  forall x y : string, x ++ t = y ++ t -> x = y.
Proof.
  assert (Hlen : forall a b : string,
             a = b -> String.length a = String.length b)
    by (intros a b ->; reflexivity).
  induction x as [|c x IH]; intros [|d y] H; cbn [append] in H.
  - reflexivity.
  - apply Hlen in H. cbn [String.length] in H.
    rewrite DateFacts.length_append in H. lia.
  - apply Hlen in H. cbn [String.length] in H.
    rewrite DateFacts.length_append in H. lia.
  - injection H as -> H. now rewrite (IH y H).
Qed.

Lemma category_file_inj (data_dir dir c c' : string) :
  category_file data_dir dir c = category_file data_dir dir c' -> c = c'.
Proof.
  unfold category_file. intros H.
  apply append_inv_head in H. cbn [append] in H. injection H as H.
  apply append_inv_head in H. cbn [append] in H. injection H as H.
  now apply append_inv_tail in H.
Qed.

Lemma satellites_not_debris (data_dir c c' : string) :
  category_file data_dir "satellites" c
  <> category_file data_dir "debris" c'.
Proof.
  unfold category_file. intros H.
  apply append_inv_head in H. cbn [append] in H. discriminate.
Qed.

Lemma catalog_not_satellites (data_dir c : string) :
  catalog_file data_dir <> category_file data_dir "satellites" c.
Proof.
  unfold category_file, catalog_file. intros H.
  apply append_inv_head in H. cbn [append] in H. discriminate.
Qed.

Lemma catalog_not_debris (data_dir c : string) :
  catalog_file data_dir <> category_file data_dir "debris" c.
Proof.
  unfold category_file, catalog_file. intros H.
  apply append_inv_head in H. cbn [append] in H. discriminate.
Qed.

End PathFacts.

(** ** The functions of the cache, one by one *)

Module UpdaterFacts.
Import Flt Time OrbitPropagation Updater Notions IoFacts.

Lemma needs_update_missing (E : env) (filename : string) (h : Z)
    (s : state) :
  files s filename = None -> needs_update E filename h s = Returns true s.
Proof.
  unfold needs_update, and_then, path_exists. intros ->. reflexivity.
Qed.

Lemma needs_update_existing (E : env) (filename : string) (h : Z)
    (s : state) (f : file) :
  files s filename = Some f ->
  valid_datetime (mtime f) ->
  valid_datetime (clock E (ticks s)) ->
  needs_update E filename h s
  = if ((- max_delta_days <=? h / 24) && (h / 24 <=? max_delta_days))%bool
    then Returns (microseconds_of_hours h
                  <? microseconds_of (clock E (ticks s))
                     - microseconds_of (mtime f))
                 (tick s)
    else Raises (Python OverflowError).
Proof.
  unfold needs_update, and_then, path_exists, file_time_of, datetime_now,
    lift, ret.
  intros Hfile Hf Hc. rewrite Hfile. cbn [negb]. rewrite Hfile.
  destruct (DeltaFacts.datetime_sub_ok _ _ Hc Hf) as (age & -> & Ht & Hn).
  rewrite DeltaFacts.timedelta_of_hours_range.
  destruct (_ && _) eqn:Hr; [|reflexivity].
  rewrite DeltaFacts.timedelta_gtb_total; [|exact Hn|].
  - rewrite Ht. unfold total, microseconds_of_hours.
    cbn [td_days td_seconds td_microseconds].
    replace ((h / 24 * 86400 + h mod 24 * 3600) * 1000000 + 0)
      with (h * 3600000000) by (Z.div_mod_to_equations; lia).
    reflexivity.
  - unfold normalised. cbn [td_seconds td_microseconds].
    Z.div_mod_to_equations. lia.
Qed.

Lemma needs_update_inv (E : env) (filename : string) (h : Z)
    (s s1 : state) (b : bool) :
  needs_update E filename h s = Returns b s1 ->
  files s1 = files s /\ requested s1 = requested s
  /\ (files s filename = None -> b = true).
Proof.
  unfold needs_update, and_then, path_exists, file_time_of, datetime_now,
    lift, ret.
  destruct (files s filename) as [f|] eqn:Hf; cbn [negb].
  - rewrite Hf.
    destruct (datetime_sub _ _); [|discriminate].
    destruct (timedelta_of_hours h); [|discriminate].
    intros [= <- <-]. repeat split. discriminate.
  - intros [= <- <-]. repeat split.
Qed.

Lemma fetch_celestrak_tle_eq (E : env) (value : string) (s : state) :
  fetch_celestrak_tle E value "tle" s
  = match http_get E CELESTRAK_URL (tle_request value) with
    | Some text => Returns (Some text) (requesting (tle_request value) s)
    | None => Returns None (printing [ErrorFetching]
                              (requesting (tle_request value) s))
    end.
Proof.
  unfold fetch_celestrak_tle, and_then, get_text, tle_request.
  destruct (http_get E CELESTRAK_URL _); reflexivity.
Qed.

Lemma save_tle_data_eq (E : env) (data filename : string) (s : state) :
  save_tle_data E data filename s
  = if (nonempty (dirname filename) && can_make E (dirname filename)
        && can_write E filename)%bool
    then Returns tt (printing [TleDataSaved filename]
                       (storing filename
                                (MkFile data (stamp E filename)) s))
    else Raises OSError.
Proof.
  unfold save_tle_data, and_then, makedirs, write_file, print.
  destruct (nonempty (dirname filename) && can_make E (dirname filename))%bool;
    [|reflexivity].
  destruct (can_write E filename); reflexivity.
Qed.

Lemma load_tle_data_eq (filename : string) (s : state) :
  load_tle_data filename s
  = Returns (option_map (fun f => universal_newlines (content f))
                        (files s filename)) s.
Proof.
  unfold load_tle_data, and_then, path_exists, read_file, ret.
  destruct (files s filename) as [f|] eqn:Hf; cbn [negb option_map];
    [rewrite Hf|]; reflexivity.
Qed.

Lemma parse_tle_data_io_eq (E : env) (tle_data : string) (s : state) :
  exists reports,
    parse_tle_data_io E tle_data s
    = Returns (parse_tle_data (libm_pow E) tle_data)
              (printing (map Parsing reports) s).
Proof.
  unfold parse_tle_data_io, parse_tle_data.
  destruct (parse_tle_data_st (libm_pow E) tle_data []) as [sats reports].
  exists reports. reflexivity.
Qed.

(** The loop of lines 278-279: one entity per record, in order, one
    reading of the clock each. *)
Lemma append_loop_returns (E : env) (satellites : list Satellite.t) :
  forall (objs objs' : list SpaceObject.t) (s s' : state),
    for_each (append_objects E) satellites objs s = Returns objs' s' ->
    files s' = files s /\ requested s' = requested s
    /\ printed s' = printed s
    /\ exists new, objs' = (objs ++ new)%list
                   /\ Forall2 (built E) new satellites.
Proof.
  induction satellites as [|sat rest IH]; intros objs objs' s s' H;
    cbn [for_each] in H.
  - injection H as <- <-. repeat split. exists []. split; [|constructor].
    now rewrite app_nil_r.
  - apply and_then_returns in H as (objs1 & s1 & H1 & H).
    unfold append_objects, and_then, to_space_object_io, ret in H1.
    destruct (to_space_object _ sat) as [so|e] eqn:Hso; [|discriminate].
    injection H1 as <- <-.
    apply IH in H as (Hf & Hr & Hp & new & -> & Hnew).
    repeat split; try assumption.
    exists (so :: new). split; [now rewrite <- app_assoc|].
    constructor; [|exact Hnew]. exists (ticks s). exact Hso.
Qed.

End UpdaterFacts.

Module TurnFacts.
Import Flt Time OrbitPropagation Updater Notions IoFacts UpdaterFacts.

(** What the second half of a turn does (lines 273-279): it leaves the files
    and the requests as they are and appends the entities of the records of
    the file. *)
Lemma read_half_returns (E : env) (filename : string)
    (upd upd' : list string) (objs objs' : list SpaceObject.t)
    (s s' : state) :
  (tle_data <~ load_tle_data filename ;;
   if truthy tle_data then
     satellites <~ parse_tle_data_io E (text_of tle_data) ;;
     all_space_objects <~ for_each (append_objects E) satellites objs ;;
     ret (upd, all_space_objects)
   else ret (upd, objs)) s = Returns (upd', objs') s' ->
  files s' = files s /\ requested s' = requested s /\ upd' = upd
  /\ exists new, objs' = (objs ++ new)%list
                 /\ Forall2 (built E) new (cached_records E s' filename).
Proof.
  intros H. apply and_then_returns in H as (tle & s1 & Hl & H).
  rewrite load_tle_data_eq in Hl. injection Hl as <- <-.
  unfold cached_records.
  destruct (files s filename) as [f|] eqn:Hf; cbn [option_map truthy] in H.
  - destruct (nonempty (universal_newlines (content f))) eqn:Hne.
    + apply and_then_returns in H as (sats & s2 & Hp & H).
      destruct (parse_tle_data_io_eq E (universal_newlines (content f)) s)
        as [reports Hpe].
      cbn [text_of] in Hp. rewrite Hpe in Hp. injection Hp as <- <-.
      apply and_then_returns in H as (objs2 & s3 & Hloop & H).
      injection H as <- <- <-.
      apply append_loop_returns in Hloop as (Hfs & Hrq & _ & Hnew).
      repeat split; try assumption.
      rewrite Hfs. cbn [files printing]. rewrite Hf. exact Hnew.
    + injection H as <- <- <-. repeat split.
      rewrite Hf. exists []. split; [now rewrite app_nil_r|].
      destruct (universal_newlines (content f)); [|discriminate].
      constructor.
  - injection H as <- <- <-. repeat split. rewrite Hf.
    exists []. split; [now rewrite app_nil_r | constructor].
Qed.

(** What the first half of a turn does (lines 268-275), when the file is
    stale. *)
Lemma fetch_half_returns (E : env) (category value label filename : string)
    (upd upd' : list string) (s s' : state) :
  (_ <~ print (Updating category label) ;;
   tle_data <~ fetch_celestrak_tle E value "tle" ;;
   if truthy tle_data then
     _ <~ save_tle_data E (text_of tle_data) filename ;;
     ret (dict_set category upd)
   else ret upd) s = Returns upd' s' ->
  requested s' = (requested s ++ [tle_request value])%list
  /\ ((exists d, http_get E CELESTRAK_URL (tle_request value) = Some d
                 /\ nonempty d = true
                 /\ nonempty (dirname filename) = true
                 /\ can_make E (dirname filename) = true
                 /\ can_write E filename = true
                 /\ files s' = files (storing filename
                                        (MkFile d (stamp E filename)) s)
                 /\ upd' = dict_set category upd)
      \/ (truthy (http_get E CELESTRAK_URL (tle_request value)) = false
          /\ files s' = files s /\ upd' = upd)).
Proof.
  intros H. apply and_then_returns in H as ([] & s1 & Hp & H).
  injection Hp as <-.
  apply and_then_returns in H as (tle & s2 & Hfetch & H).
  rewrite fetch_celestrak_tle_eq in Hfetch.
  destruct (http_get E CELESTRAK_URL (tle_request value)) as [d|] eqn:Hget;
    injection Hfetch as <- <-; cbn [truthy] in *.
  - destruct (nonempty d) eqn:Hd.
    + apply and_then_returns in H as ([] & s3 & Hsave & H).
      injection H as <- <-.
      rewrite save_tle_data_eq in Hsave. cbn [text_of] in Hsave.
      destruct (_ && _)%bool eqn:Hok; [|discriminate].
      apply andb_prop in Hok as [Hok Hw]. apply andb_prop in Hok as [Hn Hm].
      injection Hsave as <-.
      split; [reflexivity|]. left. exists d. repeat split; assumption.
    + injection H as <- <-. split; [reflexivity|]. right. repeat split.
  - injection H as <- <-. split; [reflexivity|]. right. repeat split.
Qed.

(** One turn of either loop. *)
Lemma category_turn_returns (E : env) (data_dir dir label : string) (h : Z)
    (upd upd' : list string) (objs objs' : list SpaceObject.t)
    (c v : string) (s s' : state) :
  category_turn E data_dir dir label h (upd, objs) (c, v) s
  = Returns (upd', objs') s' ->
  let p := category_file data_dir dir c in
  (exists b s1,
      needs_update E p h s = Returns b s1
      /\ ((b = true
           /\ requested s' = (requested s ++ [tle_request v])%list
           /\ ((exists d,
                   http_get E CELESTRAK_URL (tle_request v) = Some d
                   /\ nonempty d = true
                   /\ files s' = files (storing p (MkFile d (stamp E p)) s)
                   /\ upd' = dict_set c upd)
               \/ (truthy (http_get E CELESTRAK_URL (tle_request v)) = false
                   /\ files s' = files s /\ upd' = upd)))
          \/ (b = false /\ requested s' = requested s
              /\ files s' = files s /\ upd' = upd)))
  /\ exists new, objs' = (objs ++ new)%list
                 /\ Forall2 (built E) new (cached_records E s' p).
Proof.
  intros H p. unfold category_turn in H. fold (category_file data_dir dir c) in H.
  fold p in H.
  apply and_then_returns in H as (b & s1 & Hn & H).
  apply and_then_returns in H as (upd1 & s2 & Hfetch & H).
  apply read_half_returns in H as (Hfs & Hrq & -> & Hnew).
  pose proof (needs_update_inv _ _ _ _ _ _ Hn) as (Hfs1 & Hrq1 & _).
  split; [|exact Hnew].
  exists b, s1. split; [exact Hn|].
  destruct b.
  - left. split; [reflexivity|].
    apply fetch_half_returns in Hfetch as (Hrq2 & Hcase).
    split; [now rewrite Hrq, Hrq2, Hrq1|].
    destruct Hcase as [(d & Hget & Hd & _ & _ & _ & Hfs2 & ->)
                      |(Hget & Hfs2 & ->)].
    + left. exists d. repeat split; try assumption.
      rewrite Hfs, Hfs2. cbn [files storing]. now rewrite Hfs1.
    + right. repeat split; [exact Hget|]. now rewrite Hfs, Hfs2.
  - right. injection Hfetch as <- <-.
    repeat split; [now rewrite Hrq | now rewrite Hfs].
Qed.

End TurnFacts.

Module LoopsFacts.
Import Flt Time OrbitPropagation Updater Notions IoFacts UpdaterFacts
  TurnFacts.

Lemma dict_set_In (key x : string) (d : list string) :
  In x (dict_set key d) <-> x = key \/ In x d.
Proof.
  unfold dict_set. destruct (existsb (String.eqb key) d) eqn:Hk.
  - apply existsb_exists in Hk as (y & Hy & Heq).
    apply String.eqb_eq in Heq. subst y. split; [auto|].
    intros [->|H]; assumption.
  - rewrite in_app_iff. cbn [In]. intuition (subst; auto).
Qed.

Lemma storing_other (filename q : string) (f : file) (s : state) :
  q <> filename -> files (storing filename f s) q = files s q.
Proof.
  intros H. cbn [files storing].
  destruct (String.eqb_spec q filename); [contradiction | reflexivity].
Qed.

Lemma storing_same (filename : string) (f : file) (s : state) :
  files (storing filename f s) filename = Some f.
Proof. cbn [files storing]. now rewrite String.eqb_refl. Qed.

Section Loop.
Variable E : env.
Variables data_dir dir label : string.
Variable h : Z.

Let body := category_turn E data_dir dir label h.
Let path (c : string) : string := category_file data_dir dir c.

(** A turn changes no file but its own. *)
Lemma turn_frame (upd upd' : list string) (objs objs' : list SpaceObject.t)
    (c v : string) (s s' : state) (q : string) :
  body (upd, objs) (c, v) s = Returns (upd', objs') s' ->
  q <> path c -> files s' q = files s q.
Proof.
  intros H Hq. apply category_turn_returns in H as [(b & s1 & _ & H) _].
  destruct H as [(_ & _ & [(d & _ & _ & -> & _)|(_ & -> & _)])
                |(_ & _ & -> & _)];
    [now apply storing_other | reflexivity | reflexivity].
Qed.

Lemma loop_frame (entries : list (string * string)) :
  forall (upd upd' : list string) (objs objs' : list SpaceObject.t)
         (s s' : state) (q : string),
    for_each body entries (upd, objs) s = Returns (upd', objs') s' ->
    (forall e, In e entries -> q <> path (fst e)) ->
    files s' q = files s q.
Proof.
  induction entries as [|[c v] rest IH]; intros upd upd' objs objs' s s' q H Hq;
    cbn [for_each] in H.
  - now injection H as _ _ <-.
  - apply and_then_returns in H as ([upd1 objs1] & s1 & Ht & H).
    rewrite (IH _ _ _ _ _ _ q H) by (intros e He; apply Hq; now right).
    apply (turn_frame _ _ _ _ _ _ _ _ _ Ht).
    apply (Hq (c, v)). now left.
Qed.

Lemma path_of_other (c : string) (rest : list (string * string)) :
  ~ In c (map fst rest) ->
  forall e, In e rest -> path c <> path (fst e).
Proof.
  intros Hc e He Heq. apply PathFacts.category_file_inj in Heq.
  apply Hc. rewrite Heq. now apply in_map.
Qed.

(** The keys set by the loop are the categories whose file was written,
    with the text the server gave. *)
Lemma loop_flags (entries : list (string * string)) :
  forall (upd upd' : list string) (objs objs' : list SpaceObject.t)
         (s s' : state),
    NoDup (map fst entries) ->
    (forall c, In c (map fst entries) -> ~ In c upd) ->
    for_each body entries (upd, objs) s = Returns (upd', objs') s' ->
    (forall c, In c upd -> In c upd')
    /\ (forall c, In c upd' -> In c upd \/ In c (map fst entries))
    /\ (forall c v, In (c, v) entries ->
          (In c upd'
           /\ exists d, http_get E CELESTRAK_URL (tle_request v) = Some d
                        /\ nonempty d = true
                        /\ files s' (path c)
                           = Some (MkFile d (stamp E (path c))))
          \/ (~ In c upd' /\ files s' (path c) = files s (path c))).
Proof.
  induction entries as [|[c0 v0] rest IH];
    intros upd upd' objs objs' s s' Hnd Hdis H; cbn [for_each] in H.
  - injection H as <- _ _. repeat split; auto. intros c v [].
  - apply and_then_returns in H as ([upd1 objs1] & s1 & Ht & H).
    cbn [map] in Hnd. apply NoDup_cons_iff in Hnd as [Hc0 Hnd].
    pose proof (loop_frame _ _ _ _ _ _ _ (path c0) H
                  (path_of_other c0 rest Hc0)) as Hkeep.
    assert (Hupd1 : (upd1 = upd /\ files s1 (path c0) = files s (path c0))
                    \/ (upd1 = dict_set c0 upd
                        /\ exists d,
                             http_get E CELESTRAK_URL (tle_request v0)
                             = Some d
                             /\ nonempty d = true
                             /\ files s1 (path c0)
                                = Some (MkFile d (stamp E (path c0))))).
    { pose proof Ht as Ht'.
      apply category_turn_returns in Ht' as [(b & s0 & _ & Hcase) _].
      destruct Hcase as [(_ & _ & [(d & Hget & Hd & Hfs & ->)
                                   |(_ & Hfs & ->)])
                        |(_ & _ & Hfs & ->)].
      - right. split; [reflexivity|]. exists d. repeat split; try assumption.
        rewrite Hfs. apply storing_same.
      - left. now rewrite Hfs.
      - left. now rewrite Hfs. }
    assert (Hdis1 : forall c, In c (map fst rest) -> ~ In c upd1).
    { intros c Hc Hin.
      assert (Hin' : c = c0 \/ In c upd).
      { destruct Hupd1 as [[-> _]|[-> _]];
          [now right | now apply dict_set_In]. }
      destruct Hin' as [->|Hin']; [contradiction|].
      apply (Hdis c); [now right | exact Hin']. }
    destruct (IH _ _ _ _ _ _ Hnd Hdis1 H) as (Hmono & Hfrom & Hrest).
    assert (Hsub : forall c, In c upd -> In c upd1).
    { intros c Hc. destruct Hupd1 as [[-> _]|[-> _]];
        [exact Hc | apply dict_set_In; now right]. }
    split; [intros c Hc; auto|]. split.
    + intros c Hc. apply Hfrom in Hc as [Hc|Hc]; [|right; now right].
      destruct Hupd1 as [[-> _]|[-> _]]; [now left|].
      apply dict_set_In in Hc as [->|Hc]; [right; now left | now left].
    + intros c v [[= <- <-]|Hin].
      * rewrite Hkeep.
        destruct Hupd1 as [[-> Hsame]|[-> Hnew]].
        -- right. split; [|exact Hsame].
           intros Hc. apply Hfrom in Hc as [Hc|Hc]; [|contradiction].
           apply (Hdis c0); [now left | exact Hc].
        -- left. split; [|exact Hnew].
           apply Hmono, dict_set_In. now left.
      * destruct (Hrest c v Hin) as [Hl|[Hn Hfs]]; [now left|].
        right. split; [exact Hn|]. rewrite Hfs.
        apply (turn_frame _ _ _ _ _ _ _ _ _ Ht).
        intros Heq. apply PathFacts.category_file_inj in Heq. subst c.
        apply Hc0. now apply (in_map fst) in Hin.
Qed.

(** The entities appended by the loop are those of the records of the
    files as the loop leaves them, in the order of the table. *)
Lemma loop_objects (entries : list (string * string)) :
  forall (upd upd' : list string) (objs objs' : list SpaceObject.t)
         (s s' : state),
    NoDup (map fst entries) ->
    for_each body entries (upd, objs) s = Returns (upd', objs') s' ->
    exists new,
      objs' = (objs ++ new)%list
      /\ Forall2 (built E) new
           (flat_map (fun e => cached_records E s' (path (fst e))) entries).
Proof.
  induction entries as [|[c0 v0] rest IH];
    intros upd upd' objs objs' s s' Hnd H; cbn [for_each] in H.
  - injection H as _ <- _. exists []. split; [now rewrite app_nil_r|].
    constructor.
  - apply and_then_returns in H as ([upd1 objs1] & s1 & Ht & H).
    cbn [map] in Hnd. apply NoDup_cons_iff in Hnd as [Hc0 Hnd].
    pose proof (loop_frame _ _ _ _ _ _ _ (path c0) H
                  (path_of_other c0 rest Hc0)) as Hkeep.
    apply category_turn_returns in Ht as [_ (new0 & -> & Hnew0)].
    destruct (IH _ _ _ _ _ _ Hnd H) as (new1 & -> & Hnew1).
    exists (new0 ++ new1)%list. split; [now rewrite app_assoc|].
    cbn [flat_map fst]. apply Forall2_app; [|exact Hnew1].
    unfold cached_records in *. fold (path c0) in Hnew0.
    now rewrite Hkeep.
Qed.

(** With no file for any category of the table, the loop sends one request
    per category, in the order of the table. *)
Lemma loop_missing (entries : list (string * string)) :
  forall (upd upd' : list string) (objs objs' : list SpaceObject.t)
         (s s' : state),
    NoDup (map fst entries) ->
    (forall e, In e entries -> files s (path (fst e)) = None) ->
    for_each body entries (upd, objs) s = Returns (upd', objs') s' ->
    requested s'
    = (requested s ++ map (fun e => tle_request (snd e)) entries)%list.
Proof.
  induction entries as [|[c0 v0] rest IH];
    intros upd upd' objs objs' s s' Hnd Hnone H; cbn [for_each] in H.
  - injection H as _ _ <-. now rewrite app_nil_r.
  - apply and_then_returns in H as ([upd1 objs1] & s1 & Ht & H).
    cbn [map] in Hnd. apply NoDup_cons_iff in Hnd as [Hc0 Hnd].
    assert (Hnone1 : forall e, In e rest -> files s1 (path (fst e)) = None).
    { intros e He.
      rewrite (turn_frame _ _ _ _ _ _ _ _ (path (fst e)) Ht).
      - apply Hnone. now right.
      - intros Heq. symmetry in Heq.
        now apply (path_of_other c0 rest Hc0 e He). }
    rewrite (IH _ _ _ _ _ _ Hnd Hnone1 H).
    apply category_turn_returns in Ht as [(b & s0 & Hn & Hcase) _].
    apply needs_update_inv in Hn as (_ & _ & Hb).
    specialize (Hb (Hnone (c0, v0) (or_introl eq_refl))). subst b.
    destruct Hcase as [(_ & -> & _)|(Hb & _)]; [|discriminate].
    cbn [map snd]. now rewrite <- app_assoc.
Qed.

(** With every file of the table found fresh, the loop sends no request,
    sets no key and leaves the files as they are. *)
Lemma loop_fresh (entries : list (string * string)) :
  forall (upd upd' : list string) (objs objs' : list SpaceObject.t)
         (s s' : state),
    (forall e s0, In e entries -> files s0 = files s ->
                  exists s1, needs_update E (path (fst e)) h s0
                             = Returns false s1) ->
    for_each body entries (upd, objs) s = Returns (upd', objs') s' ->
    upd' = upd /\ files s' = files s /\ requested s' = requested s.
Proof.
  induction entries as [|[c0 v0] rest IH];
    intros upd upd' objs objs' s s' Hfresh H; cbn [for_each] in H.
  - injection H as <- _ <-. repeat split.
  - apply and_then_returns in H as ([upd1 objs1] & s1 & Ht & H).
    apply category_turn_returns in Ht as [(b & s0 & Hn & Hcase) _].
    destruct (Hfresh (c0, v0) s (or_introl eq_refl) eq_refl) as [s0' Hn'].
    cbn [fst] in Hn'. fold (path c0) in Hn. rewrite Hn in Hn'.
    injection Hn' as -> _.
    destruct Hcase as [(Hb & _)|(_ & Hrq & Hfs & ->)]; [discriminate|].
    destruct (IH _ _ _ _ _ _ (fun e s2 He Hs2 =>
                Hfresh e s2 (or_intror He) (eq_trans Hs2 Hfs)) H)
      as (-> & Hfs' & Hrq').
    repeat split; [now rewrite Hfs' | now rewrite Hrq'].
Qed.

End Loop.
End LoopsFacts.

(** ** The tables and the directories *)

Module TableFacts.
Import Updater Notions.

Ltac no_duplicates :=
  repeat (apply NoDup_cons; [cbn [In]; intuition discriminate|]);
  apply NoDup_nil.

Lemma satellite_keys : NoDup (map fst SATELLITE_CATEGORIES).
Proof. cbn [map fst SATELLITE_CATEGORIES]. no_duplicates. Qed.

Lemma debris_keys : NoDup (map fst DEBRIS_CATEGORIES).
Proof. cbn [map fst DEBRIS_CATEGORIES]. no_duplicates. Qed.

Lemma keys_apart (c : string) :
  In c (map fst DEBRIS_CATEGORIES) -> ~ In c (map fst SATELLITE_CATEGORIES).
Proof.
  cbn [map fst DEBRIS_CATEGORIES SATELLITE_CATEGORIES In].
  intros H. repeat (destruct H as [<-|H]; [intuition discriminate|]).
  destruct H.
Qed.

Lemma flat_map_map {A B C : Type} (f : B -> list C) (g : A -> B)
    (l : list A) :
  flat_map f (map g l) = flat_map (fun x => f (g x)) l.
Proof.
  induction l as [|x l IH]; cbn [map flat_map]; [reflexivity|].
  now rewrite IH.
Qed.

Lemma flat_map_agree {A B : Type} (f g : A -> list B) (l : list A) :
  (forall x, In x l -> f x = g x) -> flat_map f l = flat_map g l.
Proof.
  induction l as [|x l IH]; intros H; cbn [flat_map]; [reflexivity|].
  rewrite (H x (or_introl eq_refl)), IH; [reflexivity|].
  intros y Hy. apply H. now right.
Qed.

Lemma tracked_In (dir c v : string) :
  In (dir, c, v) tracked <->
  (dir = "satellites" /\ In (c, v) SATELLITE_CATEGORIES)
  \/ (dir = "debris" /\ In (c, v) DEBRIS_CATEGORIES).
Proof.
  unfold tracked. rewrite in_app_iff, !in_map_iff. split.
  - intros [([c' v'] & [= <- <- <-] & H)|([c' v'] & [= <- <- <-] & H)];
      auto.
  - intros [[-> H]|[-> H]]; [left | right]; exists (c, v); auto.
Qed.

(** A name with no separator has no directory. *)
Lemma up_to_last_sep_none (p : string) :
  all_of (fun c => negb (is_sep c)) p = true ->
  up_to_last_sep p = EmptyString.
Proof.
  induction p as [|c p IH]; cbn [all_of up_to_last_sep]; [reflexivity|].
  intros H. apply andb_prop in H as [Hc Hp]. rewrite (IH Hp).
  now destruct (is_sep c).
Qed.

Lemma dirname_none (p : string) :
  all_of (fun c => negb (is_sep c)) p = true -> dirname p = EmptyString.
Proof.
  intros H. unfold dirname. now rewrite (up_to_last_sep_none p H).
Qed.

(** Text with no carriage return is read as it is stored. *)
Lemma universal_newlines_plain (s : string) :
  all_of (fun c => negb (Ascii.eqb c "013")) s = true ->
  universal_newlines s = s.
Proof.
  induction s as [|c s IH]; cbn [all_of universal_newlines];
    [reflexivity|].
  intros H. apply andb_prop in H as [Hc Hs].
  destruct (Ascii.eqb c "013"); [discriminate|]. now rewrite (IH Hs).
Qed.

End TableFacts.

(** ** The update as a whole *)

Module UpdateFacts.
Import Flt Time OrbitPropagation Updater Notions IoFacts UpdaterFacts
  TurnFacts LoopsFacts TableFacts.

(** The steps of [update_all_tle_data]. *)
Lemma update_returns_inv (E : env) (data_dir : string) (h : Z)
    (s s' : state) (upd : list string) (objs : list SpaceObject.t) :
  update_all_tle_data E data_dir h s = Returns (upd, objs) s' ->
  exists upd1 objs1 s1 s2,
    for_each (category_turn E data_dir "satellites" "satellite" h)
             SATELLITE_CATEGORIES ([], []) s
    = Returns (upd1, objs1) s1
    /\ for_each (category_turn E data_dir "debris" "debris" h)
                DEBRIS_CATEGORIES (upd1, objs1) s1
       = Returns (upd, objs) s2
    /\ can_write E (catalog_file data_dir) = true
    /\ s' = printing [SavedObjects (List.length objs)
                                   (catalog_file data_dir)]
              (storing (catalog_file data_dir)
                       (MkFile (json_dump E objs)
                               (stamp E (catalog_file data_dir))) s2).
Proof.
  unfold update_all_tle_data. intros H.
  apply and_then_returns in H as ([upd1 objs1] & s1 & H1 & H).
  apply and_then_returns in H as ([upd2 objs2] & s2 & H2 & H).
  apply and_then_returns in H as ([] & s3 & Hw & H).
  apply and_then_returns in H as ([] & s4 & Hp & H).
  injection H as <- <- <-.
  unfold write_file in Hw. fold (catalog_file data_dir) in Hw, Hp.
  destruct (can_write E (catalog_file data_dir)) eqn:Hcw; [|discriminate].
  injection Hw as <-. injection Hp as <-.
  exists upd1, objs1, s1, s2. repeat split; assumption.
Qed.

(** The files of the categories after the update are those the two loops
    left. *)
Lemma files_after (E : env) (data_dir : string) (h : Z)
    (s s' : state) (upd : list string) (objs : list SpaceObject.t) :
  update_all_tle_data E data_dir h s = Returns (upd, objs) s' ->
  exists upd1 objs1 s1 s2,
    for_each (category_turn E data_dir "satellites" "satellite" h)
             SATELLITE_CATEGORIES ([], []) s
    = Returns (upd1, objs1) s1
    /\ for_each (category_turn E data_dir "debris" "debris" h)
                DEBRIS_CATEGORIES (upd1, objs1) s1
       = Returns (upd, objs) s2
    /\ (forall c, files s' (category_file data_dir "satellites" c)
                  = files s1 (category_file data_dir "satellites" c))
    /\ (forall c, files s' (category_file data_dir "debris" c)
                  = files s2 (category_file data_dir "debris" c))
    /\ (forall c, files s1 (category_file data_dir "debris" c)
                  = files s (category_file data_dir "debris" c))
    /\ (forall q, q <> catalog_file data_dir -> files s' q = files s2 q)
    /\ requested s' = requested s2.
Proof.
  intros H.
  apply update_returns_inv in H as (upd1 & objs1 & s1 & s2 & H1 & H2 & _ & ->).
  exists upd1, objs1, s1, s2. split; [exact H1|]. split; [exact H2|].
  assert (Hother : forall q, q <> catalog_file data_dir ->
            files (printing [SavedObjects (List.length objs)
                                          (catalog_file data_dir)]
                     (storing (catalog_file data_dir)
                        (MkFile (json_dump E objs)
                                (stamp E (catalog_file data_dir))) s2)) q
            = files s2 q).
  { intros q Hq. cbn [files printing]. now apply storing_other. }
  repeat split.
  - intros c. rewrite Hother
      by (intros Heq; symmetry in Heq;
          now apply PathFacts.catalog_not_satellites in Heq).
    apply (loop_frame _ _ _ _ _ _ _ _ _ _ _ _ _ H2).
    intros e _. apply PathFacts.satellites_not_debris.
  - intros c. apply Hother. intros Heq. symmetry in Heq.
    now apply PathFacts.catalog_not_debris in Heq.
  - intros c. apply (loop_frame _ _ _ _ _ _ _ _ _ _ _ _ _ H1).
    intros e _ Heq. symmetry in Heq.
    now apply PathFacts.satellites_not_debris in Heq.
  - exact Hother.
Qed.

End UpdateFacts.

(** ** The requests of the update *)

Module RequestFacts.
Import Flt Time OrbitPropagation Updater Notions IoFacts UpdaterFacts
  TurnFacts LoopsFacts TableFacts UpdateFacts.

(** The requests the update sends. *)
Lemma update_requests_missing (E : env) (data_dir : string) (h : Z)
    (s s' : state) (upd : list string) (objs : list SpaceObject.t) :
  update_all_tle_data E data_dir h s = Returns (upd, objs) s' ->
  (forall t, In t tracked -> files s (tracked_file data_dir t) = None) ->
  requested s'
  = (requested s ++ map (fun t => tle_request (snd t)) tracked)%list.
Proof.
  intros H Hnone.
  apply files_after in H
    as (upd1 & objs1 & s1 & s2 & H1 & H2 & _ & _ & Hs1 & _ & ->).
  rewrite (loop_missing _ _ _ _ _ _ _ _ _ _ _ _ debris_keys
             (fun e He => eq_trans (Hs1 (fst e))
                (Hnone ("debris", fst e, snd e)
                   (proj2 (tracked_In _ _ _)
                      (or_intror (conj eq_refl
                         (eq_ind _ (fun x => In x DEBRIS_CATEGORIES) He _
                            (surjective_pairing e))))))) H2).
  rewrite (loop_missing _ _ _ _ _ _ _ _ _ _ _ _ satellite_keys
             (fun e He => Hnone ("satellites", fst e, snd e)
                   (proj2 (tracked_In _ _ _)
                      (or_introl (conj eq_refl
                         (eq_ind _ (fun x => In x SATELLITE_CATEGORIES) He _
                            (surjective_pairing e)))))) H1).
  unfold tracked. rewrite map_app, !map_map. cbn [snd].
  now rewrite app_assoc.
Qed.

Lemma fresh_needs_update (E : env) (filename : string) (h : Z)
    (s : state) (f : file) :
  - max_delta_days <= h / 24 <= max_delta_days ->
  (forall k, valid_datetime (clock E k)) ->
  files s filename = Some f ->
  valid_datetime (mtime f) ->
  (forall k, microseconds_of (clock E k) - microseconds_of (mtime f)
             <= microseconds_of_hours h) ->
  needs_update E filename h s = Returns false (tick s).
Proof.
  intros Hrange Hclock Hf Hvalid Hfresh.
  rewrite (UpdaterFacts.needs_update_existing E filename h s f Hf Hvalid
             (Hclock _)).
  destruct (Z.leb_spec (- max_delta_days) (h / 24)); [|lia].
  destruct (Z.leb_spec (h / 24) max_delta_days); [|lia].
  cbn [andb]. f_equal. apply Z.ltb_ge. apply Hfresh.
Qed.

Lemma update_requests_fresh (E : env) (data_dir : string) (h : Z)
    (s s' : state) (upd : list string) (objs : list SpaceObject.t) :
  update_all_tle_data E data_dir h s = Returns (upd, objs) s' ->
  - max_delta_days <= h / 24 <= max_delta_days ->
  (forall k, valid_datetime (clock E k)) ->
  (forall t, In t tracked ->
     exists f, files s (tracked_file data_dir t) = Some f
               /\ valid_datetime (mtime f)
               /\ forall k, microseconds_of (clock E k)
                            - microseconds_of (mtime f)
                            <= microseconds_of_hours h) ->
  requested s' = requested s /\ upd = []
  /\ forall q, q <> catalog_file data_dir -> files s' q = files s q.
Proof.
  intros H Hrange Hclock Hfresh.
  apply files_after in H
    as (upd1 & objs1 & s1 & s2 & H1 & H2 & _ & _ & _ & Hoth & Hrq).
  apply loop_fresh in H1 as (-> & Hfs1 & Hrq1).
  - apply loop_fresh in H2 as (-> & Hfs2 & Hrq2).
    + repeat split; [congruence|].
      intros q Hq. rewrite (Hoth q Hq). congruence.
    + intros [c v] s0 Hin Hs0. cbn [fst].
      destruct (Hfresh ("debris", c, v)) as (f & Hf & Hv & Hage).
      { apply tracked_In. now right. }
      exists (tick s0). apply (fresh_needs_update E _ h s0 f); auto.
      rewrite Hs0, Hfs1. exact Hf.
  - intros [c v] s0 Hin Hs0. cbn [fst].
    destruct (Hfresh ("satellites", c, v)) as (f & Hf & Hv & Hage).
    { apply tracked_In. now left. }
    exists (tick s0). apply (fresh_needs_update E _ h s0 f); auto.
    rewrite Hs0. exact Hf.
Qed.

End RequestFacts.

(** ** Line ends *)

Module NewlineFacts.
Import Str Updater Notions.

(** Induction on a text whose carriage returns all stand before a line
    feed. *)
Lemma crlf_ind (P : string -> Prop) :
  P EmptyString ->
  (forall r, crlf_only r = true -> P r ->
             P (String "013" (String "010" r))) ->
  (forall c r, Ascii.eqb c "013" = false -> crlf_only r = true -> P r ->
               P (String c r)) ->
  forall s, crlf_only s = true -> P s.
Proof.
  intros Hnil Hcrlf Hother.
  assert (H : forall n s, (String.length s <= n)%nat ->
                          crlf_only s = true -> P s).
  { induction n as [|n IH]; intros s Hlen Hs.
    - destruct s; [exact Hnil | cbn in Hlen; lia].
    - destruct s as [|c r]; [exact Hnil|].
      cbn [crlf_only] in Hs. cbn [String.length] in Hlen.
      destruct (Ascii.eqb c "013") eqn:Hc.
      + apply Ascii.eqb_eq in Hc. subst c.
        destruct r as [|d r']; [discriminate|].
        apply andb_prop in Hs as [Hd Hr'].
        apply Ascii.eqb_eq in Hd. subst d.
        cbn [String.length] in Hlen.
        apply Hcrlf; [exact Hr'|]. apply IH; [lia | exact Hr'].
      + apply Hother; [exact Hc | exact Hs|]. apply IH; [lia | exact Hs]. }
  intros s. apply (H (String.length s)). lia.
Qed.

Lemma universal_newlines_cons (c : ascii) (r : string) :
  Ascii.eqb c "013" = false ->
  universal_newlines (String c r) = String c (universal_newlines r).
Proof. intros H. cbn [universal_newlines]. now rewrite H. Qed.

Lemma universal_newlines_nonempty (c : ascii) (r : string) :
  universal_newlines (String c r) <> EmptyString.
Proof.
  cbn [universal_newlines]. destruct (Ascii.eqb c "013"); [|discriminate].
  destruct r as [|d r']; [discriminate|].
  destruct (Ascii.eqb d "010"); discriminate.
Qed.

Lemma lstrip_universal (s : string) :
  crlf_only s = true ->
  lstrip_by isspace (universal_newlines s)
  = universal_newlines (lstrip_by isspace s)
  /\ crlf_only (lstrip_by isspace s) = true.
Proof.
  revert s. apply crlf_ind.
  - split; reflexivity.
  - intros r Hr [IH1 IH2]. exact (conj IH1 IH2).
  - intros c r Hc Hr [IH1 IH2].
    rewrite (universal_newlines_cons c r Hc). cbn [lstrip_by].
    destruct (isspace c); [exact (conj IH1 IH2)|].
    split; [now rewrite (universal_newlines_cons c r Hc)|].
    cbn [crlf_only]. now rewrite Hc.
Qed.

Lemma rstrip_universal (s : string) :
  crlf_only s = true ->
  rstrip_by isspace (universal_newlines s)
  = universal_newlines (rstrip_by isspace s)
  /\ crlf_only (rstrip_by isspace s) = true.
Proof.
  revert s. apply crlf_ind.
  - split; reflexivity.
  - intros r Hr [IH1 IH2].
    change (universal_newlines (String "013" (String "010" r)))
      with (String "010" (universal_newlines r)).
    cbn [rstrip_by]. rewrite IH1.
    destruct (rstrip_by isspace r) as [|a b] eqn:Hrs.
    + split; reflexivity.
    + pose proof (universal_newlines_nonempty a b) as Hne.
      destruct (universal_newlines (String a b)) as [|a' b'] eqn:Hu;
        [contradiction|].
      split.
      * change (universal_newlines
                  (String "013" (String "010" (String a b))))
          with (String "010" (universal_newlines (String a b))).
        now rewrite Hu.
      * exact IH2.
  - intros c r Hc Hr [IH1 IH2].
    rewrite (universal_newlines_cons c r Hc). cbn [rstrip_by]. rewrite IH1.
    destruct (rstrip_by isspace r) as [|a b] eqn:Hrs.
    + cbn [universal_newlines]. destruct (isspace c).
      * split; reflexivity.
      * split; [now rewrite (universal_newlines_cons c _ Hc)|].
        cbn [crlf_only]. now rewrite Hc.
    + pose proof (universal_newlines_nonempty a b) as Hne.
      destruct (universal_newlines (String a b)) as [|a' b'] eqn:Hu;
        [contradiction|].
      split.
      * now rewrite (universal_newlines_cons c _ Hc), Hu.
      * cbn [crlf_only]. rewrite Hc. exact IH2.
Qed.

Lemma strip_universal (s : string) :
  crlf_only s = true ->
  strip (universal_newlines s) = universal_newlines (strip s)
  /\ crlf_only (strip s) = true.
Proof.
  intros Hs. unfold strip.
  destruct (lstrip_universal s Hs) as [H1 H2]. rewrite H1.
  exact (rstrip_universal _ H2).
Qed.

(** Read with universal newlines, each line is the line as stored, or the
    line as stored without the carriage return at its end. *)
Lemma split_universal (s : string) :
  crlf_only s = true ->
  Forall2 (fun a b => b = a \/ b = a ++ String "013" EmptyString)
          (split "010" (universal_newlines s)) (split "010" s).
Proof.
  revert s. apply crlf_ind.
  - repeat constructor.
  - intros r Hr IH.
    change (universal_newlines (String "013" (String "010" r)))
      with (String "010" (universal_newlines r)).
    change (split "010" (String "010" (universal_newlines r)))
      with (EmptyString :: split "010" (universal_newlines r)).
    change (split "010" (String "013" (String "010" r)))
      with (String "013" EmptyString :: split "010" r).
    constructor; [now right | exact IH].
  - intros c r Hc Hr IH.
    rewrite (universal_newlines_cons c r Hc). cbn [split].
    destruct (Ascii.eqb c "010").
    + constructor; [now left | exact IH].
    + inversion IH as [|a b t t' Hab Ht Ha Hb]; subst.
      * repeat constructor.
      * constructor; [|exact Ht].
        destruct Hab as [->| ->]; [now left | now right].
Qed.

Lemma strip_final_cr (a : string) :
  strip (a ++ String "013" EmptyString) = strip a.
Proof.
  apply (StripFacts.strip_surrounded EmptyString a (String "013" EmptyString));
    reflexivity.
Qed.

Lemma lines_universal (s : string) :
  crlf_only s = true ->
  map strip (Spec.lines_of (universal_newlines s))
  = map strip (Spec.lines_of s).
Proof.
  intros Hs. unfold Spec.lines_of.
  destruct (strip_universal s Hs) as [-> Hc].
  pose proof (split_universal _ Hc) as H.
  unfold newline.
  induction H as [|a b t t' Hab _ IH]; cbn [map]; [reflexivity|].
  rewrite IH. destruct Hab as [->| ->]; [reflexivity|].
  now rewrite strip_final_cr.
Qed.

End NewlineFacts.

(** ** The properties *)

Import Updater Notions LoopsFacts TableFacts UpdateFacts.

(** X11: [needs_update] answers [True] for a file that does not exist,
    without reading the clock.  For a file that exists it reads the clock
    once and answers whether the age of the file, counted in microseconds,
    is strictly above the interval: a file exactly as old as the interval
    is not stale.  It raises [OverflowError] when the interval has more
    than 999999999 days, or less than -999999999. *)
Theorem needs_update_by_age (E : Updater.env) (filename : string)
    (update_interval_hours : Z) (s : Updater.state) :
  (Updater.files s filename = None ->
   Updater.needs_update E filename update_interval_hours s
   = Updater.Returns true s)
  /\ (forall f,
        Updater.files s filename = Some f ->
        Notions.valid_datetime (Updater.mtime f) ->
        Notions.valid_datetime (Updater.clock E (Updater.ticks s)) ->
        Updater.needs_update E filename update_interval_hours s
        = if ((- Time.max_delta_days <=? update_interval_hours / 24)
              && (update_interval_hours / 24 <=? Time.max_delta_days))%bool
          then Updater.Returns
                 (Notions.microseconds_of_hours update_interval_hours
                  <? Notions.microseconds_of
                       (Updater.clock E (Updater.ticks s))
                     - Notions.microseconds_of (Updater.mtime f))
                 (Updater.tick s)
          else Updater.Raises (Updater.Python OverflowError)).
Proof.
  split.
  - apply UpdaterFacts.needs_update_missing.
  - apply UpdaterFacts.needs_update_existing.
Qed.

Lemma needs_update_by_age_witness :
  Updater.needs_update UpdaterExamples.world
    "data/tle/satellites/active.txt" 24 UpdaterExamples.start
  = Updater.Returns false (Updater.tick UpdaterExamples.start).
Proof.
  apply (proj2 (needs_update_by_age UpdaterExamples.world
                  "data/tle/satellites/active.txt" 24
                  UpdaterExamples.start)
               (Updater.MkFile Examples.crlf_tle UpdaterExamples.day_before)
               eq_refl).
  - valid_by_evaluation.
  - valid_by_evaluation.
Defined.

(** X12: what [load_tle_data] reads from a file that [save_tle_data] has
    written is the text saved, with each carriage return, and the line feed
    after it if there is one, read as one line feed; a text with no carriage
    return is read back as it was saved.  No other file is changed.  For a
    file name with no directory part [save_tle_data] raises [OSError],
    whatever the text and the state of the files: [os.makedirs] is called on
    the empty name. *)
Theorem save_then_load (E : Updater.env) (data filename : string)
    (s : Updater.state) :
  (forall s',
      Updater.save_tle_data E data filename s = Updater.Returns tt s' ->
      Updater.load_tle_data filename s'
      = Updater.Returns (Some (Updater.universal_newlines data)) s'
      /\ forall q, q <> filename -> Updater.files s' q = Updater.files s q)
  /\ (Notions.all_of (fun c => negb (Ascii.eqb c "013")) data = true ->
      Updater.universal_newlines data = data)
  /\ (Notions.all_of (fun c => negb (Updater.is_sep c)) filename = true ->
      Updater.save_tle_data E data filename s
      = Updater.Raises Updater.OSError).
Proof.
  split; [|split].
  - intros s' H. rewrite UpdaterFacts.save_tle_data_eq in H.
    destruct (_ && _)%bool; [|discriminate]. injection H as <-.
    split.
    + rewrite UpdaterFacts.load_tle_data_eq.
      cbn [Updater.files Updater.printing].
      now rewrite LoopsFacts.storing_same.
    + intros q Hq. cbn [Updater.files Updater.printing].
      now apply LoopsFacts.storing_other.
  - apply TableFacts.universal_newlines_plain.
  - intros H. rewrite UpdaterFacts.save_tle_data_eq.
    now rewrite (TableFacts.dirname_none filename H).
Qed.

Lemma save_then_load_witness :
  Updater.load_tle_data "data/tle/x.txt" UpdaterExamples.saved
  = Updater.Returns (Some (Updater.universal_newlines Examples.crlf_tle))
                    UpdaterExamples.saved
  /\ Updater.universal_newlines Examples.iss_tle = Examples.iss_tle
  /\ Updater.save_tle_data UpdaterExamples.world Examples.iss_tle "x.txt"
       UpdaterExamples.nothing
     = Updater.Raises Updater.OSError.
Proof.
  split; [|split].
  - apply (proj1 (save_then_load UpdaterExamples.world Examples.crlf_tle
                    "data/tle/x.txt" UpdaterExamples.nothing)
                 UpdaterExamples.saved).
    vm_compute. reflexivity.
  - apply (proj1 (proj2 (save_then_load UpdaterExamples.world
                           Examples.iss_tle "x.txt"
                           UpdaterExamples.nothing))).
    vm_compute. reflexivity.
  - apply (proj2 (proj2 (save_then_load UpdaterExamples.world
                           Examples.iss_tle "x.txt"
                           UpdaterExamples.nothing))).
    vm_compute. reflexivity.
Defined.

(** X13: when [update_all_tle_data] returns, the entities it returns are
    those of the records of the category files as the update leaves them:
    for each category in turn, the satellites' table first and the debris
    table after it, one entity per record that [parse_tle_data] gives for
    the text [load_tle_data] reads from the file of the category, in order,
    each built at some reading of the clock; nothing is merged when a
    record stands in two files.  The catalog file holds what [json.dump]
    writes for this list, and the last line printed gives its length. *)
Theorem catalog_matches_cache (E : Updater.env) (data_dir : string)
    (update_interval_hours : Z) (s s' : Updater.state)
    (updated : list string) (space_objects : list SpaceObject.t) :
  Updater.update_all_tle_data E data_dir update_interval_hours s
  = Updater.Returns (updated, space_objects) s' ->
  Forall2 (Notions.built E) space_objects
    (flat_map (fun t => Notions.cached_records E s'
                          (Notions.tracked_file data_dir t))
              Notions.tracked)
  /\ Updater.files s' (Notions.catalog_file data_dir)
     = Some (Updater.MkFile (Updater.json_dump E space_objects)
               (Updater.stamp E (Notions.catalog_file data_dir)))
  /\ exists before,
       Updater.printed s'
       = (before
          ++ [Updater.SavedObjects (List.length space_objects)
                                   (Notions.catalog_file data_dir)])%list.
Proof.
  intros H. pose proof H as H'.
  apply files_after in H'
    as (upd1 & objs1 & s1 & s2 & H1 & H2 & Hsat & Hdeb & _ & _ & _).
  apply update_returns_inv in H as (_ & _ & _ & s2' & _ & _ & _ & Hs').
  split; [|split].
  - apply loop_objects in H1 as (new1 & -> & Hnew1);
      [|exact satellite_keys].
    apply loop_objects in H2 as (new2 & -> & Hnew2); [|exact debris_keys].
    unfold tracked. rewrite flat_map_app, !flat_map_map.
    cbn [app]. apply Forall2_app.
    + rewrite (flat_map_agree _
                 (fun e => cached_records E s1
                             (category_file data_dir "satellites" (fst e))));
        [exact Hnew1|].
      intros e _. unfold cached_records, tracked_file. cbn [fst snd].
      now rewrite Hsat.
    + rewrite (flat_map_agree _
                 (fun e => cached_records E s2
                             (category_file data_dir "debris" (fst e))));
        [exact Hnew2|].
      intros e _. unfold cached_records, tracked_file. cbn [fst snd].
      now rewrite Hdeb.
  - rewrite Hs'. cbn [files printing]. apply storing_same.
  - rewrite Hs'. cbn [printed printing storing]. eauto.
Qed.

Lemma catalog_matches_cache_witness :
  Forall2 (Notions.built UpdaterExamples.world) UpdaterExamples.first_objects
    (flat_map (fun t => Notions.cached_records UpdaterExamples.world
                          UpdaterExamples.first_state
                          (Notions.tracked_file "data/tle" t))
              Notions.tracked)
  /\ Updater.files UpdaterExamples.first_state
       (Notions.catalog_file "data/tle")
     = Some (Updater.MkFile
               (Updater.json_dump UpdaterExamples.world
                  UpdaterExamples.first_objects)
               (Updater.stamp UpdaterExamples.world
                  (Notions.catalog_file "data/tle")))
  /\ exists before,
       Updater.printed UpdaterExamples.first_state
       = (before
          ++ [Updater.SavedObjects
                (List.length UpdaterExamples.first_objects)
                (Notions.catalog_file "data/tle")])%list.
Proof.
  apply (catalog_matches_cache UpdaterExamples.world "data/tle" 24
           UpdaterExamples.nothing UpdaterExamples.first_state
           UpdaterExamples.first_updated UpdaterExamples.first_objects).
  vm_compute. reflexivity.
Defined.

(** X14: when [update_all_tle_data] returns, a category is among the keys
    of ["updated"] only if the server gave a text that is not empty for it,
    and then its file holds exactly this text; the file of a category that
    is not among the keys is as it was before the update, so that a failed
    or empty download leaves the cached file in place.  The keys are
    categories of the two tables, and no file other than the files of the
    categories and the catalog file is changed. *)
Theorem updated_flags_and_files (E : Updater.env) (data_dir : string)
    (update_interval_hours : Z) (s s' : Updater.state)
    (updated : list string) (space_objects : list SpaceObject.t) :
  Updater.update_all_tle_data E data_dir update_interval_hours s
  = Updater.Returns (updated, space_objects) s' ->
  (forall dir category value,
      In (dir, category, value) Notions.tracked ->
      (In category updated
       /\ exists text,
            Updater.http_get E Updater.CELESTRAK_URL
              (Notions.tle_request value) = Some text
            /\ nonempty text = true
            /\ Updater.files s' (Notions.category_file data_dir dir category)
               = Some (Updater.MkFile text
                         (Updater.stamp E
                            (Notions.category_file data_dir dir category))))
      \/ (~ In category updated
          /\ Updater.files s' (Notions.category_file data_dir dir category)
             = Updater.files s
                 (Notions.category_file data_dir dir category)))
  /\ (forall category,
        In category updated ->
        exists dir value, In (dir, category, value) Notions.tracked)
  /\ (forall q,
        q <> Notions.catalog_file data_dir ->
        (forall t, In t Notions.tracked ->
                   q <> Notions.tracked_file data_dir t) ->
        Updater.files s' q = Updater.files s q).
Proof.
  intros H.
  apply files_after in H
    as (upd1 & objs1 & s1 & s2 & H1 & H2 & Hsat & Hdeb & Hs1 & Hoth & _).
  destruct (loop_flags _ _ _ _ _ _ _ _ _ _ _ _ satellite_keys
              (fun c _ (H : In c []) => H) H1) as (_ & Hfrom1 & Hcase1).
  assert (Hdis : forall c, In c (map fst DEBRIS_CATEGORIES) -> ~ In c upd1).
  { intros c Hc Hin. apply Hfrom1 in Hin as [[]|Hin].
    now apply (keys_apart c Hc). }
  destruct (loop_flags _ _ _ _ _ _ _ _ _ _ _ _ debris_keys Hdis H2)
    as (Hmono2 & Hfrom2 & Hcase2).
  split; [|split].
  - intros dir c v Hin. apply tracked_In in Hin as [[-> Hin]|[-> Hin]].
    + rewrite Hsat.
      destruct (Hcase1 c v Hin) as [[Hc Hd]|[Hc Hfs]].
      * left. split; [now apply Hmono2 | exact Hd].
      * right. split; [|exact Hfs].
        intros Hc'. apply Hfrom2 in Hc' as [Hc'|Hc']; [contradiction|].
        apply (keys_apart c Hc'). now apply (in_map fst) in Hin.
    + rewrite Hdeb, <- Hs1. exact (Hcase2 c v Hin).
  - intros c Hc. apply Hfrom2 in Hc as [Hc|Hc].
    + apply Hfrom1 in Hc as [[]|Hc].
      apply in_map_iff in Hc as ([c' v] & <- & Hin).
      exists "satellites", v. apply tracked_In. now left.
    + apply in_map_iff in Hc as ([c' v] & <- & Hin).
      exists "debris", v. apply tracked_In. now right.
  - intros q Hq Hnone. rewrite (Hoth q Hq).
    rewrite (loop_frame _ _ _ _ _ _ _ _ _ _ _ _ q H2).
    + apply (loop_frame _ _ _ _ _ _ _ _ _ _ _ _ q H1).
      intros [c v] Hin.
      apply (Hnone ("satellites", c, v)). apply tracked_In. now left.
    + intros [c v] Hin.
      apply (Hnone ("debris", c, v)). apply tracked_In. now right.
Qed.

Lemma updated_flags_and_files_witness :
  (In "stations" UpdaterExamples.first_updated
   /\ exists text,
        Updater.http_get UpdaterExamples.world Updater.CELESTRAK_URL
          (Notions.tle_request "stations") = Some text
        /\ nonempty text = true
        /\ Updater.files UpdaterExamples.first_state
             (Notions.category_file "data/tle" "satellites" "stations")
           = Some (Updater.MkFile text
                     (Updater.stamp UpdaterExamples.world
                        (Notions.category_file "data/tle" "satellites"
                           "stations"))))
  \/ (~ In "stations" UpdaterExamples.first_updated
      /\ Updater.files UpdaterExamples.first_state
           (Notions.category_file "data/tle" "satellites" "stations")
         = Updater.files UpdaterExamples.nothing
             (Notions.category_file "data/tle" "satellites" "stations")).
Proof.
  apply (proj1 (updated_flags_and_files UpdaterExamples.world
                  "data/tle" 24
                  UpdaterExamples.nothing UpdaterExamples.first_state
                  UpdaterExamples.first_updated
                  UpdaterExamples.first_objects
                  ltac:(vm_compute; reflexivity))
               "satellites" "stations" "stations").
  do 2 right. left. reflexivity.
Defined.

(** X15: the requests [update_all_tle_data] sends follow the cache.  With
    no file for any category it sends one request per category, in the order
    of the two tables.  With a file for every category that is never older
    than the interval at any reading of the clock it sends no request, sets
    no key, and leaves every file but the catalog file as it is. *)
Theorem requests_follow_the_cache (E : Updater.env) (data_dir : string)
    (update_interval_hours : Z) (s s' : Updater.state)
    (updated : list string) (space_objects : list SpaceObject.t) :
  Updater.update_all_tle_data E data_dir update_interval_hours s
  = Updater.Returns (updated, space_objects) s' ->
  ((forall t, In t Notions.tracked ->
              Updater.files s (Notions.tracked_file data_dir t) = None) ->
   Updater.requested s'
   = (Updater.requested s
      ++ map (fun t => Notions.tle_request (snd t)) Notions.tracked)%list)
  /\ (- Time.max_delta_days <= update_interval_hours / 24
        <= Time.max_delta_days ->
      (forall k, Notions.valid_datetime (Updater.clock E k)) ->
      (forall t, In t Notions.tracked ->
         exists f,
           Updater.files s (Notions.tracked_file data_dir t) = Some f
           /\ Notions.valid_datetime (Updater.mtime f)
           /\ forall k,
                Notions.microseconds_of (Updater.clock E k)
                - Notions.microseconds_of (Updater.mtime f)
                <= Notions.microseconds_of_hours update_interval_hours) ->
      Updater.requested s' = Updater.requested s
      /\ updated = []
      /\ forall q, q <> Notions.catalog_file data_dir ->
                   Updater.files s' q = Updater.files s q).
Proof.
  intros H. split.
  - now apply RequestFacts.update_requests_missing with (1 := H).
  - now apply RequestFacts.update_requests_fresh with (1 := H).
Qed.

Lemma requests_follow_the_cache_witness :
  Updater.requested UpdaterExamples.first_state
  = (Updater.requested UpdaterExamples.nothing
     ++ map (fun t => Notions.tle_request (snd t)) Notions.tracked)%list
  /\ Updater.requested UpdaterExamples.fresh_state
     = Updater.requested UpdaterExamples.everywhere.
Proof.
  split.
  - apply (proj1 (requests_follow_the_cache UpdaterExamples.world
                    "data/tle" 24
                    UpdaterExamples.nothing UpdaterExamples.first_state
                    UpdaterExamples.first_updated
                    UpdaterExamples.first_objects
                    ltac:(vm_compute; reflexivity))).
    intros t _. reflexivity.
  - apply (proj2 (requests_follow_the_cache UpdaterExamples.world
                    "data/tle" 24
                    UpdaterExamples.everywhere UpdaterExamples.fresh_state
                    [] UpdaterExamples.fresh_objects
                    ltac:(vm_compute; reflexivity))).
    + vm_compute. split; discriminate.
    + intros k. unfold Notions.valid_datetime. cbn. lia.
    + intros t _. exists UpdaterExamples.fresh_file.
      split; [reflexivity|]. split; [valid_by_evaluation|].
      intros k.
      unfold Notions.microseconds_of, Notions.microseconds_of_hours.
      cbn. lia.
Defined.

(** X17: the cache is transparent to the parser for a text with CR LF line
    ends: when every carriage return of a text has a line feed after it,
    [parse_tle_data] gives the same records and prints the same reports for
    the text as [load_tle_data] reads it from a file as for the text
    itself. *)
Theorem cache_preserves_parse libm_pow (tle_data : string)
    (printed : list output) :
  Notions.crlf_only tle_data = true ->
  parse_tle_data_st libm_pow (Updater.universal_newlines tle_data) printed
  = parse_tle_data_st libm_pow tle_data printed.
Proof.
  intros H. rewrite !LoopFacts.parse_tle_data_st_groups.
  now rewrite (CountFacts.triplets_stripped _ _
                 (NewlineFacts.lines_universal tle_data H)).
Qed.

Lemma cache_preserves_parse_witness :
  parse_tle_data_st SampleLibm.pow
    (Updater.universal_newlines Examples.crlf_tle) []
  = parse_tle_data_st SampleLibm.pow Examples.crlf_tle [].
Proof.
  apply (cache_preserves_parse SampleLibm.pow Examples.crlf_tle []).
  vm_compute. reflexivity.
Defined.
